(** * Resume-Formatter: extraction and reconciliation heuristics

    A shallow embedding of the text heuristics of
    [Backend/utils/advanced_resume_parser.py],
    [Backend/utils/word_formatter.py] and
    [Backend/utils/intelligent_formatter.py], and the properties the
    specification states about them; then of [Backend/utils/font_mapper.py],
    [Backend/utils/template_analyzer.py] and [Backend/utils/resume_parser.py],
    with further properties read off the code.

    Python strings are sequences of Unicode code points: [pystr] is
    [list N].  Everything the interpreter decides about a character
    (whitespace, digit, word character, case) is written out for ASCII
    and, for the code points from 128 on, delegated to a record of
    tables, [PyUnicode]. *)

From Stdlib Require Import String Ascii DecimalString.
From Stdlib Require Import NArith Bool Arith Lia List.
Import ListNotations.

Set Implicit Arguments.
Set Warnings "-register-all".

(** ** Strings as code points *)

Abbreviation pystr := (list N) (only parsing).

(** A position in a string being matched: the character before it, if
    any, and what is left. *)
Abbreviation pos := (option N * list N)%type (only parsing).

(** An ASCII literal of the source, as code points. *)
Definition py (s : string) : pystr :=
  List.map N_of_ascii (list_ascii_of_string s).

(** The non-ASCII characters the source names. *)
Definition en_dash : N := 8211%N.      (* U+2013 *)
Definition em_dash : N := 8212%N.      (* U+2014 *)
Definition bullet : N := 8226%N.       (* U+2022 *)
Definition black_circle : N := 9679%N. (* U+25CF *)
Definition zero_width_space : N := 8203%N. (* U+200B *)
Definition byte_order_mark : N := 65279%N. (* U+FEFF *)
Definition i_diaeresis : N := 239%N.   (* U+00EF *)
Definition one_quarter : N := 188%N.   (* U+00BC *)

Definition pystr_eqb (a b : pystr) : bool :=
  if list_eq_dec N.eq_dec a b then true else false.

Lemma pystr_eqb_eq (a b : pystr) : pystr_eqb a b = true <-> a = b.
Proof.
  unfold pystr_eqb. destruct (list_eq_dec N.eq_dec a b); split; congruence.
Qed.

(** Python truthiness of a string: [if s:] / [if not s:]. *)
Definition truthy (s : pystr) : bool :=
  match s with [] => false | _ :: _ => true end.

(** ** ASCII character classes *)

Definition is_ascii (c : N) : bool := (c <? 128)%N.
Definition ascii_upper_letter (c : N) : bool := ((65 <=? c) && (c <=? 90))%N.
Definition ascii_lower_letter (c : N) : bool := ((97 <=? c) && (c <=? 122))%N.
Definition ascii_letter (c : N) : bool :=
  ascii_upper_letter c || ascii_lower_letter c.
Definition ascii_digit (c : N) : bool := ((48 <=? c) && (c <=? 57))%N.
(** [str.isspace] on ASCII: TAB, LF, VT, FF, CR, FS, GS, RS, US and space. *)
Definition ascii_space (c : N) : bool :=
  ((9 <=? c) && (c <=? 13) || (28 <=? c) && (c <=? 32))%N.
Definition ascii_word (c : N) : bool :=
  ascii_letter c || ascii_digit c || (c =? 95)%N.
Definition ascii_lower (c : N) : N :=
  if ascii_upper_letter c then (c + 32)%N else c.

(** Case of a character, as [str.istitle] and [str.isupper] see it. *)
Inductive case_kind := Upper | Title | Lower | Uncased.

(** ** The Unicode database

    What CPython's tables say about code points from 128 on.  The
    embedding never consults them for an ASCII character.  The laws
    are facts of the Unicode database that the proofs rely on. *)
Record PyUnicode := {
  uspace : N -> bool;            (* str.isspace, \s *)
  udigit : N -> bool;            (* decimal digit, \d *)
  uword : N -> bool;             (* alphanumeric, \w *)
  ucase : N -> case_kind;        (* isupper / istitle / islower *)
  ufold : N -> N -> bool;        (* IGNORECASE: ASCII letter against a character *)
  ulower : pystr -> pystr;       (* str.lower of a string that is not all ASCII *)
  uupper : N -> pystr;           (* str.upper of one character *)
  udigit_word : forall c, udigit c = true -> uword c = true;
  uword_nonspace : forall c, uword c = true -> uspace c = false;
  ufold_nondigit : forall p c, ufold p c = true -> udigit c = false;
  udigit_named : forall c,
    In c [i_diaeresis; zero_width_space; byte_order_mark; en_dash; em_dash] ->
    udigit c = false
}.

Section Python.

Context (U : PyUnicode).

(** ** Character classes of the interpreter *)

Definition is_space (c : N) : bool :=
  if is_ascii c then ascii_space c else uspace U c.
Definition is_digit (c : N) : bool :=
  if is_ascii c then ascii_digit c else udigit U c.
Definition is_word (c : N) : bool :=
  if is_ascii c then ascii_word c else uword U c.
Definition char_case (c : N) : case_kind :=
  if is_ascii c then
    (if ascii_upper_letter c then Upper
     else if ascii_lower_letter c then Lower else Uncased)
  else ucase U c.

(** A pattern literal [p] against a subject character [x].  Under
    IGNORECASE an ASCII letter also matches its other case and whatever
    the tables fold onto it; the other literals of the source's patterns
    are uncased and match themselves only. *)
Definition chr_match (ic : bool) (p x : N) : bool :=
  (p =? x)%N
  || (ic && ascii_letter p
      && (if is_ascii x then (ascii_lower x =? ascii_lower p)%N
          else ufold U (ascii_lower p) x)).

(** ** String methods *)

Fixpoint lstrip_by (f : N -> bool) (s : pystr) : pystr :=
  match s with
  | c :: t => if f c then lstrip_by f t else s
  | [] => []
  end.
Definition rstrip_by (f : N -> bool) (s : pystr) : pystr :=
  rev (lstrip_by f (rev s)).
Definition strip_by (f : N -> bool) (s : pystr) : pystr :=
  rstrip_by f (lstrip_by f s).

(** [s.strip()] *)
Definition strip (s : pystr) : pystr := strip_by is_space s.
(** [s.strip(chars)] *)
Definition strip_chars (chars s : pystr) : pystr :=
  strip_by (fun c => existsb (N.eqb c) chars) s.

(** [s.lower()] *)
Definition lower (s : pystr) : pystr :=
  if forallb is_ascii s then List.map ascii_lower s else ulower U s.

(** [s.startswith(p)] *)
Fixpoint startswith (s p : pystr) {struct p} : bool :=
  match p, s with
  | [], _ => true
  | a :: p', b :: s' => (a =? b)%N && startswith s' p'
  | _ :: _, [] => false
  end.

(** [p in s] *)
Fixpoint contains (s p : pystr) : bool :=
  startswith s p || match s with [] => false | _ :: t => contains t p end.

(** [s.replace(old, new)] for a non-empty [old]: the non-overlapping
    occurrences, left to right.  [skip] counts the characters of the
    occurrence being passed over. *)
Fixpoint replace_go (old new s : pystr) (skip : nat) : pystr :=
  match skip, s with
  | S k, _ :: t => replace_go old new t k
  | S _, [] => []
  | O, [] => []
  | O, c :: t =>
      if startswith s old then new ++ replace_go old new t (length old - 1)
      else c :: replace_go old new t 0
  end.
Definition replace (s old new : pystr) : pystr := replace_go old new s 0.

(** [s.split(sep, maxsplit=1)] for a one-character [sep]: [None] is the
    one-element list [[s]], [Some (a, b)] the list [[a, b]]. *)
Fixpoint split1 (sep : N) (s : pystr) : option (pystr * pystr) :=
  match s with
  | [] => None
  | c :: t =>
      if (c =? sep)%N then Some ([], t)
      else match split1 sep t with
           | Some (a, b) => Some (c :: a, b)
           | None => None
           end
  end.

(** [s.istitle()]: [prev] is [previous_is_cased], [cased] whether a
    cased character was seen. *)
Fixpoint istitle_go (s : pystr) (prev cased : bool) : bool :=
  match s with
  | [] => cased
  | c :: t =>
      match char_case c with
      | Upper | Title => if prev then false else istitle_go t true true
      | Lower => if prev then istitle_go t true true else false
      | Uncased => istitle_go t false cased
      end
  end.
Definition istitle (s : pystr) : bool := istitle_go s false false.

(** [s.isupper()] *)
Fixpoint isupper_go (s : pystr) (cased : bool) : bool :=
  match s with
  | [] => cased
  | c :: t =>
      match char_case c with
      | Lower | Title => false
      | Upper => isupper_go t true
      | Uncased => isupper_go t cased
      end
  end.
Definition isupper (s : pystr) : bool := isupper_go s false.

(** [sep.join(parts)] *)
Fixpoint join (sep : pystr) (parts : list pystr) : pystr :=
  match parts with
  | [] => []
  | [a] => a
  | a :: rest => a ++ sep ++ join sep rest
  end.

(** [str(n)] for a non-negative integer. *)
Definition str_of_N (n : N) : pystr :=
  py (NilZero.string_of_uint (N.to_uint n)).

(** ** Regular expressions

    The patterns of the source, as syntax trees, and the backtracking
    matcher of [re]: the ways a pattern matches at a position, in the
    order the matcher tries them.  Capturing and non-capturing groups
    match alike, so groups are not part of the syntax; the one group
    the source reads, in [_extract_dob], ends its pattern and is what
    [search_group] returns. *)

Inductive catom :=
| AChar (c : N)
| ASpace    (* \s *)
| ADigit    (* \d *)
| AWord     (* \w *)
| ANotWord  (* \W *)
| ARange (lo hi : N).  (* lo-hi *)

Inductive re :=
| REmpty
| RChar (c : N)
| RAny                              (* .  (no DOTALL) *)
| RSet (neg : bool) (l : list catom) (* [...] and [^...] *)
| RSeq (a b : re)
| RAlt (a b : re)
| RStar (a : re)                    (* greedy *)
| RWordB                            (* \b *)
| RBol                              (* ^  (no MULTILINE) *)
| REol.                             (* $  (no MULTILINE) *)

Definition RPlus (a : re) : re := RSeq a (RStar a).
Definition ROpt (a : re) : re := RAlt a REmpty.
Definition RSp : re := RSet false [ASpace].
Definition RDig : re := RSet false [ADigit].
Definition RWrd : re := RSet false [AWord].
Fixpoint RStr (s : pystr) : re :=
  match s with
  | [] => REmpty
  | [c] => RChar c
  | c :: t => RSeq (RChar c) (RStr t)
  end.
Fixpoint RAlts (l : list re) : re :=
  match l with
  | [] => RSet false []
  | [a] => a
  | a :: t => RAlt a (RAlts t)
  end.
Fixpoint RSeqs (l : list re) : re :=
  match l with
  | [] => REmpty
  | [a] => a
  | a :: t => RSeq a (RSeqs t)
  end.

Definition in_range (lo hi x : N) : bool := ((lo <=? x) && (x <=? hi))%N.
Definition ascii_swapcase (c : N) : N :=
  if ascii_upper_letter c then (c + 32)%N
  else if ascii_lower_letter c then (c - 32)%N else c.
Definition range_chars (lo hi : N) : list N :=
  List.map (fun i => (lo + N.of_nat i)%N) (seq 0 (N.to_nat (hi + 1 - lo))).

(** A member of a character set against a subject character.  Under
    IGNORECASE a range also takes the characters whose other case, or
    whose fold, lies in it. *)
Definition atom_match (ic : bool) (a : catom) (x : N) : bool :=
  match a with
  | AChar c => chr_match ic c x
  | ASpace => is_space x
  | ADigit => is_digit x
  | AWord => is_word x
  | ANotWord => negb (is_word x)
  | ARange lo hi =>
      in_range lo hi x
      || (ic && (if is_ascii x
                 then ascii_letter x && in_range lo hi (ascii_swapcase x)
                 else existsb (fun p => ascii_letter p
                                        && ufold U (ascii_lower p) x)
                        (range_chars lo hi)))
  end.


Definition word_before (p : pos) : bool :=
  match fst p with Some c => is_word c | None => false end.
Definition word_after (p : pos) : bool :=
  match snd p with c :: _ => is_word c | [] => false end.

Definition step_if (f : N -> bool) (p : pos) : list pos :=
  match snd p with
  | x :: t => if f x then [(Some x, t)] else []
  | [] => []
  end.

(** The positions at which a match of [r] begun at [p] can end, most
    preferred first.  An iteration of a star has to consume input, so
    the number of iterations is at most the length of what is left. *)
Fixpoint ms (ic : bool) (r : re) (p : pos) {struct r} : list pos :=
  match r with
  | REmpty => [p]
  | RChar c => step_if (chr_match ic c) p
  | RAny => step_if (fun x => negb (x =? 10)%N) p
  | RSet neg l =>
      step_if (fun x => xorb neg (existsb (fun a => atom_match ic a x) l)) p
  | RSeq a b => flat_map (ms ic b) (ms ic a p)
  | RAlt a b => ms ic a p ++ ms ic b p
  | RStar a =>
      (fix star (n : nat) (q : pos) {struct n} : list pos :=
         match n with
         | O => [q]
         | S n' =>
             flat_map
               (fun q' =>
                  if length (snd q') <? length (snd q) then star n' q' else [])
               (ms ic a q)
             ++ [q]
         end) (length (snd p)) p
  | RWordB => if xorb (word_before p) (word_after p) then [p] else []
  | RBol => match fst p with None => [p] | Some _ => [] end
  | REol => match snd p with
            | [] => [p]
            | [c] => if (c =? 10)%N then [p] else []
            | _ => []
            end
  end.

(** Length of the match the matcher settles on at a position. *)
Definition match_len (ic : bool) (r : re) (prev : option N) (s : pystr)
  : option nat :=
  match ms ic r (prev, s) with
  | (_, rest) :: _ => Some (length s - length rest)
  | [] => None
  end.

(** [re.search(r, s)]: whether some position has a match. *)
Fixpoint search_from (ic : bool) (r : re) (prev : option N) (s : pystr)
  : bool :=
  match match_len ic r prev s with
  | Some _ => true
  | None => match s with
            | [] => false
            | c :: t => search_from ic r (Some c) t
            end
  end.
Definition re_search (ic : bool) (r : re) (s : pystr) : bool :=
  search_from ic r None s.

(** [re.split(r, s, maxsplit=1)] for a pattern without groups: the text
    before and after the leftmost match, or [None] for [[s]]. *)
Fixpoint split_from (ic : bool) (r : re) (prev : option N) (s : pystr)
  : option (pystr * pystr) :=
  match match_len ic r prev s, s with
  | Some (S n), _ => Some ([], skipn (S n) s)
  | _, [] => None
  | _, c :: t =>
      match split_from ic r (Some c) t with
      | Some (a, b) => Some (c :: a, b)
      | None => None
      end
  end.
Definition re_split1 (ic : bool) (r : re) (s : pystr)
  : option (pystr * pystr) :=
  split_from ic r None s.

(** [re.sub(r, repl, s)] for a replacement without backslashes: the
    non-overlapping matches left to right; an empty match is replaced
    and the scan moves on by one character.  [skip] counts the
    characters of the match being passed over. *)
Fixpoint sub_go (ic : bool) (r : re) (repl : pystr) (prev : option N)
  (s : pystr) (skip : nat) : pystr :=
  match skip with
  | S k => match s with
           | c :: t => sub_go ic r repl (Some c) t k
           | [] => []
           end
  | O =>
      match match_len ic r prev s, s with
      | Some (S n), c :: t => repl ++ sub_go ic r repl (Some c) t n
      | Some _, c :: t => repl ++ c :: sub_go ic r repl (Some c) t 0
      | Some _, [] => repl
      | None, c :: t => c :: sub_go ic r repl (Some c) t 0
      | None, [] => []
      end
  end.
Definition re_sub (ic : bool) (r : re) (repl s : pystr) : pystr :=
  sub_go ic r repl None s 0.

(** [re.findall(r, s)] for a pattern without groups. *)
Fixpoint findall_go (ic : bool) (r : re) (prev : option N) (s : pystr)
  (skip : nat) : list pystr :=
  match skip with
  | S k => match s with
           | c :: t => findall_go ic r (Some c) t k
           | [] => []
           end
  | O =>
      match match_len ic r prev s, s with
      | Some (S n), c :: t => firstn (S n) s :: findall_go ic r (Some c) t n
      | Some _, c :: t => [] :: findall_go ic r (Some c) t 0
      | Some _, [] => [[]]
      | None, c :: t => findall_go ic r (Some c) t 0
      | None, [] => []
      end
  end.
Definition re_findall (ic : bool) (r : re) (s : pystr) : list pystr :=
  findall_go ic r None s 0.

(** ** advanced_resume_parser.py: helpers *)

Definition company_words : list pystr :=
  List.map py ["inc"; "corp"; "ltd"; "llc"; "company"; "technologies";
               "systems"]%string.

(** [any(word in s for word in words)] *)
Definition any_in (words : list pystr) (s : pystr) : bool :=
  existsb (contains s) words.

(** [_normalize_text] *)
Definition _normalize_text (s : pystr) : pystr :=
  if negb (truthy s) then []
  else
    let s := replace s [zero_width_space] (py " ") in
    let s := replace s [i_diaeresis; one_quarter] (py " ") in
    let s := replace s [byte_order_mark] (py " ") in
    strip (re_sub false (RPlus RSp) (py " ") s).

(** [,[^,]*\b(?:city|state|india|usa|uk)\b.*$] *)
Definition location_re : re :=
  RSeqs [RChar 44; RStar (RSet true [AChar 44]); RWordB;
         RAlts (List.map RStr
                  (List.map py ["city"; "state"; "india"; "usa"; "uk"]%string));
         RWordB; RStar RAny; REol].

(** [_strip_location] *)
Definition _strip_location (s : pystr) : pystr :=
  if negb (truthy s) then s
  else strip (re_sub true location_re [] s).

(** [\s*(to|–|—|-)\s*] *)
Definition connector_re : re :=
  RSeqs [RStar RSp;
         RAlts [RStr (py "to"); RChar en_dash; RChar em_dash; RChar 45];
         RStar RSp].

(** [\b(current|present)\b] *)
Definition current_re : re :=
  RSeqs [RWordB; RAlts [RStr (py "current"); RStr (py "present")]; RWordB].

(** [\b(?:19|20)\d{2}\b] *)
Definition year_re : re :=
  RSeqs [RWordB; RAlts [RStr (py "19"); RStr (py "20")]; RDig; RDig; RWordB].

(** The three-way result both cleaning functions end with. *)
Definition format_years (years : list pystr) : pystr :=
  match years with
  | [] => []
  | [y] => y
  | y :: _ => y ++ py "-" ++ last years []
  end.

(** [_clean_years]; [year] is [datetime.now().year]. *)
Definition _clean_years (year : N) (s : pystr) : pystr :=
  if negb (truthy s) then []
  else
    let s := _normalize_text s in
    let s := re_sub true connector_re (py "-") s in
    let s := re_sub true current_re (str_of_N year) s in
    format_years (re_findall false year_re s).

(** [^[\s•\-–—*●]+] *)
Definition bullet_re : re :=
  RSeq RBol
    (RPlus (RSet false [ASpace; AChar bullet; AChar 45; AChar en_dash;
                        AChar em_dash; AChar 42; AChar black_circle])).

(** [_strip_bullet] *)
Definition _strip_bullet (s : pystr) : pystr :=
  if negb (truthy s) then s else re_sub false bullet_re [] s.

Definition month_alts : re :=
  RAlts (List.map RStr
           (List.map py ["Jan"; "Feb"; "Mar"; "Apr"; "May"; "Jun"; "Jul";
                         "Aug"; "Sep"; "Oct"; "Nov"; "Dec"]%string)).

(** [\b(Jan|...|Dec)[a-zA-Z]*\s+(?:19|20)\d{2}\b] *)
Definition month_year_re : re :=
  RSeqs [RWordB; month_alts; RStar (RSet false [ARange 97 122; ARange 65 90]); RPlus RSp;
         RAlts [RStr (py "19"); RStr (py "20")]; RDig; RDig; RWordB].

(** [\b(to|–|—|-)\b] *)
Definition connector_word_re : re :=
  RSeqs [RWordB;
         RAlts [RStr (py "to"); RChar en_dash; RChar em_dash; RChar 45];
         RWordB].

(** [_extract_role_from_dated_line] *)
Definition _extract_role_from_dated_line (s : pystr) : pystr :=
  if negb (truthy s) then []
  else
    let t := _strip_bullet (_normalize_text s) in
    let t := re_sub true month_year_re [] t in
    let t := re_sub false year_re [] t in
    let t := re_sub true connector_word_re [] t in
    let t := re_sub true current_re [] t in
    strip_chars (py " ,;:- ") (re_sub false (RPlus RSp) (py " ") t).

(** [\s+[-–]\s+] *)
Definition dash_split_re : re :=
  RSeqs [RPlus RSp; RSet false [AChar 45; AChar en_dash]; RPlus RSp].

(** [\s+at\s+] *)
Definition at_split_re : re := RSeqs [RPlus RSp; RStr (py "at"); RPlus RSp].

(** The fall-through at the end of [_parse_company_role_line]. *)
Definition company_or_role (line : pystr) : pystr * pystr :=
  if any_in (company_words ++ [py "solutions"]) (lower line)
  then (strip line, [])
  else ([], strip line).

(** [_parse_company_role_line]: the pair is (company, role). *)
Definition _parse_company_role_line (line : pystr) : pystr * pystr :=
  if contains line (py " - ")
     || contains line [32%N; en_dash; 32%N] then
    match re_split1 false dash_split_re line with
    | Some (p0, p1) =>
        if any_in company_words (lower p0) then (strip p0, strip p1)
        else (strip p1, strip p0)
    | None => company_or_role line
    end
  else if contains (lower line) (py " at ") then
    match re_split1 true at_split_re line with
    | Some (p0, p1) => (strip p1, strip p0)
    | None => company_or_role line
    end
  else if contains line (py "|") then
    match split1 124 line with
    | Some (p0, p1) => (strip p1, strip p0)
    | None => company_or_role line
    end
  else if contains line (py ",") then
    match split1 44 line with
    | Some (p0, p1) =>
        if any_in company_words (lower p0) then (strip p0, strip p1)
        else (strip p1, strip p0)
    | None => company_or_role line
    end
  else company_or_role line.

Definition section_keywords : list pystr :=
  List.map py ["experience"; "education"; "skills"; "summary"; "objective";
               "projects"; "certifications"; "awards"; "languages"; "profile";
               "work history"; "employment"; "qualifications";
               "achievements"]%string.

(** [_is_section_header] *)
Definition _is_section_header (line : pystr) : bool :=
  if 50 <? length line then false
  else
    let line_lower := strip (lower line) in
    existsb (fun keyword => pystr_eqb keyword line_lower
                            || startswith line_lower keyword)
            section_keywords.

(** [_looks_like_company_or_role] *)
Definition _looks_like_company_or_role (line : pystr) : bool :=
  (istitle line || isupper line) && (length line <? 100)
  && negb (startswith line [bullet]).

Definition year_prefix : re := RAlts [RStr (py "19"); RStr (py "20")].

(** The three patterns of [_contains_date_range]. *)
Definition date_patterns : list re :=
  [ (* \b(19|20)\d{2}\b.*\b(19|20)\d{2}\b *)
    RSeqs [RWordB; year_prefix; RDig; RDig; RWordB; RStar RAny;
           RWordB; year_prefix; RDig; RDig; RWordB];
    (* \b(Jan|...|Dec)\w*\s+\d{4} *)
    RSeqs [RWordB; month_alts; RStar RWrd; RPlus RSp; RDig; RDig; RDig; RDig];
    (* \d{1,2}/\d{4} *)
    RSeqs [RDig; ROpt RDig; RChar 47; RDig; RDig; RDig; RDig] ].

(** [_contains_date_range] *)
Definition _contains_date_range (line : pystr) : bool :=
  existsb (fun pattern => re_search true pattern line) date_patterns.

(** [_find_section]: [self.lines] is [lines]. *)
Fixpoint find_section_go (keywords : list pystr) (lines : list pystr)
  (in_section : bool) : list pystr :=
  match lines with
  | [] => []
  | line :: rest =>
      if any_in keywords (lower line) then find_section_go keywords rest true
      else if in_section then
        if _is_section_header line then []
        else line :: find_section_go keywords rest true
      else find_section_go keywords rest false
  end.
Definition _find_section (lines keywords : list pystr) : list pystr :=
  find_section_go keywords lines false.

(** ** advanced_resume_parser.py: structured experience *)

Record ExperienceEntry := {
  company : pystr;
  role : pystr;
  title : pystr;
  duration : pystr;
  details : list pystr
}.

(** [while j < len(lines) and (not lines[j] or
    self._is_section_header(lines[j])): j += 1], on [lines[j:]]. *)
Fixpoint skip_headers (l : list pystr) (j : nat) : nat :=
  match l with
  | x :: t =>
      if negb (truthy x) || _is_section_header x then skip_headers t (S j)
      else j
  | [] => j
  end.

(** The test that ends the details of an entry. *)
Definition detail_stop (line : pystr) : bool :=
  _contains_date_range line || _looks_like_company_or_role line
  || _is_section_header line.

(** The detail loop on [lines[k:]]: the details and the index it stops
    at. *)
Fixpoint collect_details (l : list pystr) (k : nat) : list pystr * nat :=
  match l with
  | x :: t =>
      if detail_stop x then ([], k)
      else let '(d, k') := collect_details t (S k) in (x :: d, k')
  | [] => ([], k)
  end.

(** The [while i < len(lines)] loop of [_extract_experience]; [None]
    when [fuel] iterations were not enough. *)
Fixpoint experience_loop (fuel : nat) (year : N) (lines : list pystr)
  (i : nat) : option (list ExperienceEntry) :=
  match fuel with
  | O => None
  | S fuel' =>
      if i <? length lines then
        let line := nth i lines [] in
        if _contains_date_range line then
          (* Case A: date line followed by role/company line *)
          let duration := _clean_years year line in
          let j := skip_headers (skipn (i + 1) lines) (i + 1) in
          let title_line := if j <? length lines then nth j lines [] else [] in
          let company_line := _strip_bullet title_line in
          let '(company, role) := _parse_company_role_line company_line in
          let company :=
            if negb (truthy company) && truthy company_line
            then _strip_location company_line else company in
          let role_from_date := _extract_role_from_dated_line line in
          let role := if truthy role_from_date then role_from_date else role in
          let '(details, k) := collect_details (skipn (j + 1) lines) (j + 1) in
          let exp := {| company := _strip_location company;
                        role := _strip_location role;
                        title := title_line;
                        duration := duration;
                        details := details |} in
          option_map (cons exp) (experience_loop fuel' year lines k)
        else if _looks_like_company_or_role line then
          (* Case B: role/company line followed by date line *)
          let '(company, role) := _parse_company_role_line line in
          let j := i + 1 in
          let dated :=
            (j <? length lines) && _contains_date_range (nth j lines []) in
          let duration :=
            if dated then _clean_years year (nth j lines []) else [] in
          let j := if dated then j + 1 else j in
          let '(details, k) := collect_details (skipn j lines) j in
          let exp := {| company := _strip_location company;
                        role := _strip_location role;
                        title := line;
                        duration := duration;
                        details := details |} in
          option_map (cons exp) (experience_loop fuel' year lines k)
        else experience_loop fuel' year lines (i + 1)
      else Some []
  end.

(** [_extract_experience] from the section [_find_section] returned. *)
Definition experience_of_section (year : N) (section : list pystr)
  : option (list ExperienceEntry) :=
  if match section with [] => true | _ => false end then Some []
  else
    let lines :=
      List.map _normalize_text
        (filter (fun l => truthy l && truthy (strip l)) section) in
    experience_loop (S (length lines)) year lines 0.

Definition experience_keywords : list pystr :=
  List.map py ["experience"; "work history"; "employment";
               "professional experience"]%string.

(** [_extract_experience]; [lines] is [self.lines]. *)
Definition _extract_experience (year : N) (lines : list pystr)
  : option (list ExperienceEntry) :=
  experience_of_section year (_find_section lines experience_keywords).

(** ** Python values, dictionaries and exceptions *)

Inductive pyval :=
| VNone
| VStr (s : pystr)
| VList (l : list pyval)
| VDict (d : list (pystr * pyval)).

(** A [dict] with string keys, in insertion order. *)
Definition pydict := list (pystr * pyval).

Definition py_truthy (v : pyval) : bool :=
  match v with
  | VNone => false
  | VStr s => truthy s
  | VList l => match l with [] => false | _ => true end
  | VDict d => match d with [] => false | _ => true end
  end.

Fixpoint dict_lookup (d : pydict) (k : pystr) : option pyval :=
  match d with
  | [] => None
  | (k', v) :: rest => if pystr_eqb k' k then Some v else dict_lookup rest k
  end.

(** [d.get(k)] *)
Definition dict_get (d : pydict) (k : pystr) : pyval :=
  match dict_lookup d k with Some v => v | None => VNone end.

(** [d[k] = v] *)
Fixpoint dict_set (d : pydict) (k : pystr) (v : pyval) : pydict :=
  match d with
  | [] => [(k, v)]
  | (k', v') :: rest =>
      if pystr_eqb k' k then (k', v) :: rest else (k', v') :: dict_set rest k v
  end.

Inductive exn :=
| ValueError (msg : pystr)
| TypeError
| KeyError (k : pystr)
| ReError.

Inductive result (A : Type) :=
| Ok (a : A)
| Raise (e : exn).
Arguments Ok {A} a.
Arguments Raise {A} e.

Definition bind {A B : Type} (m : result A) (f : A -> result B) : result B :=
  match m with Ok a => f a | Raise e => Raise e end.

(** ** word_formatter.py: durations *)

(** [_clean_duration] *)
Definition _clean_duration (duration : pystr) : pystr :=
  if negb (truthy duration) then []
  else
    let duration := strip duration in
    let duration := re_sub true connector_re (py "-") duration in
    let current_year := py "2025" in
    let duration := re_sub true current_re current_year duration in
    format_years (re_findall false year_re duration).

(** ** word_formatter.py: the literal token map *)

(** The tokens [_create_replacement_map] registers for each field, in
    the order of the source. *)
Definition field_tokens : list (pystr * list pystr) :=
  [ (py "name",
     List.map py ["[NAME]"; "[CANDIDATE NAME]"; "<CANDIDATE NAME>";
                  "<Candidate's full name>"; "<Candidate Name>"; "<Name>";
                  "Your Name"; "CANDIDATE NAME"]%string);
    (py "email",
     List.map py ["[EMAIL]"; "[Email]"; "<EMAIL>"; "<Email>";
                  "<Candidate Email>"]%string);
    (py "phone",
     List.map py ["[PHONE]"; "[Phone]"; "<PHONE>"; "<Phone>";
                  "<Candidate Phone>"]%string);
    (py "address",
     List.map py ["[ADDRESS]"; "[Address]"; "<ADDRESS>"; "<Address>";
                  "Your Address"]%string);
    (py "linkedin",
     List.map py ["[LINKEDIN]"; "[LinkedIn]"; "<LINKEDIN>"; "<LinkedIn>";
                  "linkedin.com/in/username"]%string);
    (py "dob",
     List.map py ["[DOB]"; "[Date of Birth]"; "<DOB>"]%string) ].

(** One [if self.resume_data.get(field):] block. *)
Definition register_field (resume_data : pydict) (replacements : pydict)
  (ft : pystr * list pystr) : pydict :=
  let '(field, tokens) := ft in
  if py_truthy (dict_get resume_data field) then
    fold_left (fun m token => dict_set m token (dict_get resume_data field))
              tokens replacements
  else replacements.

(** [_create_replacement_map] *)
Definition _create_replacement_map (resume_data : pydict) : pydict :=
  fold_left (register_field resume_data) field_tokens [].

(** ** word_formatter.py: replacing in a paragraph *)

(** A paragraph is its runs; a run is its text. *)
Definition paragraph := list pystr.

(** [paragraph.text] *)
Definition para_text (p : paragraph) : pystr := concat p.

(** [_text_contains] *)
Definition _text_contains (text search_term : pystr) : bool :=
  contains (lower text) (lower search_term).

(** What [re.sub] does with a replacement that has a backslash in it is
    the library's template language: [sub_escaped ic r repl s] is its
    result, [None] when it raises [re.error]. *)
Context (sub_escaped : bool -> re -> pystr -> pystr -> option pystr).

(** [re.compile(re.escape(search_term), re.IGNORECASE).sub(replacement,
    text)] *)
Definition pattern_sub (search_term : pystr) (replacement : pyval)
  (text : pystr) : result pystr :=
  match replacement with
  | VStr repl =>
      if existsb (N.eqb 92) repl then
        match sub_escaped true (RStr search_term) repl text with
        | Some t => Ok t
        | None => Raise ReError
        end
      else Ok (re_sub true (RStr search_term) repl text)
  | _ => Raise TypeError
  end.

(** The first loop of [_replace_in_paragraph]: the runs and [replaced]. *)
Fixpoint replace_in_runs (runs : list pystr) (search_term : pystr)
  (replacement : pyval) : result (list pystr * nat) :=
  match runs with
  | [] => Ok ([], 0)
  | run :: rest =>
      if _text_contains run search_term then
        bind (pattern_sub search_term replacement run) (fun run' =>
        bind (replace_in_runs rest search_term replacement) (fun '(rs, n) =>
        Ok (run' :: rs, S n)))
      else
        bind (replace_in_runs rest search_term replacement) (fun '(rs, n) =>
        Ok (run :: rs, n))
  end.

(** [_replace_in_paragraph]: the paragraph afterwards and [replaced]. *)
Definition _replace_in_paragraph (p : paragraph) (search_term : pystr)
  (replacement : pyval) : result (paragraph * nat) :=
  bind (replace_in_runs p search_term replacement) (fun '(runs, replaced) =>
  if (replaced =? 0) && _text_contains (para_text runs) search_term then
    let full_text := para_text runs in
    bind (pattern_sub search_term replacement full_text) (fun new_text =>
    if negb (pystr_eqb new_text full_text) then
      match runs with
      | _ :: rest => Ok (new_text :: List.map (fun _ => []) rest, replaced + 1)
      | [] => Ok ([new_text], replaced + 1)
      end
    else Ok (runs, replaced))
  else Ok (runs, replaced)).

(** [for key, value in replacements.items(): if
    self._text_contains(paragraph.text, key): ...]: the paragraph
    afterwards and the sum of the counts. *)
Fixpoint apply_replacements (replacements : pydict) (p : paragraph)
  : result (paragraph * nat) :=
  match replacements with
  | [] => Ok (p, 0)
  | (key, value) :: rest =>
      if _text_contains (para_text p) key then
        bind (_replace_in_paragraph p key value) (fun '(p', n) =>
        bind (apply_replacements rest p') (fun '(p'', m) => Ok (p'', n + m)))
      else apply_replacements rest p
  end.

(** The literal-token step for a body paragraph, lines 142 to 153 of
    [_format_docx_file]: blank paragraphs are skipped.  The regex
    placeholder pass of lines 155 to 216 follows it in the same
    iteration. *)
Definition body_paragraph (replacements : pydict) (p : paragraph)
  : result paragraph :=
  if negb (truthy (strip (para_text p))) then Ok p
  else bind (apply_replacements replacements p) (fun '(p', _) => Ok p').

Fixpoint map_result {A B : Type} (f : A -> result B) (l : list A)
  : result (list B) :=
  match l with
  | [] => Ok []
  | a :: rest =>
      bind (f a) (fun b => bind (map_result f rest) (fun bs => Ok (b :: bs)))
  end.

(** ** word_formatter.py: tables *)

Definition cell := list paragraph.
Definition table := list (list cell).

(** [cell.text] *)
Definition cell_text (c : cell) : pystr := 
  join [10%N] (List.map para_text c).

(** [cell.text = s] *)
Definition cell_of_text (s : pystr) : cell := [[s]].

Definition skills_keywords : list pystr :=
  List.map py ["skill"; "skills"; "technology"; "competency"]%string.
Definition years_keywords : list pystr :=
  List.map py ["years"; "experience"; "years used";
               "years of experience"]%string.
Definition last_used_keywords : list pystr :=
  List.map py ["last used"; "last"; "recent"; "most recent"]%string.

(** [[cell.text.strip().lower() for cell in header_row.cells]] *)
Definition header_texts (t : table) : list pystr :=
  List.map (fun c => lower (strip (cell_text c))) (hd [] t).

(** [any(any(kw in h for kw in keywords) for h in header_texts)] *)
Definition has_col (keywords : list pystr) (headers : list pystr) : bool :=
  existsb (fun h => existsb (fun kw => contains h kw) keywords) headers.

(** [_is_skills_table] *)
Definition _is_skills_table (t : table) : bool :=
  if length t <? 2 then false
  else
    let hs := header_texts t in
    has_col skills_keywords hs
    && (has_col years_keywords hs || has_col last_used_keywords hs).

Record skill_info := {
  skill : pystr;
  years : pystr;
  last_used : pystr
}.

(** The column loop of [_fill_skills_table]: the last header of each
    family wins. *)
Fixpoint find_columns (headers : list pystr) (idx : nat)
  (cols : option nat * option nat * option nat)
  : option nat * option nat * option nat :=
  match headers with
  | [] => cols
  | header :: rest =>
      let '(skill_col, years_col, last_used_col) := cols in
      find_columns rest (S idx)
        (if contains header (py "skill") || contains header (py "technology")
         then (Some idx, years_col, last_used_col)
         else if contains header (py "years")
                 || contains header (py "experience")
         then (skill_col, Some idx, last_used_col)
         else if contains header (py "last") || contains header (py "recent")
         then (skill_col, years_col, Some idx)
         else cols)
  end.

Fixpoint set_nth {A : Type} (l : list A) (i : nat) (a : A) : list A :=
  match l, i with
  | [], _ => []
  | _ :: t, O => a :: t
  | x :: t, S i' => x :: set_nth t i' a
  end.

Definition set_col (col : option nat) (text : pystr) (row : list cell)
  : list cell :=
  match col with
  | Some i => set_nth row i (cell_of_text text)
  | None => row
  end.

(** [_fill_skills_table]; [skills_data] is what
    [_extract_skills_with_details] returned.  The table afterwards and
    [filled_count]. *)
Definition _fill_skills_table (skills_data : list skill_info) (t : table)
  : table * nat :=
  if length t <? 2 then (t, 0)
  else
    let '(skill_col, years_col, last_used_col) :=
      find_columns (header_texts t) 0 (None, None, None) in
    match skill_col, skills_data with
    | None, _ => (t, 0)
    | _, [] => (t, 0)
    | Some _, _ =>
        let shown := firstn 15 skills_data in
        let blank := List.map (fun _ => cell_of_text []) (hd [] t) in
        let new_row (si : skill_info) :=
          set_col last_used_col (last_used si)
            (set_col years_col (years si)
               (set_col skill_col (skill si) blank)) in
        (hd [] t :: List.map new_row shown, length shown)
    end.

(** The step of [_format_docx_file] for one table: a skills table is
    filled, any other has its literal tokens replaced. *)
Definition format_table (replacements : pydict)
  (skills_data : list skill_info) (t : table) : result table :=
  if _is_skills_table t then Ok (fst (_fill_skills_table skills_data t))
  else
    map_result
      (map_result
         (map_result (fun p =>
            bind (apply_replacements replacements p)
                 (fun '(p', _) => Ok p'))))
      t.

(** The literal-token loops over the header and the footer paragraphs of
    one section, lines 244 to 255. *)
Definition header_footer (replacements : pydict)
  (hf : list paragraph * list paragraph)
  : result (list paragraph * list paragraph) :=
  let literal p :=
    bind (apply_replacements replacements p) (fun '(p', _) => Ok p') in
  bind (map_result literal (fst hf)) (fun h =>
  bind (map_result literal (snd hf)) (fun f => Ok (h, f))).

(** [WordFormatter.format]: the two lookups made before the [try], and
    the [try] around the rest, whose outcome is [body]. *)
Definition WordFormatter_format (resume_data : pydict) (template_path : pyval)
  (body : result bool) : result bool :=
  match template_path with
  | VStr _ =>
      match dict_lookup resume_data (py "name") with
      | None => Raise (KeyError (py "name"))
      | Some _ =>
          match body with
          | Ok b => Ok b
          | Raise _ => Ok false
          end
      end
  | _ => Raise TypeError
  end.

(** ** advanced_resume_parser.py: the other fields *)

(** [s.split()] *)
Fixpoint split_ws_go (s cur : pystr) : list pystr :=
  match s with
  | [] => if truthy cur then [rev cur] else []
  | c :: t =>
      if is_space c then
        (if truthy cur then rev cur :: split_ws_go t [] else split_ws_go t [])
      else split_ws_go t (c :: cur)
  end.
Definition split_ws (s : pystr) : list pystr := split_ws_go s [].

(** [s.split(sep)] for a one-character [sep] *)
Fixpoint split_char_go (sep : N) (s cur : pystr) : list pystr :=
  match s with
  | [] => [rev cur]
  | c :: t =>
      if (c =? sep)%N then rev cur :: split_char_go sep t []
      else split_char_go sep t (c :: cur)
  end.
Definition split_char (sep : N) (s : pystr) : list pystr :=
  split_char_go sep s [].

(** [re.split(r, s)] for a pattern without groups that matches no empty
    string. *)
Fixpoint re_split_go (ic : bool) (r : re) (prev : option N) (s : pystr)
  (skip : nat) (cur : pystr) : list pystr :=
  match skip with
  | S k => match s with
           | c :: t => re_split_go ic r (Some c) t k cur
           | [] => [rev cur]
           end
  | O =>
      match match_len ic r prev s, s with
      | Some (S n), c :: t => rev cur :: re_split_go ic r (Some c) t n []
      | _, c :: t => re_split_go ic r (Some c) t 0 (c :: cur)
      | _, [] => [rev cur]
      end
  end.
Definition re_split (ic : bool) (r : re) (s : pystr) : list pystr :=
  re_split_go ic r None s 0 [].

(** [re.search(r, s).group(0)], [None] without a match. *)
Fixpoint search_text_from (ic : bool) (r : re) (prev : option N) (s : pystr)
  : option pystr :=
  match match_len ic r prev s with
  | Some n => Some (firstn n s)
  | None => match s with
            | [] => None
            | c :: t => search_text_from ic r (Some c) t
            end
  end.
Definition search_text (ic : bool) (r : re) (s : pystr) : option pystr :=
  search_text_from ic r None s.

(** [re.search(r, s).start()] *)
Fixpoint search_start_from (ic : bool) (r : re) (prev : option N) (s : pystr)
  (i : nat) : option nat :=
  match match_len ic r prev s with
  | Some _ => Some i
  | None => match s with
            | [] => None
            | c :: t => search_start_from ic r (Some c) t (S i)
            end
  end.
Definition search_start (ic : bool) (r : re) (s : pystr) : option nat :=
  search_start_from ic r None s 0.

(** The first way, in the matcher's order, to match [prefix] and then
    [group] from a position: the text of [group]. *)
Fixpoint first_group (ic : bool) (group : re)
  (ends : list (option N * pystr)) : option pystr :=
  match ends with
  | [] => None
  | q :: rest =>
      match match_len ic group (fst q) (snd q) with
      | Some n => Some (firstn n (snd q))
      | None => first_group ic group rest
      end
  end.

(** [re.search(prefix + '(' + group + ')', s).group(1)] *)
Fixpoint search_group_from (ic : bool) (prefix group : re) (prev : option N)
  (s : pystr) : option pystr :=
  match first_group ic group (ms ic prefix (prev, s)) with
  | Some g => Some g
  | None => match s with
            | [] => None
            | c :: t => search_group_from ic prefix group (Some c) t
            end
  end.
Definition search_group (ic : bool) (prefix group : re) (s : pystr)
  : option pystr :=
  search_group_from ic prefix group None s.

(** [re.match(r, s)] as a truth value *)
Definition re_match (ic : bool) (r : re) (s : pystr) : bool :=
  match ms ic r (None, s) with [] => false | _ :: _ => true end.

(** [r{n}] and the greedy [r{lo,hi}] *)
Fixpoint RTimes (n : nat) (a : re) : re :=
  match n with O => REmpty | S n' => RSeq a (RTimes n' a) end.
Fixpoint RUpTo (n : nat) (a : re) : re :=
  match n with O => REmpty | S n' => ROpt (RSeq a (RUpTo n' a)) end.
Definition RBetween (lo hi : nat) (a : re) : re :=
  RSeq (RTimes lo a) (RUpTo (hi - lo) a).

Definition alnum_atoms : list catom :=
  [ARange 65 90; ARange 97 122; ARange 48 57].

(** [\b[A-Za-z0-9._%+-]+@[A-Za-z0-9.-]+\.] and the letters that end
    it: [[A-Za-z]{2,}\b] in [_extract_name], [[A-Z|a-z]{2,}\b] in
    [_extract_email]. *)
Definition email_re (tail : list catom) : re :=
  RSeqs [RWordB;
         RPlus (RSet false
                  (alnum_atoms ++ [AChar 46; AChar 95; AChar 37; AChar 43;
                                   AChar 45]));
         RChar 64;
         RPlus (RSet false (alnum_atoms ++ [AChar 46; AChar 45]));
         RChar 46;
         RSeq (RTimes 2 (RSet false tail)) (RStar (RSet false tail));
         RWordB].
Definition name_email_re : re := email_re [ARange 65 90; ARange 97 122].
Definition contact_email_re : re :=
  email_re [ARange 65 90; AChar 124; ARange 97 122].

(** The three phone patterns; [sep] is [[-\s]] in [_extract_name] and
    [[-.\s]] in [_extract_phone]. *)
Definition phone_patterns (sep : re) : list re :=
  [ (* (?:\+?\d{1,3}sep?)?\(?\d{3}\)?sep?\d{3}sep?\d{4} *)
    RSeqs [ROpt (RSeqs [ROpt (RChar 43); RBetween 1 3 RDig; ROpt sep]);
           ROpt (RChar 40); RTimes 3 RDig; ROpt (RChar 41); ROpt sep;
           RTimes 3 RDig; ROpt sep; RTimes 4 RDig];
    (* (?:\+?91sep?)?\d{10} *)
    RSeqs [ROpt (RSeqs [ROpt (RChar 43); RStr (py "91"); ROpt sep]);
           RTimes 10 RDig];
    (* \+?\d{1,3}sep?\d{2,5}sep?\d{5,10} *)
    RSeqs [ROpt (RChar 43); RBetween 1 3 RDig; ROpt sep; RBetween 2 5 RDig;
           ROpt sep; RBetween 5 10 RDig] ].
Definition name_phone_sep : re := RSet false [AChar 45; ASpace].
Definition phone_sep : re := RSet false [AChar 45; AChar 46; ASpace].

(** [@|http|linkedin|\d{3}[-.\s]\d{3}] *)
Definition contact_re : re :=
  RAlts [RChar 64; RStr (py "http"); RStr (py "linkedin");
         RSeqs [RTimes 3 RDig; phone_sep; RTimes 3 RDig]].

(** [_has_contact_info] *)
Definition _has_contact_info (text : pystr) : bool :=
  re_search true contact_re text.

(** [^[A-Z][a-zA-Z]+(?:\s+[A-Z][a-zA-Z\-\.]+){1,3}$] *)
Definition strict_name_re : re :=
  let letters := [ARange 97 122; ARange 65 90] in
  RSeqs [RBol; RSet false [ARange 65 90]; RPlus (RSet false letters);
         RBetween 1 3
           (RSeqs [RPlus RSp; RSet false [ARange 65 90];
                   RPlus (RSet false (letters ++ [AChar 45; AChar 46]))]);
         REol].

(** [[\W_]+] *)
Definition stem_split_re : re := RPlus (RSet false [ANotWord; AChar 95]).

Definition name_blacklist : list pystr :=
  List.map py ["resume"; "cv"; "profile"; "updated"; "final"; "copy"; "doc";
               "docx"; "pdf"]%string.

(** [c.upper()] for one character *)
Definition upper_char (c : N) : pystr :=
  if is_ascii c then [if ascii_lower_letter c then (c - 32)%N else c]
  else uupper U c.

(** [w[:1].upper() + w[1:]] *)
Definition capitalize_first (w : pystr) : pystr :=
  match w with [] => [] | c :: t => upper_char c ++ t end.

(** [w[:1].isupper()] *)
Definition first_isupper (w : pystr) : bool :=
  match w with
  | [] => false
  | c :: _ => match char_case c with Upper => true | _ => false end
  end.

(** The index of the first element that satisfies [f]. *)
Fixpoint find_index {A : Type} (f : A -> bool) (l : list A) (i : nat)
  : option nat :=
  match l with
  | [] => None
  | a :: t => if f a then Some i else find_index f t (S i)
  end.

(** [min([i for i in [a, b] if i is not None], default=None)] *)
Definition min_index (a b : option nat) : option nat :=
  match a, b with
  | Some x, Some y => Some (Nat.min x y)
  | Some x, None => Some x
  | None, Some y => Some y
  | None, None => None
  end.

(** The test on a line above the earliest contact line. *)
Definition looks_like_name (line : pystr) : bool :=
  let words := split_ws line in
  (1 <? length words) && (length words <=? 5)
  && (Nat.max 2 (length words - 1)
      <=? length (filter first_isupper words)).

(** [os.path.splitext(os.path.basename(path))[0]], which is the
    platform's. *)
Context (os_path_stem : pystr -> pystr).

(** [_extract_name]; [lines] is [self.lines]. *)
Definition _extract_name (file_path : pystr) (lines : list pystr) : pystr :=
  let head30 := firstn 30 lines in
  let email_idx := find_index (re_search false name_email_re) head30 0 in
  let phone_idx :=
    find_index
      (fun line => existsb (fun r => re_search false r line)
                     (phone_patterns name_phone_sep))
      head30 0 in
  let above :=
    match min_index email_idx phone_idx with
    | Some pivot =>
        let start := Nat.max 0 (pivot - 3) in
        find looks_like_name
          (filter (fun line => negb (_has_contact_info line))
             (List.map strip (firstn (pivot + 1 - start) (skipn start lines))))
    | None => None
    end in
  match above with
  | Some line => line
  | None =>
      match find (fun line =>
                    negb (_has_contact_info line)
                    && negb ((length line <? 3) || (60 <? length line))
                    && re_match false strict_name_re (strip line))
                 (firstn 10 lines) with
      | Some line => strip line
      | None =>
          let tokens :=
            filter (fun t => truthy t
                             && negb (existsb (pystr_eqb (lower t))
                                        name_blacklist))
              (re_split false stem_split_re (os_path_stem file_path)) in
          if (1 <=? length tokens) && (length tokens <=? 4) then
            join (py " ")
              (List.map capitalize_first (split_ws (join (py " ") tokens)))
          else py "Unknown Candidate"
      end
  end.

(** [_extract_email] *)
Definition _extract_email (raw_text : pystr) : pystr :=
  match search_text false contact_email_re raw_text with
  | Some g => g
  | None => []
  end.

(** [_extract_phone] *)
Definition _extract_phone (raw_text : pystr) : pystr :=
  let fix go (patterns : list re) : pystr :=
    match patterns with
    | [] => []
    | pattern :: rest =>
        match search_text false pattern raw_text with
        | Some g => g
        | None => go rest
        end
    end in
  go (phone_patterns phone_sep).

Definition address_keywords : list pystr :=
  List.map py ["street"; "avenue"; "road"; "city"; "state"; "zip";
               "postal"]%string.

(** [_extract_address] *)
Definition _extract_address (lines : list pystr) : pystr :=
  match find (fun line => any_in address_keywords (lower line)) lines with
  | Some line => line
  | None => []
  end.

(** [(?:https?://)?(?:www\.)?linkedin\.com/in/[\w-]+] *)
Definition linkedin_re : re :=
  RSeqs [ROpt (RSeqs [RStr (py "http"); ROpt (RChar 115); RStr (py "://")]);
         ROpt (RStr (py "www."));
         RStr (py "linkedin.com/in/");
         RPlus (RSet false [AWord; AChar 45])].

(** [_extract_linkedin] *)
Definition _extract_linkedin (raw_text : pystr) : pystr :=
  match search_text true linkedin_re raw_text with
  | Some g => g
  | None => []
  end.

(** [(?:DOB|Date of Birth|Birth Date)[\s:]+] *)
Definition dob_prefix_re : re :=
  RSeq (RAlts [RStr (py "DOB"); RStr (py "Date of Birth");
               RStr (py "Birth Date")])
       (RPlus (RSet false [ASpace; AChar 58])).

(** The groups of the two patterns of [_extract_dob]. *)
Definition dob_groups : list re :=
  [ (* \d{1,2}[-/]\d{1,2}[-/]\d{2,4} *)
    RSeqs [RBetween 1 2 RDig; RSet false [AChar 45; AChar 47];
           RBetween 1 2 RDig; RSet false [AChar 45; AChar 47];
           RBetween 2 4 RDig];
    (* \w+ \d{1,2},? \d{4} *)
    RSeqs [RPlus RWrd; RChar 32; RBetween 1 2 RDig; ROpt (RChar 44);
           RChar 32; RTimes 4 RDig] ].

(** [_extract_dob] *)
Definition _extract_dob (raw_text : pystr) : pystr :=
  let fix go (groups : list re) : pystr :=
    match groups with
    | [] => []
    | group :: rest =>
        match search_group true dob_prefix_re group raw_text with
        | Some g => g
        | None => go rest
        end
    end in
  go dob_groups.

(** The lines up to the first section header. *)
Fixpoint until_header (lines : list pystr) : list pystr :=
  match lines with
  | [] => []
  | line :: rest =>
      if _is_section_header line then [] else line :: until_header rest
  end.

Definition summary_keywords : list pystr :=
  List.map py ["summary"; "objective"; "profile"; "about"]%string.

(** [_extract_summary] *)
Fixpoint _extract_summary (lines : list pystr) : pystr :=
  match lines with
  | [] => []
  | line :: rest =>
      if any_in summary_keywords (lower line)
      then join (py " ") (until_header (firstn 5 rest))
      else _extract_summary rest
  end.

Record EducationEntry := {
  degree : pystr;
  institution : pystr;
  edu_year : pystr;
  edu_details : list pystr
}.

Definition institution_words : list pystr :=
  List.map py ["university"; "college"; "school"; "institute";
               "academy"]%string.

(** [(university|college|school|institute|academy)\b.*] *)
Definition institution_re : re :=
  RSeqs [RAlts (List.map RStr institution_words); RWordB; RStar RAny].

(** [\s+from\s+] *)
Definition from_split_re : re :=
  RSeqs [RPlus RSp; RStr (py "from"); RPlus RSp].

(** [_parse_degree_institution_line]: the pair is (degree,
    institution). *)
Definition _parse_degree_institution_line (line : pystr) : pystr * pystr :=
  let s := _strip_bullet (_normalize_text line) in
  let strip2 (parts : option (pystr * pystr)) : pystr * pystr :=
    match parts with
    | Some (p0, p1) => (strip p0, strip p1)
    | None => (strip s, [])
    end in
  match search_start true institution_re s with
  | Some start =>
      (strip_chars (py " ,;:-") (firstn start s),
       _strip_location (strip (skipn start s)))
  | None =>
      if contains s (py ",") then
        match split1 44 s with
        | Some (p0, p1) => (strip p0, strip p1)
        | None => (strip s, [])
        end
      else if contains s (py " - ") || contains s [32%N; en_dash; 32%N] then
        strip2 (re_split1 false dash_split_re s)
      else if contains s (py "|") then strip2 (split1 124 s)
      else if contains (lower s) (py " from ") then
        strip2 (re_split1 true from_split_re s)
      else (strip s, [])
  end.

(** The loop of [_extract_education] on [lines[i:]]; [skip] says that
    the first line was taken as the year of the entry before. *)
Fixpoint education_loop (year : N) (lines : list pystr) (skip : bool)
  : list EducationEntry :=
  match lines with
  | [] => []
  | line :: rest =>
      if skip then education_loop year rest false
      else if contains line (py ":") || any_in institution_words (lower line)
      then
        let '(degree, institution) := _parse_degree_institution_line line in
        let dated :=
          match rest with
          | next :: _ => _contains_date_range next
          | [] => false
          end in
        {| degree := strip degree;
           institution := _strip_location institution;
           edu_year := if dated then _clean_years year (hd [] rest)
                       else _clean_years year line;
           edu_details := [] |}
        :: education_loop year rest dated
      else education_loop year rest false
  end.

(** The lines of a section that [_extract_experience] and
    [_extract_education] work on. *)
Definition section_lines (section : list pystr) : list pystr :=
  List.map _normalize_text
    (filter (fun l => truthy l && truthy (strip l)) section).

(** [_extract_education] *)
Definition _extract_education (year : N) (lines : list pystr)
  : list EducationEntry :=
  education_loop year
    (section_lines
       (_find_section lines
          (List.map py ["education"; "academic"; "qualification"]%string)))
    false.

(** [[,|•]] *)
Definition skill_split_re : re :=
  RSet false [AChar 44; AChar 124; AChar bullet].

(** [_extract_skills] *)
Definition _extract_skills (lines : list pystr) : list pystr :=
  flat_map
    (fun line =>
       if contains line (py ",") || contains line (py "|")
          || contains line [bullet]
       then filter truthy (List.map strip (re_split false skill_split_re line))
       else if truthy line && negb (_is_section_header line) then [line]
       else [])
    (_find_section lines
       (List.map py ["skills"; "technical skills"; "competencies";
                     "expertise"]%string)).

(** [current_project.setdefault('details', []).append(line)] *)
Definition append_detail (project : pydict) (line : pystr) : pydict :=
  match dict_lookup project (py "details") with
  | Some (VList l) => dict_set project (py "details") (VList (l ++ [VStr line]))
  | _ => dict_set project (py "details") (VList [VStr line])
  end.

(** The loop of [_extract_projects]; [current] is [current_project]. *)
Fixpoint projects_loop (lines : list pystr) (current : pydict)
  : list pyval :=
  match lines with
  | [] => match current with [] => [] | _ => [VDict current] end
  | line :: rest =>
      if truthy line && negb (startswith line [bullet])
         && negb (_is_section_header line)
      then
        (match current with [] => [] | _ => [VDict current] end)
        ++ projects_loop rest
             [(py "name", VStr line); (py "details", VList [])]
      else if truthy line then projects_loop rest (append_detail current line)
      else projects_loop rest current
  end.

(** [_extract_projects] *)
Definition _extract_projects (lines : list pystr) : list pyval :=
  projects_loop
    (_find_section lines
       (List.map py ["projects"; "key projects"; "project work"]%string))
    [].

(** The body shared by [_extract_certifications], [_extract_awards] and
    [_extract_languages]. *)
Definition section_items (lines keywords : list pystr) : list pystr :=
  filter (fun line => truthy line && negb (_is_section_header line))
    (_find_section lines keywords).

Definition _extract_certifications (lines : list pystr) : list pystr :=
  section_items lines
    (List.map py ["certifications"; "certificates"; "licenses"]%string).
Definition _extract_awards (lines : list pystr) : list pystr :=
  section_items lines
    (List.map py ["awards"; "achievements"; "honors"; "recognition"]%string).
Definition _extract_languages (lines : list pystr) : list pystr :=
  section_items lines
    (List.map py ["languages"; "language proficiency"]%string).

(** [sections[current_section].append(line)] on a [defaultdict(list)] *)
Definition append_to_section (sections : pydict) (key line : pystr)
  : pydict :=
  match dict_lookup sections key with
  | Some (VList l) => dict_set sections key (VList (l ++ [VStr line]))
  | _ => dict_set sections key (VList [VStr line])
  end.

(** The loop of [_extract_sections]; [current] is [current_section],
    [None] before the first header. *)
Fixpoint sections_loop (lines : list pystr) (current : option pystr)
  (sections : pydict) : pydict :=
  match lines with
  | [] => sections
  | line :: rest =>
      if _is_section_header line
      then sections_loop rest (Some (strip (lower line))) sections
      else
        match current with
        | Some key =>
            if truthy key && truthy line
            then sections_loop rest current (append_to_section sections key line)
            else sections_loop rest current sections
        | None => sections_loop rest current sections
        end
  end.

(** [_extract_sections] *)
Definition _extract_sections (lines : list pystr) : pydict :=
  sections_loop lines None [].

(** ** advanced_resume_parser.py: parse *)

(** What the document libraries hand over.  [pdf_pages path] is
    [page.extract_text()] for each page of the PDF, [None] when
    [pdfplumber] raises; [docx_texts path] is the [text] of the body
    paragraphs, the table cells' paragraphs and the header and footer
    paragraphs, in the order [_extract_docx_text] visits them, [None]
    when [Document] raises.  A text can be [None]. *)
Context (pdf_pages docx_texts : pystr -> option (list (option pystr))).

Definition newline : pystr := [10%N].

(** [_extract_pdf_text] *)
Definition _extract_pdf_text (file_path : pystr) : pystr :=
  match pdf_pages file_path with
  | Some pages =>
      join newline
        (List.map (fun page =>
                     match page with
                     | Some t => if truthy t then t else []
                     | None => []
                     end) pages)
  | None => []
  end.

(** [_extract_docx_text] *)
Definition _extract_docx_text (file_path : pystr) : pystr :=
  match docx_texts file_path with
  | Some texts =>
      join newline
        (filter (fun t => truthy t && truthy (strip t))
           (flat_map (fun t => match t with Some t => [t] | None => [] end)
              texts))
  | None => []
  end.

Definition experience_value (e : ExperienceEntry) : pyval :=
  VDict [(py "company", VStr (company e)); (py "role", VStr (role e));
         (py "title", VStr (title e)); (py "duration", VStr (duration e));
         (py "details", VList (List.map VStr (details e)))].

Definition education_value (e : EducationEntry) : pyval :=
  VDict [(py "degree", VStr (degree e));
         (py "institution", VStr (institution e));
         (py "year", VStr (edu_year e));
         (py "details", VList (List.map VStr (edu_details e)))].

(** [ResumeParser.parse]; [year] is the calendar year.  [None] when the
    loop of [_extract_experience] was not given enough fuel. *)
Definition parse (year : N) (file_path file_type : pystr) : option pydict :=
  let raw_text :=
    if pystr_eqb file_type (py "pdf") then _extract_pdf_text file_path
    else _extract_docx_text file_path in
  let lines :=
    List.map strip
      (filter (fun line => truthy (strip line)) (split_char 10 raw_text)) in
  match _extract_experience year lines with
  | None => None
  | Some experience =>
      Some
        [ (py "name", VStr (_extract_name file_path lines));
          (py "email", VStr (_extract_email raw_text));
          (py "phone", VStr (_extract_phone raw_text));
          (py "address", VStr (_extract_address lines));
          (py "linkedin", VStr (_extract_linkedin raw_text));
          (py "dob", VStr (_extract_dob raw_text));
          (py "summary", VStr (_extract_summary lines));
          (py "experience", VList (List.map experience_value experience));
          (py "education",
           VList (List.map education_value (_extract_education year lines)));
          (py "skills", VList (List.map VStr (_extract_skills lines)));
          (py "projects", VList (_extract_projects lines));
          (py "certifications",
           VList (List.map VStr (_extract_certifications lines)));
          (py "awards", VList (List.map VStr (_extract_awards lines)));
          (py "languages", VList (List.map VStr (_extract_languages lines)));
          (py "sections", VDict (_extract_sections lines));
          (py "raw_text", VStr raw_text) ]
  end.

(** ** intelligent_formatter.py *)

Record IntelligentFormatter := {
  resume_data : pydict;
  template_analysis : pydict;
  output_path : pystr;
  template_path : pyval;
  template_type : pyval
}.

(** [IntelligentFormatter.__init__] *)
Definition IntelligentFormatter_init (resume_data template_analysis : pydict)
  (output_path : pystr) : result IntelligentFormatter :=
  let self := {| resume_data := resume_data;
                 template_analysis := template_analysis;
                 output_path := output_path;
                 template_path := dict_get template_analysis (py "template_path");
                 template_type := dict_get template_analysis (py "template_type") |} in
  if negb (py_truthy (template_path self)) then
    Raise (ValueError
      (py "Template path not found in analysis. Please re-upload the template."))
  else if negb (py_truthy (template_type self)) then
    Raise (ValueError
      (py "Template type not found in analysis. Please re-upload the template."))
  else Ok self.

(** The files the formatter reads and writes, and
    [IntelligentFormatter.format] on them. *)
Context (World : Type)
        (format : IntelligentFormatter -> World -> result bool * World).

(** [format_resume_intelligent] *)
Definition format_resume_intelligent (resume_data template_analysis : pydict)
  (output_path : pystr) (w : World) : result bool * World :=
  match IntelligentFormatter_init resume_data template_analysis output_path with
  | Ok formatter => format formatter w
  | Raise e => (Raise e, w)
  end.

(** ** word_formatter.py: entries rebuilt from bullets *)

(** [(?:19|20)\d{2}] *)
Definition yearish_re : re := RSeqs [year_prefix; RDig; RDig].

Record BulletExperience := {
  b_company : pystr;
  b_role : pystr;
  b_duration : pystr;
  b_details : list pystr
}.

(** The detail loop of [_build_experience_from_bullets] on
    [bullets[j:]]: the details and the index it stops at. *)
Fixpoint collect_undated (l : list pystr) (j : nat) : list pystr * nat :=
  match l with
  | x :: t =>
      if re_search false yearish_re x then ([], j)
      else let '(d, j') := collect_undated t (S j) in (x :: d, j')
  | [] => ([], j)
  end.

(** The [while i < len(bullets)] loop of
    [_build_experience_from_bullets]; [None] when [fuel] iterations
    were not enough. *)
Fixpoint bullets_experience_loop (fuel : nat) (bullets : list pystr)
  (i : nat) : option (list BulletExperience) :=
  match fuel with
  | O => None
  | S fuel' =>
      if i <? length bullets then
        let line := nth i bullets [] in
        if re_search false yearish_re line then
          let duration := _clean_duration line in
          let role := re_sub true month_year_re [] line in
          let role := re_sub false year_re [] role in
          let role :=
            strip_chars (py " ,;:-") (re_sub true connector_word_re [] role) in
          let company :=
            if i + 1 <? length bullets
            then strip (re_sub true location_re [] (nth (i + 1) bullets []))
            else [] in
          let '(details, j) := collect_undated (skipn (i + 2) bullets) (i + 2) in
          option_map
            (cons {| b_company := company; b_role := role;
                     b_duration := duration; b_details := details |})
            (bullets_experience_loop fuel' bullets j)
        else bullets_experience_loop fuel' bullets (i + 1)
      else Some []
  end.

(** [_build_experience_from_bullets] *)
Definition _build_experience_from_bullets (bullets : list pystr)
  : option (list BulletExperience) :=
  bullets_experience_loop (S (length bullets)) bullets 0.

(** The loop of [_build_education_from_bullets] on [bullets[i:]];
    [skip] says that the first bullet was taken as the year of the
    entry before. *)
Fixpoint bullets_education_loop (bullets : list pystr) (skip : bool)
  : list EducationEntry :=
  match bullets with
  | [] => []
  | line :: rest =>
      if skip then bullets_education_loop rest false
      else
        match search_start true institution_re line with
        | Some start =>
            {| degree := strip (strip_chars (py " ,;:-") (firstn start line));
               institution :=
                 strip (re_sub true location_re [] (strip (skipn start line)));
               edu_year := _clean_duration line;
               edu_details := [] |}
            :: bullets_education_loop rest false
        | None =>
            let next_dated :=
              match rest with
              | next :: _ => re_search false yearish_re next
              | [] => false
              end in
            {| degree := strip line;
               institution := strip (re_sub true location_re [] []);
               edu_year := if next_dated then _clean_duration (hd [] rest)
                           else _clean_duration line;
               edu_details := [] |}
            :: bullets_education_loop rest next_dated
        end
  end.

(** [_build_education_from_bullets] *)
Definition _build_education_from_bullets (bullets : list pystr)
  : list EducationEntry :=
  bullets_education_loop bullets false.

(** ** word_formatter.py: the section of the record for a heading *)

Definition section_synonyms : list (pystr * list pystr) :=
  [ (py "experience",
     List.map py ["experience"; "employment"; "work"; "professional"]%string);
    (py "education",
     List.map py ["education"; "academic"; "qualification";
                  "academics"]%string);
    (py "skills",
     List.map py ["skills"; "technical"; "competencies"; "expertise"]%string);
    (py "summary",
     List.map py ["summary"; "objective"; "profile"; "about"]%string);
    (py "projects", List.map py ["projects"; "portfolio"]%string);
    (py "certifications",
     List.map py ["certifications"; "certificates"; "licenses"]%string);
    (py "awards", List.map py ["awards"; "achievements"; "honors"]%string) ].

(** [synonyms.get(section_key, [section_key])] *)
Fixpoint synonyms_of (table : list (pystr * list pystr)) (section_key : pystr)
  : list pystr :=
  match table with
  | [] => [section_key]
  | (k, patterns) :: rest =>
      if pystr_eqb k section_key then patterns else synonyms_of rest section_key
  end.

(** [for resume_key, content in resume_sections.items(): if any(p in
    resume_key.lower() for p in patterns): return content] *)
Fixpoint first_section_with (patterns : list pystr) (resume_sections : pydict)
  : option pyval :=
  match resume_sections with
  | [] => None
  | (resume_key, content) :: rest =>
      if any_in patterns (lower resume_key) then Some content
      else first_section_with patterns rest
  end.

(** [WordFormatter._find_matching_resume_section] *)
Definition _find_matching_resume_section (section_key : pystr)
  (resume_sections : pydict) : pyval :=
  match dict_lookup resume_sections section_key with
  | Some content => content
  | None =>
      match first_section_with (synonyms_of section_synonyms section_key)
              resume_sections with
      | Some content => content
      | None => VList []
      end
  end.

(** ** intelligent_formatter.py: the section of the record for a heading *)

Definition heading_keywords : list (pystr * list pystr) :=
  [ (py "experience",
     List.map py ["experience"; "employment"; "work"; "professional"]%string);
    (py "education",
     List.map py ["education"; "academic"; "qualification"]%string);
    (py "skills", List.map py ["skills"; "technical"; "competencies"]%string);
    (py "summary", List.map py ["summary"; "objective"; "profile"]%string);
    (py "projects", List.map py ["projects"; "portfolio"]%string);
    (py "certifications",
     List.map py ["certifications"; "certificates"]%string);
    (py "awards", List.map py ["awards"; "achievements"]%string) ].

(** [for resume_key, content in resume_sections.items(): if any(p in
    resume_key for p in patterns): return content] *)
Fixpoint first_section_named (patterns : list pystr) (resume_sections : pydict)
  : option pyval :=
  match resume_sections with
  | [] => None
  | (resume_key, content) :: rest =>
      if any_in patterns resume_key then Some content
      else first_section_named patterns rest
  end.

(** The loop over [keywords.items()]. *)
Fixpoint keyword_match (keywords : list (pystr * list pystr))
  (heading_lower : pystr) (resume_sections : pydict) : option pyval :=
  match keywords with
  | [] => None
  | (_, patterns) :: rest =>
      if any_in patterns heading_lower then
        match first_section_named patterns resume_sections with
        | Some content => Some content
        | None => keyword_match rest heading_lower resume_sections
        end
      else keyword_match rest heading_lower resume_sections
  end.

(** [IntelligentFormatter._find_matching_resume_section] *)
Definition IntelligentFormatter_find_matching_resume_section
  (template_heading : pystr) (resume_sections : pydict) : pyval :=
  let heading_lower := lower template_heading in
  match dict_lookup resume_sections heading_lower with
  | Some content => content
  | None =>
      match keyword_match heading_keywords heading_lower resume_sections with
      | Some content => content
      | None => VList []
      end
  end.

(** ** intelligent_formatter.py: wrapping and mappings *)

(** [canvas_obj.stringWidth(test_line) <= max_width] *)
Context (fits : pystr -> bool).

(** [if current_line: lines.append(' '.join(current_line))] *)
Definition flush_line (lines current_line : list pystr) : list pystr :=
  match current_line with
  | [] => lines
  | _ :: _ => lines ++ [join (py " ") current_line]
  end.

(** The loop of [_wrap_text] and the flush after it. *)
Fixpoint wrap_loop (words lines current_line : list pystr) : list pystr :=
  match words with
  | [] => flush_line lines current_line
  | word :: rest =>
      let test_line := join (py " ") (current_line ++ [word]) in
      if fits test_line then wrap_loop rest lines (current_line ++ [word])
      else wrap_loop rest (flush_line lines current_line) [word]
  end.

(** [_wrap_text] *)
Definition _wrap_text (text : pystr) : list pystr :=
  match wrap_loop (split_ws text) [] [] with
  | [] => [firstn 100 text]
  | lines => lines
  end.

(** [_create_field_mappings]; [template_fields] is
    [self.template_analysis.get('fields', {})]. *)
Fixpoint field_mappings_loop (resume_data template_fields mappings : pydict)
  : pydict :=
  match template_fields with
  | [] => mappings
  | (field_name, field_info) :: rest =>
      field_mappings_loop resume_data rest
        (match dict_lookup resume_data field_name with
         | Some resume_value =>
             dict_set mappings field_name
               (VDict [(py "template_position", field_info);
                       (py "resume_value", resume_value)])
         | None => mappings
         end)
  end.
Definition _create_field_mappings (resume_data template_fields : pydict)
  : pydict :=
  field_mappings_loop resume_data template_fields [].

(** ** font_mapper.py *)

Definition FONT_MAP : list (pystr * pystr) :=
  [ (py "calibri", py "Helvetica");
    (py "calibri-bold", py "Helvetica-Bold");
    (py "calibri-italic", py "Helvetica-Oblique");
    (py "calibri-bolditalic", py "Helvetica-BoldOblique");
    (py "arial", py "Helvetica");
    (py "arial-bold", py "Helvetica-Bold");
    (py "times", py "Times-Roman");
    (py "times-bold", py "Times-Bold");
    (py "times-italic", py "Times-Italic");
    (py "courier", py "Courier") ].

Fixpoint font_lookup (m : list (pystr * pystr)) (k : pystr) : option pystr :=
  match m with
  | [] => None
  | (k', v) :: rest => if pystr_eqb k' k then Some v else font_lookup rest k
  end.

(** [^[A-Z]+\+] *)
Definition subset_prefix_re : re :=
  RSeqs [RBol; RPlus (RSet false [ARange 65 90]); RChar 43].

(** [normalize_font] *)
Definition normalize_font (font_name : pystr) : pystr :=
  if negb (truthy font_name) then py "Helvetica"
  else
    let font_clean := lower (re_sub false subset_prefix_re [] font_name) in
    match font_lookup FONT_MAP font_clean with
    | Some font => font
    | None =>
        let bold := contains font_clean (py "bold") in
        let italic := contains font_clean (py "italic") in
        if contains font_clean (py "calibri")
           || contains font_clean (py "arial") then
          if bold && italic then py "Helvetica-BoldOblique"
          else if bold then py "Helvetica-Bold"
          else if italic then py "Helvetica-Oblique"
          else py "Helvetica"
        else if contains font_clean (py "times") then
          if bold && italic then py "Times-BoldItalic"
          else if bold then py "Times-Bold"
          else if italic then py "Times-Italic"
          else py "Times-Roman"
        else if contains font_clean (py "courier") then
          if bold then py "Courier-Bold" else py "Courier"
        else py "Helvetica"
    end.

(** ** template_analyzer.py *)

(** [is_placeholder] *)
Definition is_placeholder (text : pystr) : bool :=
  any_in (List.map py ["your name"; "your degree"; "phone number";
                       "email address"; "insert"; "replace"; "template";
                       "example"]%string)
         (lower text)
  || (120 <? length text).

(** Sizes and positions are the numbers [pdfplumber] reports;
    [at_least_10 size] is [size >= 10]. *)
Context (number : Type) (at_least_10 : number -> bool).

(** A line of the template page, as [create_line] builds it. *)
Record TemplateLine := {
  line_text : pystr;
  line_font : pystr;
  line_font_size : number
}.

Record TemplateSection := {
  heading : pystr;
  heading_font : pystr;
  heading_size : number;
  has_underline : bool
}.

(** The loop of [detect_sections]; [seen] is the set of lower-cased
    headings. *)
Fixpoint detect_sections_loop (lines : list TemplateLine) (seen : list pystr)
  : list TemplateSection :=
  match lines with
  | [] => []
  | line :: rest =>
      let text := strip (line_text line) in
      if (60 <? length text) || (length text <? 3)
      then detect_sections_loop rest seen
      else if existsb (pystr_eqb (lower text)) seen
      then detect_sections_loop rest seen
      else if at_least_10 (line_font_size line)
              && negb (startswith text [226%N; 8364%N; 162%N])
      then {| heading := text;
              heading_font := normalize_font (line_font line);
              heading_size := line_font_size line;
              has_underline := true |}
           :: detect_sections_loop rest (lower text :: seen)
      else detect_sections_loop rest seen
  end.

(** [detect_sections] *)
Definition detect_sections (lines : list TemplateLine)
  : list TemplateSection :=
  firstn 10 (detect_sections_loop lines []).

(** The entries of a profile that hold numbers and styles: the page,
    the name style, the sections and the body style.  The formatter's
    precondition reads none of them. *)
Definition profile_styles (page name sections body : pyval) : pydict :=
  [ (py "page", page); (py "name", name); (py "sections", sections);
    (py "body", body) ].

(** [get_default_format]; [page], [name] and [body] are its three
    dictionaries of constants. *)
Definition get_default_format (page name body : pyval) : pydict :=
  [ (py "template_path", VNone); (py "template_type", VNone) ]
  ++ profile_styles page name (VList []) body.

(** [format_data = get_default_format(); format_data['template_path'] =
    file_path; format_data['template_type'] = kind] *)
Definition default_profile (page name body : pyval) (file_path kind : pystr)
  : pydict :=
  let format_data := get_default_format page name body in
  dict_set (dict_set format_data (py "template_path") (VStr file_path))
    (py "template_type") (VStr kind).

(** What reading the first page of a PDF template gives: the library
    raised, the page has no characters, or the four detectors returned
    their styles. *)
Inductive pdf_analysis :=
| PdfRaised
| PdfNoChars
| PdfStyles (page name sections body : pyval).

(** [analyze_pdf_template]; [default_page], [default_name] and
    [default_body] are the constants of [get_default_format]. *)
Definition analyze_pdf_template (default_page default_name default_body : pyval)
  (file_path : pystr) (outcome : pdf_analysis) : pydict :=
  match outcome with
  | PdfStyles page name sections body =>
      [ (py "template_path", VStr file_path);
        (py "template_type", VStr (py "pdf")) ]
      ++ profile_styles page name sections body
  | _ => default_profile default_page default_name default_body file_path
           (py "pdf")
  end.

(** [analyze_word_template]; [sections] is the list of headings it
    builds, [None] when [Document] raises.  The page, the name style
    and the body style it returns are the constants of
    [get_default_format]. *)
Definition analyze_word_template (default_page default_name default_body : pyval)
  (file_path : pystr) (sections : option pyval) : pydict :=
  match sections with
  | Some sections =>
      [ (py "template_path", VStr file_path);
        (py "template_type", VStr (py "docx")) ]
      ++ profile_styles default_page default_name sections default_body
  | None => default_profile default_page default_name default_body file_path
              (py "docx")
  end.

(** ** resume_parser.py *)

(** [has_contact_info] *)
Definition has_contact_info (text : pystr) : bool :=
  re_search true contact_re text.

(** The heading test of [extract_sections]. *)
Definition simple_heading (line : pystr) : bool :=
  (length line <? 60) && negb (startswith line [226%N; 8364%N; 162%N])
  && negb (has_contact_info line).

(** The loop of [extract_sections]; [current] is [current_section]. *)
Fixpoint extract_sections_loop (lines : list pystr) (current : option pystr)
  (sections : pydict) : pydict :=
  match lines with
  | [] => sections
  | line :: rest =>
      if simple_heading line
      then extract_sections_loop rest (Some (strip (lower line))) sections
      else
        match current with
        | Some key =>
            if truthy key && truthy line
            then extract_sections_loop rest current
                   (append_to_section sections key line)
            else extract_sections_loop rest current sections
        | None => extract_sections_loop rest current sections
        end
  end.

(** [extract_sections] *)
Definition extract_sections (lines : list pystr) : pydict :=
  extract_sections_loop lines None [].

(** [[a-zA-Z0-9._%+-]+@[a-zA-Z0-9.-]+\.[a-zA-Z]{2,}] *)
Definition simple_email_re : re :=
  let letters := [ARange 97 122; ARange 65 90] in
  RSeqs [RPlus (RSet false
                  (letters ++ [ARange 48 57; AChar 46; AChar 95; AChar 37;
                               AChar 43; AChar 45]));
         RChar 64;
         RPlus (RSet false (letters ++ [ARange 48 57; AChar 46; AChar 45]));
         RChar 46;
         RSeq (RTimes 2 (RSet false letters)) (RStar (RSet false letters))].

(** [\d{3}[-.\s]?\d{3}[-.\s]?\d{4}] *)
Definition simple_phone_re : re :=
  RSeqs [RTimes 3 RDig; ROpt phone_sep; RTimes 3 RDig; ROpt phone_sep;
         RTimes 4 RDig].

(** [linkedin\.com[^\s]*] *)
Definition simple_linkedin_re : re :=
  RSeq (RStr (py "linkedin.com")) (RStar (RSet true [ASpace])).

(** The name [extract_resume_content] picks. *)
Definition simple_name (lines : list pystr) : pystr :=
  match find (fun line => negb (has_contact_info line) && (3 <? length line))
          (firstn 5 lines) with
  | Some line => line
  | None => []
  end.

(** [extract_resume_content] *)
Definition extract_resume_content (text : pystr) : pydict :=
  let lines :=
    List.map strip
      (filter (fun l => truthy (strip l)) (split_char 10 text)) in
  let contact_text := join (py " ") (firstn 15 lines) in
  let group0 (m : option pystr) : pyval :=
    match m with Some g => VStr g | None => VStr [] end in
  [ (py "name", VStr (simple_name lines));
    (py "email", group0 (search_text false simple_email_re contact_text));
    (py "phone", group0 (search_text false simple_phone_re contact_text));
    (py "linkedin", group0 (search_text true simple_linkedin_re contact_text));
    (py "sections", VDict (extract_sections lines)) ].

End Python.

Arguments Ok {A} a.
Arguments Raise {A} e.

(** * Properties *)

Unset Implicit Arguments.

(** ** The tables of Latin-1

    An instance of the tables for closed examples: i-diaeresis and
    one-quarter are word characters, NEL and NBSP are whitespace, no
    other character from 128 on is classified. *)
Definition latin1_word (c : N) : bool :=
  ((c =? 170) || (c =? 178) || (c =? 179) || (c =? 181) || (c =? 185)
   || (c =? 186) || (188 <=? c) && (c <=? 190)
   || (192 <=? c) && (c <=? 255) && negb (c =? 215) && negb (c =? 247))%N.

Definition latin1_case (c : N) : case_kind :=
  if ((192 <=? c) && (c <=? 222) && negb (c =? 215))%N then Upper
  else if ((c =? 170) || (c =? 181) || (c =? 186)
           || (223 <=? c) && (c <=? 255) && negb (c =? 247))%N then Lower
  else Uncased.

Definition latin1_lower_char (c : N) : N :=
  if ((192 <=? c) && (c <=? 222) && negb (c =? 215))%N then (c + 32)%N
  else ascii_lower c.

Definition latin1_upper_char (c : N) : pystr :=
  if ((224 <=? c) && (c <=? 254) && negb (c =? 247))%N then [(c - 32)%N]
  else if (c =? 223)%N then [83%N; 83%N]
  else if (c =? 181)%N then [924%N]
  else if (c =? 255)%N then [376%N]
  else [c].

Lemma latin1_word_nonspace (c : N) :
  latin1_word c = true -> ((c =? 133) || (c =? 160))%N = false.
Proof.
  intros H.
  destruct (N.eqb_spec c 133) as [->|]; [discriminate H|].
  destruct (N.eqb_spec c 160) as [->|]; [discriminate H|].
  reflexivity.
Qed.

Definition latin1 : PyUnicode := {|
  uspace := fun c => ((c =? 133) || (c =? 160))%N;
  udigit := fun _ => false;
  uword := latin1_word;
  ucase := latin1_case;
  ufold := fun _ _ => false;
  ulower := List.map latin1_lower_char;
  uupper := latin1_upper_char;
  udigit_word := fun c (H : false = true) => False_ind _ (diff_false_true H);
  uword_nonspace := latin1_word_nonspace;
  ufold_nondigit := fun _ _ _ => eq_refl;
  udigit_named := fun _ _ => eq_refl
|}.

(** ** Section headers *)

Section Headers.

Context (U : PyUnicode).

Lemma startswith_prefix (s p : pystr) :
  startswith s p = true <-> exists rest, s = p ++ rest.
Proof.
  revert s. induction p as [|a p IH]; intros s; simpl.
  - split; [intros _; now exists s | reflexivity].
  - destruct s as [|b s].
    + split; [discriminate | intros [rest H]; discriminate H].
    + rewrite andb_true_iff, N.eqb_eq, IH. split.
      * intros [-> [rest ->]]. now exists rest.
      * intros [rest H]. injection H as -> ->. split; [reflexivity | now exists rest].
Qed.

(** C4: a line is a section header exactly when it has at most 50
    characters and, lower-cased and stripped, equals or starts with a
    word of the vocabulary; "Education" and "Education Background" are
    headers, no line of 55 characters is one, and a sentence of 55
    characters with "education" in the middle is not. *)
Theorem C4_section_header_exact_or_prefix_length_gated :
  (forall line,
     _is_section_header U line = true <->
     length line <= 50 /\
     exists keyword,
       In keyword section_keywords /\
       (strip U (lower U line) = keyword \/
        exists rest, strip U (lower U line) = keyword ++ rest))
  /\ section_keywords =
       List.map py ["experience"; "education"; "skills"; "summary";
                    "objective"; "projects"; "certifications"; "awards";
                    "languages"; "profile"; "work history"; "employment";
                    "qualifications"; "achievements"]%string
  /\ _is_section_header U (py "Education") = true
  /\ _is_section_header U (py "Education Background") = true
  /\ (forall line, length line = 55 -> _is_section_header U line = false)
  /\ length (py "She finished her formal education in Boston a year ago.") = 55
  /\ contains (py "She finished her formal education in Boston a year ago.")
       (py "education") = true
  /\ _is_section_header U
       (py "She finished her formal education in Boston a year ago.") = false.
Proof.
  split; [|repeat split; try (vm_compute; reflexivity)].
  - intros line. unfold _is_section_header.
    destruct (Nat.ltb_spec 50 (length line)) as [Hlong|Hshort].
    + split; [discriminate | intros [H _]; lia].
    + rewrite existsb_exists. split.
      * intros [keyword [Hin Hk]]. split; [exact Hshort|].
        exists keyword. split; [exact Hin|].
        apply orb_true_iff in Hk. destruct Hk as [Hk|Hk].
        -- left. symmetry. now apply pystr_eqb_eq.
        -- right. now apply startswith_prefix.
      * intros [_ [keyword [Hin [Hk|Hk]]]]; exists keyword; (split; [exact Hin|]);
          apply orb_true_iff.
        -- left. apply pystr_eqb_eq. now symmetry.
        -- right. now apply startswith_prefix.
  - intros line Hlen. unfold _is_section_header. rewrite Hlen. reflexivity.
Qed.

End Headers.

(** ** Structured experience *)

Section Experience.

Context (U : PyUnicode).

Lemma skip_headers_ge (l : list pystr) (j : nat) : j <= skip_headers U l j.
Proof.
  revert j. induction l as [|x l IH]; intros j; simpl; [lia|].
  destruct (negb (truthy x) || _is_section_header U x); [|lia].
  specialize (IH (S j)). lia.
Qed.

Lemma collect_details_ge (l : list pystr) (k : nat) :
  k <= snd (collect_details U l k).
Proof.
  revert k. induction l as [|x l IH]; intros k; simpl; [lia|].
  destruct (detail_stop U x); simpl; [lia|].
  specialize (IH (S k)). destruct (collect_details U l (S k)). simpl in *. lia.
Qed.

(** The loop of [_extract_experience] ends: every iteration moves [i]
    forward, so one unit of fuel per remaining line is enough. *)
Lemma experience_loop_total (year : N) (lines : list pystr) :
  forall fuel i, length lines - i < fuel ->
  exists es, experience_loop U fuel year lines i = Some es.
Proof.
  induction fuel as [|fuel IH]; intros i Hfuel; [lia|].
  simpl. destruct (Nat.ltb_spec i (length lines)) as [Hi|Hi];
    [|now exists []].
  destruct (_contains_date_range U (nth i lines [])).
  - destruct (_parse_company_role_line U _) as [c r].
    pose proof (skip_headers_ge (skipn (i + 1) lines) (i + 1)) as Hj.
    set (j := skip_headers U (skipn (i + 1) lines) (i + 1)) in *.
    pose proof (collect_details_ge (skipn (j + 1) lines) (j + 1)) as Hk.
    destruct (collect_details U (skipn (j + 1) lines) (j + 1)) as [d k].
    simpl in Hk. destruct (IH k) as [es ->]; [lia|]. simpl. eauto.
  - destruct (_looks_like_company_or_role U (nth i lines [])).
    + destruct (_parse_company_role_line U _) as [c r].
      match goal with
      | |- context [collect_details U (skipn ?j0 lines) ?j0] =>
          remember j0 as j eqn:Ej
      end.
      assert (i + 1 <= j) as Hj.
      { subst j. match goal with
                 | |- _ <= (if ?b then _ else _) => destruct b
                 end; lia. }
      pose proof (collect_details_ge (skipn j lines) j) as Hk.
      destruct (collect_details U (skipn j lines) j) as [d k].
      simpl in Hk. destruct (IH k) as [es ->]; [lia|]. simpl. eauto.
    + apply IH. lia.
Qed.

(** [_extract_experience] returns for every section. *)
Lemma experience_of_section_total (year : N) (section : list pystr) :
  exists es, experience_of_section U year section = Some es.
Proof.
  unfold experience_of_section. destruct section as [|l section]; [now exists []|].
  apply experience_loop_total. lia.
Qed.

(** C5: on the lines "2020-2023", "Senior Engineer, Tech Corp",
    "- Led team", "- Shipped X" the extraction returns two entries and
    not one.  The first has the duration, company and role the claim
    names, and "- Led team" as its only detail; "- Shipped X" is title
    case, so [_looks_like_company_or_role] ends the details there and
    the line opens a second entry of its own. *)
Theorem C5_experience_pairing_title_case_bullet_opens_entry (year : N) :
  let lines := List.map py ["2020-2023"; "Senior Engineer, Tech Corp";
                             "- Led team"; "- Shipped X"]%string in
  istitle U (py "- Shipped X") = true
  /\ _looks_like_company_or_role U (py "- Shipped X") = true
  /\ _parse_company_role_line U (py "Senior Engineer, Tech Corp")
     = (py "Tech Corp", py "Senior Engineer")
  /\ experience_of_section U year lines
     = Some [ {| company := py "Tech Corp";
                 role := py "Senior Engineer";
                 title := py "Senior Engineer, Tech Corp";
                 duration := py "2020-2023";
                 details := [py "- Led team"] |};
              {| company := [];
                 role := py "- Shipped X";
                 title := py "- Shipped X";
                 duration := [];
                 details := [] |} ]
  /\ _extract_experience U year (py "EXPERIENCE" :: lines)
     = experience_of_section U year lines.
Proof.
  repeat split; vm_compute; reflexivity.
Qed.

End Experience.

(** ** The two duration cleaners *)

Section CleanersDiffer.

Context (U : PyUnicode).

(** C9: the two cleaners are two functions and do not agree.
    [_clean_years] puts the calendar year in place of "present",
    [_clean_duration] puts 2025: in the year 2026 the first returns
    "2020-2026" on "2020 - present" and the second "2020-2025", and the
    two differ on that input in every year from 1900 to 2099 other than
    2025. *)
Theorem C9_clean_duration_substitutes_2025_not_the_calendar_year :
  _clean_years U 2026 (py "2020 - present") = py "2020-2026"
  /\ _clean_duration U (py "2020 - present") = py "2020-2025"
  /\ _clean_years U 2025 (py "2020 - present")
     = _clean_duration U (py "2020 - present")
  /\ (forall n, n < 200 -> 1900 + n <> 2025 ->
        _clean_years U (N.of_nat (1900 + n)) (py "2020 - present")
        <> _clean_duration U (py "2020 - present")).
Proof.
  repeat split; try (vm_compute; reflexivity).
  intros n Hn Hne.
  assert (forallb (fun n =>
            (1900 + n =? 2025)
            || negb (pystr_eqb
                       (_clean_years U (N.of_nat (1900 + n))
                          (py "2020 - present"))
                       (_clean_duration U (py "2020 - present"))))
            (seq 0 200) = true) as Hall by (vm_compute; reflexivity).
  rewrite forallb_forall in Hall.
  specialize (Hall n). rewrite in_seq in Hall.
  specialize (Hall ltac:(lia)).
  apply orb_true_iff in Hall. destruct Hall as [Heq|Hneq].
  - apply Nat.eqb_eq in Heq. contradiction.
  - intros Heq. apply pystr_eqb_eq in Heq. rewrite Heq in Hneq. discriminate.
Qed.

End CleanersDiffer.

(** ** Skills tables *)

Section SkillsTables.

Context (U : PyUnicode)
        (sub_escaped : bool -> re -> pystr -> pystr -> option pystr).

Lemma has_col_exists (keywords headers : list pystr) :
  has_col keywords headers = true <->
  exists h kw, In h headers /\ In kw keywords /\ contains h kw = true.
Proof.
  unfold has_col. rewrite existsb_exists. split.
  - intros [h [Hh Hk]]. apply existsb_exists in Hk. destruct Hk as [kw [Hkw Hc]].
    now exists h, kw.
  - intros [h [kw [Hh [Hkw Hc]]]]. exists h. split; [exact Hh|].
    apply existsb_exists. now exists kw.
Qed.

(** C6, as amended: a table is a skills table exactly when it has at
    least two rows, some header cell of its first row has a skill-family
    keyword in it, and some header cell has a years-family or a
    last-used-family keyword in it.  With at least one row under it, the
    header "Skill", "Years" makes a skills table and the header "Skill",
    "Notes" does not. *)
Theorem C6_skills_table_needs_skill_and_quantity_and_a_data_row :
  (forall t,
     _is_skills_table U t = true <->
     2 <= length t
     /\ (exists h kw, In h (header_texts U t) /\ In kw skills_keywords
                      /\ contains h kw = true)
     /\ ((exists h kw, In h (header_texts U t) /\ In kw years_keywords
                       /\ contains h kw = true)
         \/ (exists h kw, In h (header_texts U t) /\ In kw last_used_keywords
                          /\ contains h kw = true)))
  /\ (forall rows,
        _is_skills_table U
          ([cell_of_text (py "Skill"); cell_of_text (py "Notes")] :: rows)
        = false)
  /\ (forall row rows,
        _is_skills_table U
          ([cell_of_text (py "Skill"); cell_of_text (py "Years")]
             :: row :: rows)
        = true).
Proof.
  split; [|split].
  - intros t. unfold _is_skills_table.
    destruct (Nat.ltb_spec (length t) 2) as [Hlt|Hge].
    + split; [discriminate | intros [H _]; lia].
    + rewrite andb_true_iff, orb_true_iff, !has_col_exists. tauto.
  - intros rows. unfold _is_skills_table.
    destruct (length _ <? 2); [reflexivity|].
    vm_compute. reflexivity.
  - intros row rows. unfold _is_skills_table.
    change (length (_ :: row :: rows) <? 2) with false.
    vm_compute. reflexivity.
Qed.

Lemma map_result_length {A B : Type} (f : A -> result B) (l : list A) :
  forall l', map_result f l = Ok l' -> length l' = length l.
Proof.
  induction l as [|a l IH]; intros l' H; simpl in H.
  - injection H as <-. reflexivity.
  - destruct (f a); [|discriminate]. simpl in H.
    destruct (map_result f l) as [bs|]; [|discriminate]. simpl in H.
    injection H as <-. simpl. f_equal. now apply IH.
Qed.

(** C10: a table with fewer than two rows is never a skills table,
    whatever its header says; [_fill_skills_table] changes nothing in it
    and counts no row, and the table step of the formatter takes the
    literal-token branch for it, which keeps the number of rows. *)
Theorem C10_header_only_table_never_detected
  (replacements : pydict) (skills_data : list skill_info) (t : table)
  (Hrows : length t < 2) :
  _is_skills_table U t = false
  /\ _fill_skills_table U skills_data t = (t, 0)
  /\ format_table U sub_escaped replacements skills_data t
     = map_result
         (map_result
            (map_result (fun p =>
               bind (apply_replacements U sub_escaped replacements p)
                    (fun '(p', _) => Ok p'))))
         t
  /\ (forall t', format_table U sub_escaped replacements skills_data t = Ok t'
                 -> length t' = length t).
Proof.
  assert (_is_skills_table U t = false) as Hno.
  { unfold _is_skills_table. apply Nat.ltb_lt in Hrows. now rewrite Hrows. }
  assert (format_table U sub_escaped replacements skills_data t
          = map_result
              (map_result
                 (map_result (fun p =>
                    bind (apply_replacements U sub_escaped replacements p)
                         (fun '(p', _) => Ok p'))))
              t) as Hstep.
  { unfold format_table. now rewrite Hno. }
  repeat split.
  - exact Hno.
  - unfold _fill_skills_table. apply Nat.ltb_lt in Hrows. now rewrite Hrows.
  - exact Hstep.
  - intros t' Ht'. rewrite Hstep in Ht'. now apply map_result_length in Ht'.
Qed.

End SkillsTables.

(** C6, as stated, fails on a table that is only its header row:
    "Skill" and "Years" are there and the table is not a skills
    table. *)
Lemma C6_header_row_alone_is_not_a_skills_table :
  let t := [[cell_of_text (py "Skill"); cell_of_text (py "Years")]] in
  has_col skills_keywords (header_texts latin1 t) = true
  /\ has_col years_keywords (header_texts latin1 t) = true
  /\ _is_skills_table latin1 t = false.
Proof.
  repeat split; vm_compute; reflexivity.
Qed.

(** C10 at the header row "Skill", "Years" with no row under it. *)
Lemma C10_header_only_table_witness :
  let t := [[cell_of_text (py "Skill"); cell_of_text (py "Years")]] in
  length t < 2
  /\ has_col skills_keywords (header_texts latin1 t) = true
  /\ has_col years_keywords (header_texts latin1 t) = true
  /\ _is_skills_table latin1 t = false
  /\ _fill_skills_table latin1
       [{| skill := py "Python"; years := py "3+ years";
           last_used := py "Present" |}] t = (t, 0).
Proof.
  intros t.
  assert (length t < 2) as Hrows by (simpl; lia).
  pose proof (C10_header_only_table_never_detected latin1
                (fun _ _ _ _ => None) []
                [{| skill := py "Python"; years := py "3+ years";
                    last_used := py "Present" |}] t Hrows)
    as [Hno [Hfill _]].
  repeat split; try assumption; vm_compute; reflexivity.
Defined.

(** ** The precondition of the formatter *)

Section Precondition.

Context (World : Type)
        (format : IntelligentFormatter -> World -> result bool * World).

(** C7: constructing the formatter raises [ValueError] exactly when the
    profile's template path or template type is missing, [None] or
    empty; the caller [format_resume_intelligent] then hands the error
    on with the files untouched, [format] not having run.  With both
    there the constructor returns the formatter and [format] runs on
    it. *)
Theorem C7_missing_template_path_or_type_raises
  (resume_data template_analysis : pydict) (output_path : pystr) :
  let path := dict_get template_analysis (py "template_path") in
  let type := dict_get template_analysis (py "template_type") in
  let init :=
    IntelligentFormatter_init resume_data template_analysis output_path in
  ((exists e, init = Raise e) <->
   py_truthy path = false \/ py_truthy type = false)
  /\ (dict_lookup template_analysis (py "template_path") = None
      \/ path = VNone \/ path = VStr []
      \/ dict_lookup template_analysis (py "template_type") = None
      \/ type = VNone \/ type = VStr [] ->
      exists msg, init = Raise (ValueError msg))
  /\ (forall e w,
        init = Raise e ->
        format_resume_intelligent format resume_data template_analysis
          output_path w = (Raise e, w))
  /\ (py_truthy path = true -> py_truthy type = true ->
      let self := {| resume_data := resume_data;
                     template_analysis := template_analysis;
                     output_path := output_path;
                     template_path := path;
                     template_type := type |} in
      init = Ok self
      /\ forall w,
           format_resume_intelligent format resume_data template_analysis
             output_path w = format self w).
Proof.
  intros path type init.
  assert (py_truthy path = false -> exists msg, init = Raise (ValueError msg))
    as Hpath.
  { intros H. subst init. unfold IntelligentFormatter_init. simpl.
    fold path. rewrite H. simpl. eauto. }
  assert (py_truthy type = false -> exists msg, init = Raise (ValueError msg))
    as Htype.
  { intros H. subst init. unfold IntelligentFormatter_init. simpl.
    fold path type. rewrite H. simpl. destruct (py_truthy path); simpl; eauto. }
  assert (py_truthy path = true -> py_truthy type = true ->
          init = Ok {| resume_data := resume_data;
                       template_analysis := template_analysis;
                       output_path := output_path;
                       template_path := path;
                       template_type := type |}) as Hok.
  { intros H1 H2. subst init. unfold IntelligentFormatter_init. simpl.
    fold path type. now rewrite H1, H2. }
  repeat split.
  - intros [e He].
    destruct (py_truthy path) eqn:H1; [|now left].
    destruct (py_truthy type) eqn:H2; [|now right].
    rewrite (Hok eq_refl eq_refl) in He. discriminate He.
  - intros [H|H]; [destruct (Hpath H) as [msg ->] | destruct (Htype H) as [msg ->]];
      eauto.
  - intros [H|[H|[H|[H|[H|H]]]]].
    + apply Hpath. subst path. unfold dict_get. now rewrite H.
    + apply Hpath. now rewrite H.
    + apply Hpath. now rewrite H.
    + apply Htype. subst type. unfold dict_get. now rewrite H.
    + apply Htype. now rewrite H.
    + apply Htype. now rewrite H.
  - intros e w He. unfold format_resume_intelligent. fold init. now rewrite He.
  - now apply Hok.
  - intros w. unfold format_resume_intelligent. fold init.
    now rewrite (Hok H H0).
Qed.

End Precondition.

(** ** The literal token map *)

Section TokenMap.

Context (U : PyUnicode)
        (sub_escaped : bool -> re -> pystr -> pystr -> option pystr).

Lemma pystr_eqb_refl (a : pystr) : pystr_eqb a a = true.
Proof. now apply pystr_eqb_eq. Qed.

Lemma dict_lookup_set (d : pydict) (k k' : pystr) (v : pyval) :
  dict_lookup (dict_set d k v) k'
  = if pystr_eqb k k' then Some v else dict_lookup d k'.
Proof.
  induction d as [|[k0 v0] d IH]; simpl.
  - reflexivity.
  - destruct (pystr_eqb k0 k) eqn:E0; simpl.
    + apply pystr_eqb_eq in E0. subst k0.
      destruct (pystr_eqb k k'); reflexivity.
    + destruct (pystr_eqb k0 k') eqn:E1; [|exact IH].
      destruct (pystr_eqb k k') eqn:E2; [|reflexivity].
      apply pystr_eqb_eq in E1, E2. subst k0 k'.
      rewrite pystr_eqb_refl in E0. discriminate E0.
Qed.

Lemma dict_lookup_register_tokens (tokens : list pystr) (v : pyval) :
  forall (d : pydict) (k : pystr),
  dict_lookup (fold_left (fun m token => dict_set m token v) tokens d) k
  = if existsb (fun token => pystr_eqb token k) tokens then Some v
    else dict_lookup d k.
Proof.
  induction tokens as [|t tokens IH]; intros d k; simpl; [reflexivity|].
  rewrite IH, dict_lookup_set.
  destruct (pystr_eqb t k); simpl; [|reflexivity].
  destruct (existsb _ tokens); reflexivity.
Qed.

Lemma dict_lookup_register_field (resume_data d : pydict)
  (field : pystr) (tokens : list pystr) (k : pystr) :
  dict_lookup (register_field resume_data d (field, tokens)) k
  = if py_truthy (dict_get resume_data field)
       && existsb (fun token => pystr_eqb token k) tokens
    then Some (dict_get resume_data field)
    else dict_lookup d k.
Proof.
  unfold register_field.
  destruct (py_truthy (dict_get resume_data field)); simpl; [|reflexivity].
  apply dict_lookup_register_tokens.
Qed.

(** No token belongs to two fields. *)
Lemma token_owner_unique (f1 f2 : pystr) (ts1 ts2 : list pystr) (k : pystr) :
  In (f1, ts1) field_tokens -> In k ts1 ->
  In (f2, ts2) field_tokens -> In k ts2 -> f1 = f2.
Proof.
  intros H1 Hk1 H2 Hk2.
  assert (forall ft, In ft field_tokens -> In k (snd ft) ->
          find (fun ft' => existsb (fun t => pystr_eqb t k) (snd ft'))
               field_tokens = Some ft) as Hfind.
  { intros ft Hft Hk.
    unfold field_tokens in Hft. simpl in Hft.
    repeat (destruct Hft as [<-|Hft];
            [simpl in Hk;
             repeat (destruct Hk as [<-|Hk]; [vm_compute; reflexivity|]);
             contradiction|]).
    contradiction. }
  pose proof (Hfind _ H1 Hk1) as E1. pose proof (Hfind _ H2 Hk2) as E2.
  rewrite E1 in E2. now injection E2.
Qed.

Lemma map_result_ok_id {A : Type} (f : A -> result A) (l : list A) :
  (forall a, In a l -> f a = Ok a) -> map_result f l = Ok l.
Proof.
  induction l as [|a l IH]; intros H; simpl; [reflexivity|].
  rewrite (H a (or_introl eq_refl)). simpl.
  rewrite IH; [reflexivity|]. intros b Hb. apply H. now right.
Qed.

End TokenMap.

(** ** Replacing a literal token in a paragraph *)

Section LiteralReplacement.

Context (U : PyUnicode)
        (sub_escaped : bool -> re -> pystr -> pystr -> option pystr).

Definition contact_text : pystr := py "Contact: [EMAIL] or [PHONE]".
Definition contact_done : pystr := py "Contact: a@b.com or [PHONE]".
Definition contact_email : pystr := py "a@b.com".

(** [s[i:j]] *)
Definition slice (i j : nat) (s : pystr) : pystr := firstn (j - i) (skipn i s).

Lemma firstn_plus (a b : nat) (l : pystr) :
  firstn (a + b) l = firstn a l ++ firstn b (skipn a l).
Proof.
  revert l. induction a as [|a IH]; intros [|x l]; simpl; try reflexivity.
  - now rewrite firstn_nil.
  - now rewrite IH.
Qed.

Lemma slice_app (i j k : nat) (s : pystr) :
  i <= j -> j <= k -> slice i j s ++ slice j k s = slice i k s.
Proof.
  intros Hij Hjk. unfold slice.
  replace (skipn j s) with (skipn (j - i) (skipn i s))
    by (rewrite skipn_skipn; f_equal; lia).
  replace (k - i) with ((j - i) + (k - j)) by lia.
  symmetry. apply firstn_plus.
Qed.

Lemma slice_skipn (i j : nat) (s : pystr) :
  i <= j -> slice i j s ++ skipn j s = skipn i s.
Proof.
  intros Hij. unfold slice.
  replace (skipn j s) with (skipn (j - i) (skipn i s))
    by (rewrite skipn_skipn; f_equal; lia).
  apply firstn_skipn.
Qed.

(** A run that starts at offset [i] of a text is a slice of it. *)
Lemma run_is_slice (r rest s : pystr) (i : nat) :
  r ++ rest = skipn i s ->
  r = slice i (i + length r) s /\ rest = skipn (i + length r) s
  /\ i + length r <= max i (length s).
Proof.
  intros H. unfold slice.
  replace (i + length r - i) with (length r) by lia.
  rewrite Nat.add_comm, <- skipn_skipn, <- H.
  rewrite firstn_app, Nat.sub_diag, firstn_all, firstn_O, app_nil_r.
  rewrite skipn_app, Nat.sub_diag, skipn_all, skipn_0. simpl.
  repeat split.
  assert (length (r ++ rest) = length (skipn i s)) as Hl by now rewrite H.
  rewrite length_app, length_skipn in Hl. lia.
Qed.

(** What the first loop does to every slice of the text, for the two
    tokens that occur in it: a slice that holds the token has it
    replaced, any other is not a match. *)
Definition run_check (tok : pystr) (i j : nat) : bool :=
  let r := slice i j contact_text in
  if (i <=? 9) && (16 <=? j) then
    _text_contains U r tok
    && pystr_eqb (re_sub U true (RStr tok) contact_email r)
         (slice i 9 contact_text ++ contact_email ++ slice 16 j contact_text)
  else negb (_text_contains U r tok).

Lemma run_table (tok : pystr) (i j : nat) :
  tok = py "[EMAIL]" \/ tok = py "[Email]" ->
  i <= j -> j <= 27 -> run_check tok i j = true.
Proof.
  intros Htok Hij Hj.
  assert (forall tok', In tok' [py "[EMAIL]"; py "[Email]"] ->
          forallb (fun i' =>
            forallb (fun d => run_check tok' i' (i' + d)) (seq 0 (28 - i')))
            (seq 0 28) = true) as Hall.
  { intros tok' [<-|[<-|[]]]; vm_compute; reflexivity. }
  specialize (Hall tok). rewrite forallb_forall in Hall.
  assert (In tok [py "[EMAIL]"; py "[Email]"]) as Hin
    by (destruct Htok as [->| ->]; simpl; auto).
  specialize (Hall Hin i). rewrite in_seq in Hall.
  specialize (Hall ltac:(lia)). rewrite forallb_forall in Hall.
  specialize (Hall (j - i)). rewrite in_seq in Hall.
  specialize (Hall ltac:(lia)).
  now replace (i + (j - i)) with j in Hall by lia.
Qed.

Lemma pattern_sub_email (tok text : pystr) :
  pattern_sub U sub_escaped tok (VStr contact_email) text
  = Ok (re_sub U true (RStr tok) contact_email text).
Proof. reflexivity. Qed.

(** The first loop of [_replace_in_paragraph] on runs that make up the
    text from offset [i] on: nothing is replaced, or the token was in
    one of the runs and the runs now make up the replaced text. *)
Lemma replace_in_runs_contact (tok : pystr) :
  tok = py "[EMAIL]" \/ tok = py "[Email]" ->
  forall (runs : list pystr) (i : nat),
  i <= 27 -> concat runs = skipn i contact_text ->
  exists runs' n,
    replace_in_runs U sub_escaped runs tok (VStr contact_email)
    = Ok (runs', n)
    /\ ((n = 0 /\ runs' = runs)
        \/ (0 < n /\ i <= 9
            /\ concat runs'
               = slice i 9 contact_text ++ contact_email
                 ++ skipn 16 contact_text)).
Proof.
  intros Htok. induction runs as [|r rest IH]; intros i Hi Hcat.
  - exists [], 0. split; [reflexivity | now left].
  - simpl in Hcat. apply run_is_slice in Hcat.
    destruct Hcat as [Hr [Hrest Hlen]].
    change (length contact_text) with 27 in Hlen.
    set (j := i + length r) in *.
    assert (i <= j) as Hij by (subst j; lia).
    assert (j <= 27) as Hj by lia.
    destruct (IH j Hj Hrest) as [rest' [m [Hloop Hcase]]].
    pose proof (run_table tok i j Htok Hij Hj) as Htab. unfold run_check in Htab.
    rewrite <- Hr in Htab.
    cbn [replace_in_runs]. rewrite pattern_sub_email, Hloop.
    destruct ((i <=? 9) && (16 <=? j)) eqn:Hcov.
    + apply andb_true_iff in Hcov. destruct Hcov as [Hi9 Hj16].
      apply Nat.leb_le in Hi9, Hj16.
      apply andb_true_iff in Htab. destruct Htab as [Hc Hsub].
      apply pystr_eqb_eq in Hsub. rewrite Hc. cbn [bind].
      destruct Hcase as [[-> ->]|[_ [Hj9 _]]]; [|lia].
      eexists _, _. split; [reflexivity|]. right.
      split; [lia|]. split; [exact Hi9|].
      cbn [concat]. rewrite Hsub, Hrest, <- !app_assoc.
      now rewrite slice_skipn by exact Hj16.
    + apply negb_true_iff in Htab. rewrite Htab. cbn [bind].
      eexists _, _. split; [reflexivity|].
      destruct Hcase as [[-> ->]|[Hm [Hj9 Hcat']]]; [now left|].
      right. split; [exact Hm|]. split; [lia|].
      cbn [concat]. rewrite Hcat', Hr at 1.
      fold j. rewrite app_assoc. now rewrite slice_app by lia.
Qed.

Lemma concat_blank_runs (rest : list pystr) :
  concat (List.map (fun _ : pystr => @nil N) rest) = [].
Proof. induction rest; simpl; auto. Qed.

(** [_replace_in_paragraph] on any division of the text into runs. *)
Lemma replace_in_paragraph_contact (tok : pystr) (p : paragraph) :
  tok = py "[EMAIL]" \/ tok = py "[Email]" ->
  para_text p = contact_text ->
  exists p' n,
    _replace_in_paragraph U sub_escaped p tok (VStr contact_email)
    = Ok (p', n)
    /\ para_text p' = contact_done.
Proof.
  intros Htok Htext. unfold _replace_in_paragraph.
  destruct (replace_in_runs_contact tok Htok p 0 ltac:(lia) Htext)
    as [runs' [n [-> Hcase]]].
  cbn [bind].
  destruct Hcase as [[-> ->]|[Hn [_ Hcat]]].
  - cbn [Nat.eqb andb]. unfold para_text in *. rewrite Htext.
    pose proof (run_table tok 0 27 Htok ltac:(lia) ltac:(lia)) as Htab.
    unfold run_check in Htab. cbn [Nat.leb andb] in Htab.
    change (slice 0 27 contact_text) with contact_text in Htab.
    apply andb_true_iff in Htab. destruct Htab as [Hc Hsub].
    apply pystr_eqb_eq in Hsub. rewrite Hc, pattern_sub_email. cbn [bind].
    rewrite Hsub.
    change (slice 0 9 contact_text ++ contact_email
            ++ slice 16 27 contact_text) with contact_done.
    change (negb (pystr_eqb contact_done contact_text)) with true.
    cbn match. destruct p as [|r rest]; [discriminate Htext|].
    eexists _, _. split; [reflexivity|].
    cbn [concat]. now rewrite concat_blank_runs, app_nil_r.
  - destruct n as [|n]; [lia|]. cbn [Nat.eqb andb].
    eexists _, _. split; [reflexivity|]. exact Hcat.
Qed.

Lemma in_dict_set (d : pydict) (k k0 : pystr) (v v0 : pyval) :
  In (k, v) (dict_set d k0 v0) -> (k = k0 /\ v = v0) \/ In (k, v) d.
Proof.
  induction d as [|[k1 v1] d IH]; simpl.
  - intros [H|[]]. injection H as <- <-. now left.
  - destruct (pystr_eqb k1 k0) eqn:E; simpl.
    + apply pystr_eqb_eq in E. subst k1.
      intros [H|H]; [injection H as <- <-; now left | right; now right].
    + intros [H|H]; [right; now left|].
      destruct (IH H) as [H'|H']; [now left | right; now right].
Qed.

Lemma in_register_tokens (tokens : list pystr) (val : pyval) :
  forall (d : pydict) (k : pystr) (v : pyval),
  In (k, v) (fold_left (fun m token => dict_set m token val) tokens d) ->
  (In k tokens /\ v = val) \/ In (k, v) d.
Proof.
  induction tokens as [|t tokens IH]; intros d k v H; cbn [fold_left] in H.
  - now right.
  - apply IH in H. destruct H as [[H1 H2]|H]; [left; split; [now right|exact H2]|].
    apply in_dict_set in H. destruct H as [[-> ->]|H]; [left|now right].
    split; [now left | reflexivity].
Qed.

(** An entry of the replacement map is a token of a field with a
    truthy value, carrying that value. *)
Lemma in_register_fields (resume_data : pydict)
  (fts : list (pystr * list pystr)) :
  forall (d : pydict) (k : pystr) (v : pyval),
  In (k, v) (fold_left (register_field resume_data) fts d) ->
  In (k, v) d
  \/ exists field tokens,
       In (field, tokens) fts /\ In k tokens
       /\ v = dict_get resume_data field /\ py_truthy v = true.
Proof.
  induction fts as [|[field tokens] fts IH]; intros d k v H;
    cbn [fold_left] in H.
  - now left.
  - apply IH in H. destruct H as [H|[f [ts [Hin H]]]].
    + unfold register_field in H.
      destruct (py_truthy (dict_get resume_data field)) eqn:Ht; [|now left].
      apply in_register_tokens in H. destruct H as [[Hk ->]|H]; [|now left].
      right. exists field, tokens. simpl. auto.
    + right. exists f, ts. simpl. tauto.
Qed.

Lemma dict_lookup_in (d : pydict) (k : pystr) (v : pyval) :
  dict_lookup d k = Some v -> In (k, v) d.
Proof.
  induction d as [|[k1 v1] d IH]; simpl; [discriminate|].
  destruct (pystr_eqb k1 k) eqn:E.
  - apply pystr_eqb_eq in E. subst k1. intros H. injection H as ->. now left.
  - intros H. right. now apply IH.
Qed.

(** What a key of the map does to the two texts. *)
Definition key_ok (k : pystr) (v : pyval) : Prop :=
  _text_contains U contact_done k = false
  /\ (((k = py "[EMAIL]" \/ k = py "[Email]") /\ v = VStr contact_email)
      \/ _text_contains U contact_text k = false).

(** Outside the phone field, only the two bracketed e-mail tokens occur
    in the text, and no token occurs in the replaced text. *)
Lemma token_in_contact (field : pystr) (tokens : list pystr) (k : pystr) :
  In (field, tokens) field_tokens -> In k tokens ->
  field = py "phone"
  \/ (_text_contains U contact_done k = false
      /\ (((k = py "[EMAIL]" \/ k = py "[Email]") /\ field = py "email")
          \/ _text_contains U contact_text k = false)).
Proof.
  intros Hft Hk. unfold field_tokens in Hft. simpl in Hft.
  repeat (destruct Hft as [Hft|Hft];
          [injection Hft as <- <-; simpl in Hk;
           repeat (destruct Hk as [<-|Hk];
                   [first [ left; reflexivity
                          | right; split;
                            [ vm_compute; reflexivity
                            | first [ right; vm_compute; reflexivity
                                    | left; split;
                                      [first [left; reflexivity
                                             | right; reflexivity]
                                      | reflexivity] ] ] ]|]);
           contradiction|]).
  contradiction.
Qed.

Lemma apply_replacements_contact (M : pydict) :
  (forall k v, In (k, v) M -> key_ok k v) ->
  forall p,
  (para_text p = contact_done ->
   exists p' n, apply_replacements U sub_escaped M p = Ok (p', n)
                /\ para_text p' = contact_done)
  /\ (para_text p = contact_text ->
      exists p' n, apply_replacements U sub_escaped M p = Ok (p', n)
                   /\ (para_text p' = contact_done
                       \/ (para_text p' = contact_text
                           /\ forall v, ~ In (py "[EMAIL]", v) M))).
Proof.
  induction M as [|[k v] M IH]; intros Hkeys p.
  - split; intros Hp; exists p, 0; (split; [reflexivity|]); auto.
  - assert (forall k' v', In (k', v') M -> key_ok k' v') as Hkeys'
      by (intros k' v' Hin; apply Hkeys; now right).
    destruct (Hkeys k v (or_introl eq_refl)) as [Hdone Htext].
    split; intros Hp; cbn [apply_replacements]; rewrite Hp.
    + rewrite Hdone. now apply IH.
    + destruct Htext as [[Hk ->]|Htext].
      * pose proof (run_table k 0 27 Hk ltac:(lia) ltac:(lia)) as Htab.
        unfold run_check in Htab. cbn [Nat.leb andb] in Htab.
        change (slice 0 27 contact_text) with contact_text in Htab.
        apply andb_true_iff in Htab. destruct Htab as [-> _].
        destruct (replace_in_paragraph_contact k p Hk Hp)
          as [p1 [n1 [-> Hp1]]].
        cbn [bind].
        destruct (proj1 (IH Hkeys' p1) Hp1) as [p2 [n2 [-> Hp2]]].
        cbn [bind]. eexists _, _. split; [reflexivity | now left].
      * rewrite Htext.
        destruct (proj2 (IH Hkeys' p) Hp) as [p2 [n2 [-> Hp2]]].
        eexists _, _. split; [reflexivity|].
        destruct Hp2 as [Hp2|[Hp2 Hno]]; [now left|]. right.
        split; [exact Hp2|]. intros v' [Hin|Hin]; [|exact (Hno v' Hin)].
        injection Hin as -> _.
        assert (_text_contains U contact_text (py "[EMAIL]") = true) as Hc
          by (vm_compute; reflexivity).
        rewrite Hc in Htext. discriminate Htext.
Qed.

(** C3: for a record whose email is "a@b.com" and whose phone is empty,
    the literal-token step turns a paragraph whose text is
    "Contact: [EMAIL] or [PHONE]", however it is divided into runs, into
    one whose text is "Contact: a@b.com or [PHONE]": the e-mail token is
    replaced by the value and "[PHONE]" and the rest of the text stay
    as they were. *)
Theorem C3_literal_replacement_preserves_unrelated_text
  (resume_data : pydict) (p : paragraph)
  (Hemail : dict_get resume_data (py "email") = VStr (py "a@b.com"))
  (Hphone : dict_get resume_data (py "phone") = VStr [])
  (Htext : para_text p = py "Contact: [EMAIL] or [PHONE]") :
  exists p',
    body_paragraph U sub_escaped (_create_replacement_map resume_data) p
    = Ok p'
    /\ para_text p' = py "Contact: a@b.com or [PHONE]"
    /\ para_text p' = py "Contact: " ++ py "a@b.com" ++ py " or [PHONE]"
    /\ contains (para_text p') (py "[PHONE]") = true
    /\ contains (para_text p') (py "[EMAIL]") = false.
Proof.
  set (M := _create_replacement_map resume_data).
  assert (forall k v, In (k, v) M -> key_ok k v) as Hkeys.
  { intros k v Hin. apply in_register_fields in Hin.
    destruct Hin as [[]|[field [tokens [Hft [Hk [Hv Ht]]]]]].
    destruct (token_in_contact field tokens k Hft Hk) as [->|[Hdone Hcase]].
    - rewrite Hv, Hphone in Ht. discriminate Ht.
    - split; [exact Hdone|].
      destruct Hcase as [[Hk' ->]|Hno]; [left|now right].
      split; [exact Hk'|]. now rewrite Hv, Hemail. }
  assert (In (py "[EMAIL]", VStr contact_email) M) as Hin.
  { apply dict_lookup_in. subst M. unfold _create_replacement_map.
    unfold field_tokens. cbn [fold_left].
    rewrite !dict_lookup_register_field, Hemail.
    repeat match goal with
           | |- context [existsb ?f ?l] =>
               let b := eval vm_compute in (existsb f l) in
               change (existsb f l) with b
           end.
    rewrite !andb_false_r. reflexivity. }
  destruct (proj2 (apply_replacements_contact M Hkeys p) Htext)
    as [p' [n [Happly Hp']]].
  destruct Hp' as [Hp'|[_ Hno]]; [|destruct (Hno _ Hin)].
  exists p'. unfold body_paragraph. fold M. rewrite Happly, Htext.
  change (negb (truthy (strip U (py "Contact: [EMAIL] or [PHONE]")))) with false.
  cbn [bind]. split; [reflexivity|]. rewrite Hp'.
  repeat split; vm_compute; reflexivity.
Qed.

End LiteralReplacement.

(** C3 on a paragraph whose token is divided between two runs. *)
Lemma C3_literal_replacement_witness :
  let resume_data := [(py "name", VStr (py "Jane Doe"));
                      (py "email", VStr (py "a@b.com"));
                      (py "phone", VStr [])] in
  let p := [py "Contact: [EM"; py "AIL] or [PHONE]"] in
  exists p',
    body_paragraph latin1 (fun _ _ _ _ => None)
      (_create_replacement_map resume_data) p = Ok p'
    /\ para_text p' = py "Contact: a@b.com or [PHONE]".
Proof.
  intros resume_data p.
  destruct (C3_literal_replacement_preserves_unrelated_text latin1
              (fun _ _ _ _ => None) resume_data p
              eq_refl eq_refl eq_refl) as [p' [H1 [H2 _]]].
  exists p'. split; assumption.
Defined.

(** ** The loops over the literal token map *)

Section TokenLoops.

Context (U : PyUnicode)
        (sub_escaped : bool -> re -> pystr -> pystr -> option pystr).

(** The loop over the map leaves a paragraph in whose text no key
    occurs as it is. *)
Lemma apply_replacements_no_key (M : pydict) (p : paragraph) :
  (forall k v, In (k, v) M -> _text_contains U (para_text p) k = false) ->
  apply_replacements U sub_escaped M p = Ok (p, 0).
Proof.
  induction M as [|[key value] rest IH]; intros H; cbn [apply_replacements];
    [reflexivity|].
  rewrite (H key value (or_introl eq_refl)).
  apply IH. intros k v Hin. apply (H k v). now right.
Qed.

(** A field without a value adds nothing to the map. *)
Lemma register_empty_field (resume_data d : pydict) (field : pystr)
  (tokens : list pystr) :
  py_truthy (dict_get resume_data field) = false ->
  register_field resume_data d (field, tokens) = d.
Proof. intros H. unfold register_field. now rewrite H. Qed.

Lemma register_without_field (resume_data : pydict) (field : pystr)
  (fts : list (pystr * list pystr)) :
  py_truthy (dict_get resume_data field) = false ->
  forall d,
    fold_left (register_field resume_data) fts d
    = fold_left (register_field resume_data)
        (filter (fun ft => negb (pystr_eqb (fst ft) field)) fts) d.
Proof.
  intros Hf. induction fts as [|[f ts] fts IH]; intros d;
    cbn [fold_left filter fst]; [reflexivity|].
  destruct (pystr_eqb f field) eqn:E; cbn [negb fold_left].
  - apply pystr_eqb_eq in E. subst f.
    rewrite (register_empty_field resume_data d field ts Hf). apply IH.
  - apply IH.
Qed.

(** Every token of the table that occurs in the text of the paragraph,
    in any case, belongs to a field without a value. *)
Definition only_empty_fields (resume_data : pydict) (p : paragraph) : Prop :=
  forall field tokens token,
    In (field, tokens) field_tokens -> In token tokens ->
    _text_contains U (para_text p) token = true ->
    py_truthy (dict_get resume_data field) = false.

Lemma only_empty_fields_no_key (resume_data : pydict) (p : paragraph) :
  only_empty_fields resume_data p ->
  forall k v, In (k, v) (_create_replacement_map resume_data) ->
              _text_contains U (para_text p) k = false.
Proof.
  intros Hp k v Hin.
  destruct (in_register_fields resume_data field_tokens [] k v Hin)
    as [[]|[field [tokens [Hft [Hk [Hv Ht]]]]]].
  destruct (_text_contains U (para_text p) k) eqn:E; [|reflexivity].
  pose proof (Hp field tokens k Hft Hk E) as Hfalse.
  rewrite <- Hv in Hfalse. congruence.
Qed.

Lemma literal_loop_only_empty (resume_data : pydict) (p : paragraph) :
  only_empty_fields resume_data p ->
  apply_replacements U sub_escaped (_create_replacement_map resume_data) p
  = Ok (p, 0).
Proof.
  intros Hp. apply apply_replacements_no_key.
  now apply only_empty_fields_no_key.
Qed.

(** C2: a token is a key of the replacement map only when the field it
    belongs to has a truthy value, a non-empty string for a string
    field, and it is mapped to that value.  For a field that is
    missing, [None] or empty, no token of the field is a key or occurs
    among the entries, and the map is the one the table of tokens gives
    without the row of the field: every loop over the map runs as if
    the tokens of the field did not exist.  So the loop over the map,
    which [_format_docx_file] runs on the body paragraphs, on the
    paragraphs of the cells of a table that is not a skills table and
    on the header and footer paragraphs, leaves a paragraph in which
    only tokens of such fields occur as it is, with a count of zero and
    without raising; the table step and the header and footer step,
    which consist of that loop, return such a table and such headers
    and footers unchanged.  When every identity field is empty the map
    is empty and that holds of every paragraph, table and header and
    footer.  [WordFormatter.format] catches what its body raises: for
    a record that has a name, empty or not, it returns what the body
    returns, and [False] when the body raises; it raises [KeyError]
    for a record without a name and [TypeError] for a template path
    that is [None], both before the [try].

    The statement is about the loop over the literal map.  The regex
    placeholder pass that follows it for a body paragraph (lines 155
    to 216) is another mechanism, with a default of its own for an
    empty name, and is not part of it. *)
Theorem C2_tokens_registered_only_for_nonempty_fields
  (resume_data : pydict) :
  let replacements := _create_replacement_map resume_data in
  (forall token value,
     dict_lookup replacements token = Some value ->
     exists field tokens,
       In (field, tokens) field_tokens /\ In token tokens
       /\ value = dict_get resume_data field
       /\ py_truthy value = true
       /\ forall s, value = VStr s -> s <> [])
  /\ (forall field tokens token,
        In (field, tokens) field_tokens -> In token tokens ->
        py_truthy (dict_get resume_data field) = false ->
        dict_lookup replacements token = None
        /\ ~ In token (List.map fst replacements))
  /\ (forall field,
        py_truthy (dict_get resume_data field) = false ->
        replacements
        = fold_left (register_field resume_data)
            (filter (fun ft => negb (pystr_eqb (fst ft) field)) field_tokens)
            [])
  /\ (forall p,
        only_empty_fields resume_data p ->
        apply_replacements U sub_escaped replacements p = Ok (p, 0))
  /\ (forall skills_data t,
        _is_skills_table U t = false ->
        (forall row c p, In row t -> In c row -> In p c ->
                         only_empty_fields resume_data p) ->
        format_table U sub_escaped replacements skills_data t = Ok t)
  /\ (forall hf,
        (forall p, In p (fst hf) \/ In p (snd hf) ->
                   only_empty_fields resume_data p) ->
        header_footer U sub_escaped replacements hf = Ok hf)
  /\ ((forall field tokens,
         In (field, tokens) field_tokens ->
         py_truthy (dict_get resume_data field) = false) ->
      replacements = []
      /\ (forall p,
            apply_replacements U sub_escaped replacements p = Ok (p, 0))
      /\ (forall skills_data t,
            _is_skills_table U t = false ->
            format_table U sub_escaped replacements skills_data t = Ok t)
      /\ (forall hf, header_footer U sub_escaped replacements hf = Ok hf))
  /\ (forall name template body,
        dict_lookup resume_data (py "name") = Some name ->
        WordFormatter_format resume_data (VStr template) body
        = Ok (match body with Ok b => b | Raise _ => false end))
  /\ (forall template body,
        dict_lookup resume_data (py "name") = None ->
        WordFormatter_format resume_data (VStr template) body
        = Raise (KeyError (py "name")))
  /\ (forall body,
        WordFormatter_format resume_data VNone body = Raise TypeError).
Proof.
  intros replacements.
  set (literal := fun p : paragraph =>
         bind (apply_replacements U sub_escaped replacements p)
              (fun '(p', _) => Ok p')).
  assert (forall token value,
            In (token, value) replacements ->
            exists field tokens,
              In (field, tokens) field_tokens /\ In token tokens
              /\ value = dict_get resume_data field
              /\ py_truthy value = true) as Hentries.
  { intros token value H.
    destruct (in_register_fields resume_data field_tokens [] token value H)
      as [[]|H']. exact H'. }
  assert (forall p, only_empty_fields resume_data p ->
                    literal p = Ok p) as Hliteral.
  { intros p Hp. unfold literal, replacements.
    now rewrite (literal_loop_only_empty resume_data p Hp). }
  split; [|split; [|split; [|split; [|split; [|split; [|split; [|split;
    [|split]]]]]]]].
  - intros token value H. apply dict_lookup_in in H.
    destruct (Hentries _ _ H) as [field [tokens [H1 [H2 [H3 H4]]]]].
    exists field, tokens. repeat split; try assumption.
    intros s -> ->. discriminate H4.
  - intros field tokens token Hin Htok Hfalse.
    assert (~ In token (List.map fst replacements)) as Hnot.
    { intros Hk. apply in_map_iff in Hk as [[k v] [Hk Hkv]].
      cbn [fst] in Hk. subst k.
      destruct (Hentries _ _ Hkv) as [field' [tokens' [H1 [H2 [H3 H4]]]]].
      rewrite (token_owner_unique _ _ _ _ _ Hin Htok H1 H2) in Hfalse.
      rewrite <- H3 in Hfalse. congruence. }
    split; [|exact Hnot].
    destruct (dict_lookup replacements token) as [value|] eqn:E;
      [|reflexivity].
    exfalso. apply Hnot. apply dict_lookup_in in E.
    apply in_map_iff. now exists (token, value).
  - intros field Hfalse. unfold replacements, _create_replacement_map.
    now apply register_without_field.
  - intros p Hp. exact (literal_loop_only_empty resume_data p Hp).
  - intros skills_data t Hskills Hcells. unfold format_table.
    rewrite Hskills.
    apply map_result_ok_id. intros row Hrow.
    apply map_result_ok_id. intros c Hc.
    apply map_result_ok_id. intros p Hp.
    exact (Hliteral p (Hcells row c p Hrow Hc Hp)).
  - intros [h f] Hhf. unfold header_footer. cbn [fst snd] in *.
    fold literal.
    rewrite (map_result_ok_id literal h)
      by (intros p Hp; apply Hliteral, Hhf; now left).
    cbn [bind].
    rewrite (map_result_ok_id literal f)
      by (intros p Hp; apply Hliteral, Hhf; now right).
    reflexivity.
  - intros Hempty.
    assert (replacements = []) as Hnil.
    { unfold replacements, _create_replacement_map.
      assert (forall fts d,
                (forall field tokens, In (field, tokens) fts ->
                   py_truthy (dict_get resume_data field) = false) ->
                fold_left (register_field resume_data) fts d = d) as Hfold.
      { induction fts as [|[f ts] fts IH]; intros d Hall; cbn [fold_left];
          [reflexivity|].
        rewrite (register_empty_field resume_data d f ts
                   (Hall f ts (or_introl eq_refl))).
        apply IH. intros f' ts' Hin. apply (Hall f' ts'). now right. }
      now apply Hfold. }
    split; [exact Hnil|]. rewrite Hnil. split; [|split].
    + intros p. reflexivity.
    + intros skills_data t Hskills. unfold format_table. rewrite Hskills.
      apply map_result_ok_id. intros row _.
      apply map_result_ok_id. intros c _.
      apply map_result_ok_id. reflexivity.
    + intros [h f]. unfold header_footer. cbn [fst snd].
      rewrite !map_result_ok_id by reflexivity. reflexivity.
  - intros name template body Hname. unfold WordFormatter_format.
    rewrite Hname. now destruct body.
  - intros template body Hname. unfold WordFormatter_format.
    now rewrite Hname.
  - reflexivity.
Qed.

End TokenLoops.

(** C2 on a record with a name, an e-mail address and an empty phone
    number: no phone token is a key of the map, and the loop over the
    map leaves the paragraph "Phone: [PHONE]" as it is. *)
Lemma C2_empty_phone_witness :
  let resume_data := [(py "name", VStr (py "Jane Doe"));
                      (py "email", VStr (py "a@b.com"));
                      (py "phone", VStr [])] in
  dict_lookup (_create_replacement_map resume_data) (py "[PHONE]") = None
  /\ dict_lookup (_create_replacement_map resume_data) (py "[EMAIL]")
     = Some (VStr (py "a@b.com"))
  /\ apply_replacements latin1 (fun _ _ _ _ => None)
       (_create_replacement_map resume_data) [py "Phone: [PHONE]"]
     = Ok ([py "Phone: [PHONE]"], 0).
Proof.
  intros resume_data.
  destruct (C2_tokens_registered_only_for_nonempty_fields latin1
              (fun _ _ _ _ => None) resume_data)
    as [_ [Hkeys [_ [Hloop _]]]].
  split; [|split; [vm_compute; reflexivity|]].
  - apply (Hkeys (py "phone")
             (List.map py ["[PHONE]"; "[Phone]"; "<PHONE>"; "<Phone>";
                           "<Candidate Phone>"]%string) (py "[PHONE]")).
    + vm_compute. tauto.
    + now left.
    + vm_compute. reflexivity.
  - apply Hloop. intros field tokens token Hft Htok Hin.
    unfold field_tokens in Hft. simpl in Hft.
    repeat (destruct Hft as [Hft|Hft];
            [injection Hft as <- <-; simpl in Htok;
             repeat (destruct Htok as [<-|Htok];
                     [first [ vm_compute; reflexivity
                            | vm_compute in Hin; discriminate Hin ]|]);
             contradiction|]).
    contradiction.
Defined.

(** ** Cleaning durations *)

Section Cleaning.

Context (U : PyUnicode).

(** *** Digits *)

Lemma digit_word (d : N) : is_digit U d = true -> is_word U d = true.
Proof.
  unfold is_digit, is_word. destruct (is_ascii d).
  - unfold ascii_word. intros ->. now rewrite orb_true_r.
  - apply udigit_word.
Qed.

Lemma digit_nonspace (d : N) : is_digit U d = true -> is_space U d = false.
Proof.
  unfold is_digit, is_space. destruct (is_ascii d).
  - unfold ascii_digit, ascii_space. intros H.
    apply andb_true_iff in H. destruct H as [H1 H2].
    apply N.leb_le in H1, H2.
    destruct (N.leb_spec 9 d), (N.leb_spec d 13), (N.leb_spec 28 d),
      (N.leb_spec d 32); simpl; try reflexivity; lia.
  - intros H. apply uword_nonspace. now apply udigit_word.
Qed.

(** A digit is none of the characters a pattern of the cleaners names,
    letters apart. *)
Lemma digit_not_literal (d c : N) :
  is_digit U d = true -> is_digit U c = false -> (c =? d)%N = false.
Proof.
  intros Hd Hc. apply N.eqb_neq. intros ->. congruence.
Qed.

Lemma named_not_digit (c : N) :
  In c [i_diaeresis; zero_width_space; byte_order_mark; en_dash; em_dash] ->
  is_digit U c = false.
Proof.
  intros Hin. unfold is_digit.
  destruct (is_ascii c) eqn:Ha; [|now apply udigit_named].
  simpl in Hin.
  repeat (destruct Hin as [<-|Hin]; [discriminate Ha|]). contradiction.
Qed.

Lemma digit_no_match (ic : bool) (c d : N) :
  is_digit U d = true -> is_digit U c = false -> chr_match U ic c d = false.
Proof.
  intros Hd Hc. unfold chr_match.
  rewrite (digit_not_literal d c Hd Hc). simpl.
  destruct ic; [|reflexivity]. simpl.
  destruct (ascii_letter c) eqn:Hl; [|reflexivity]. simpl.
  unfold is_digit in Hd. destruct (is_ascii d) eqn:Ha.
  - apply N.eqb_neq. intros Heq.
    unfold ascii_digit in Hd. apply andb_true_iff in Hd.
    destruct Hd as [H1 H2]. apply N.leb_le in H1, H2.
    assert (ascii_lower d = d) as Hld.
    { unfold ascii_lower, ascii_upper_letter.
      destruct (N.leb_spec 65 d); simpl; [lia | reflexivity]. }
    rewrite Hld in Heq.
    unfold ascii_letter, ascii_upper_letter, ascii_lower_letter in Hl.
    unfold ascii_lower, ascii_upper_letter in Heq.
    destruct (N.leb_spec 65 c), (N.leb_spec c 90), (N.leb_spec 97 c),
      (N.leb_spec c 122); simpl in *; try discriminate; lia.
  - destruct (ufold U (ascii_lower c) d) eqn:Hf; [|reflexivity].
    apply ufold_nondigit in Hf. congruence.
Qed.

(** *** Steps of the matcher *)

Lemma ms_char_no (ic : bool) (c x : N) (prev : option N) (s : pystr) :
  chr_match U ic c x = false -> ms U ic (RChar c) (prev, x :: s) = [].
Proof. intros H. cbn. now rewrite H. Qed.

Lemma ms_char_yes (ic : bool) (c x : N) (prev : option N) (s : pystr) :
  chr_match U ic c x = true ->
  ms U ic (RChar c) (prev, x :: s) = [(Some x, s)].
Proof. intros H. cbn. now rewrite H. Qed.

Lemma ms_space_no (ic : bool) (x : N) (prev : option N) (s : pystr) :
  is_space U x = false -> ms U ic RSp (prev, x :: s) = [].
Proof. intros H. cbn. now rewrite H. Qed.

Lemma ms_digit_yes (ic : bool) (x : N) (prev : option N) (s : pystr) :
  is_digit U x = true -> ms U ic RDig (prev, x :: s) = [(Some x, s)].
Proof. intros H. cbn. now rewrite H. Qed.

Lemma ms_star_none (ic : bool) (a : re) (p : pos) :
  ms U ic a p = [] -> ms U ic (RStar a) p = [p].
Proof.
  intros H. cbn [ms]. destruct (length (snd p)); [reflexivity|].
  now rewrite H.
Qed.

Lemma ms_str_no (ic : bool) (c : N) (w : pystr) (x : N) (prev : option N)
  (s : pystr) :
  chr_match U ic c x = false -> ms U ic (RStr (c :: w)) (prev, x :: s) = [].
Proof.
  intros H.
  destruct w as [|c' w]; cbn [RStr ms step_if snd]; rewrite H; reflexivity.
Qed.

(** *** Steps of the scans *)

(** The character before the position reached after [a]. *)
Definition prev_after (prev : option N) (a : pystr) : option N :=
  match rev a with x :: _ => Some x | [] => prev end.

Lemma prev_after_cons (prev : option N) (c : N) (a : pystr) :
  prev_after prev (c :: a) = prev_after (Some c) a.
Proof.
  unfold prev_after. simpl. destruct (rev a) as [|x r] eqn:E; reflexivity.
Qed.

(** A character at which the pattern does not match, whatever is around
    it. *)
Definition no_start (ic : bool) (r : re) (c : N) : Prop :=
  forall prev s, ms U ic r (prev, c :: s) = [].

Lemma match_len_none (ic : bool) (r : re) (prev : option N) (s : pystr) :
  ms U ic r (prev, s) = [] -> match_len U ic r prev s = None.
Proof. unfold match_len. now intros ->. Qed.

Lemma match_len_first (ic : bool) (r : re) (prev : option N) (s : pystr)
  (q : option N) (rest : pystr) (l : list pos) :
  ms U ic r (prev, s) = (q, rest) :: l ->
  match_len U ic r prev s = Some (length s - length rest).
Proof. unfold match_len. now intros ->. Qed.

Lemma sub_go_no_start (ic : bool) (r : re) (repl : pystr) (a : pystr) :
  Forall (no_start ic r) a ->
  forall prev s,
  sub_go U ic r repl prev (a ++ s) 0
  = a ++ sub_go U ic r repl (prev_after prev a) s 0.
Proof.
  induction 1 as [|c a Hc _ IH]; intros prev s; [reflexivity|].
  cbn [app sub_go].
  rewrite (match_len_none ic r prev (c :: a ++ s) (Hc prev (a ++ s))).
  rewrite prev_after_cons. now rewrite IH.
Qed.

Lemma sub_go_match (ic : bool) (r : re) (repl : pystr) (prev : option N)
  (c : N) (s : pystr) (n : nat) :
  match_len U ic r prev (c :: s) = Some (S n) ->
  sub_go U ic r repl prev (c :: s) 0
  = repl ++ sub_go U ic r repl (Some c) s n.
Proof. intros H. cbn [sub_go]. now rewrite H. Qed.

Lemma sub_go_end (ic : bool) (r : re) (repl : pystr) (prev : option N) :
  ms U ic r (prev, []) = [] -> sub_go U ic r repl prev [] 0 = [].
Proof.
  intros H. cbn [sub_go]. now rewrite (match_len_none ic r prev [] H).
Qed.

Lemma findall_go_no_start (r : re) (a : pystr) :
  Forall (no_start false r) a ->
  forall prev s,
  findall_go U false r prev (a ++ s) 0
  = findall_go U false r (prev_after prev a) s 0.
Proof.
  induction 1 as [|c a Hc _ IH]; intros prev s; [reflexivity|].
  cbn [app findall_go].
  rewrite (match_len_none false r prev (c :: a ++ s) (Hc prev (a ++ s))).
  rewrite prev_after_cons. now rewrite IH.
Qed.

Lemma findall_go_skip (r : re) (a : pystr) :
  forall prev s,
  findall_go U false r prev (a ++ s) (length a)
  = findall_go U false r (prev_after prev a) s 0.
Proof.
  induction a as [|c a IH]; intros prev s; [reflexivity|].
  cbn [app length findall_go]. rewrite prev_after_cons. apply IH.
Qed.

Lemma ms_seq_eq (ic : bool) (a b : re) (p : pos) :
  ms U ic (RSeq a b) p = flat_map (ms U ic b) (ms U ic a p).
Proof. reflexivity. Qed.

Lemma ms_alt_eq (ic : bool) (a b : re) (p : pos) :
  ms U ic (RAlt a b) p = ms U ic a p ++ ms U ic b p.
Proof. reflexivity. Qed.

Lemma ms_wordb_eq (ic : bool) (p : pos) :
  ms U ic RWordB p
  = if xorb (word_before U p) (word_after U p) then [p] else [].
Proof. reflexivity. Qed.

Lemma ms_char_end (ic : bool) (c : N) (prev : option N) :
  ms U ic (RChar c) (prev, []) = [].
Proof. reflexivity. Qed.

Lemma ms_str_end (ic : bool) (c : N) (w : pystr) (prev : option N) :
  ms U ic (RStr (c :: w)) (prev, []) = [].
Proof. destruct w; reflexivity. Qed.

(** *** The connector pattern *)

Lemma connector_no_start (c : N) :
  is_space U c = false ->
  chr_match U true 116 c = false -> chr_match U true en_dash c = false ->
  chr_match U true em_dash c = false -> chr_match U true 45 c = false ->
  no_start true connector_re c.
Proof.
  intros Hsp Ht Hen Hem Hhy prev s.
  unfold connector_re. cbn [RSeqs RAlts].
  change (py "to") with [116%N; 111%N].
  rewrite ms_seq_eq, (ms_star_none true RSp _ (ms_space_no true c prev s Hsp)).
  cbn [flat_map]. rewrite app_nil_r, ms_seq_eq, !ms_alt_eq.
  rewrite (ms_str_no true 116 [111%N] c prev s Ht).
  rewrite (ms_char_no true en_dash c prev s Hen).
  rewrite (ms_char_no true em_dash c prev s Hem).
  rewrite (ms_char_no true 45 c prev s Hhy).
  reflexivity.
Qed.

Lemma connector_end (prev : option N) :
  ms U true connector_re (prev, []) = [].
Proof.
  unfold connector_re. cbn [RSeqs RAlts].
  change (py "to") with [116%N; 111%N].
  rewrite ms_seq_eq, (ms_star_none true RSp (prev, []) eq_refl).
  reflexivity.
Qed.

Lemma connector_hyphen_ms (prev : option N) (c : N) (s : pystr) :
  is_space U c = false ->
  ms U true connector_re (prev, 45%N :: c :: s) = [(Some 45%N, c :: s)].
Proof.
  intros Hsp. unfold connector_re. cbn [RSeqs RAlts].
  change (py "to") with [116%N; 111%N].
  rewrite ms_seq_eq.
  rewrite (ms_star_none true RSp (prev, 45%N :: c :: s) eq_refl).
  cbn [flat_map]. rewrite app_nil_r, ms_seq_eq, !ms_alt_eq.
  rewrite (ms_str_no true 116 [111%N] 45 prev (c :: s) eq_refl).
  rewrite (ms_char_no true en_dash 45 prev (c :: s) eq_refl).
  rewrite (ms_char_no true em_dash 45 prev (c :: s) eq_refl).
  rewrite (ms_char_yes true 45 45 prev (c :: s) eq_refl).
  cbn [app flat_map].
  rewrite (ms_star_none true RSp _ (ms_space_no true c (Some 45%N) s Hsp)).
  reflexivity.
Qed.

(** A hyphen between two characters that are not spaces is a match of
    one character. *)
Lemma connector_hyphen (prev : option N) (c : N) (s : pystr) :
  is_space U c = false ->
  match_len U true connector_re prev (45%N :: c :: s) = Some 1.
Proof.
  intros Hsp.
  rewrite (match_len_first true connector_re prev _ _ _ _
             (connector_hyphen_ms prev c s Hsp)).
  cbn [length]. f_equal. lia.
Qed.

(** *** The pattern of "current" and "present" *)

Lemma current_no_start (c : N) :
  chr_match U true 99 c = false -> chr_match U true 112 c = false ->
  no_start true current_re c.
Proof.
  intros Hc Hp prev s. unfold current_re. cbn [RSeqs RAlts].
  change (py "current") with [99; 117; 114; 114; 101; 110; 116]%N.
  change (py "present") with [112; 114; 101; 115; 101; 110; 116]%N.
  rewrite ms_seq_eq, ms_wordb_eq.
  destruct (xorb _ _); [|reflexivity].
  cbn [flat_map]. rewrite app_nil_r, ms_seq_eq, ms_alt_eq.
  rewrite (ms_str_no true 99 _ c prev s Hc).
  rewrite (ms_str_no true 112 _ c prev s Hp).
  reflexivity.
Qed.

Lemma current_end (prev : option N) : ms U true current_re (prev, []) = [].
Proof.
  unfold current_re. cbn [RSeqs RAlts].
  change (py "current") with [99; 117; 114; 114; 101; 110; 116]%N.
  change (py "present") with [112; 114; 101; 115; 101; 110; 116]%N.
  rewrite ms_seq_eq, ms_wordb_eq.
  destruct (xorb _ _); [|reflexivity].
  cbn [flat_map]. rewrite app_nil_r, ms_seq_eq, ms_alt_eq, !ms_str_end.
  reflexivity.
Qed.

(** *** The year pattern *)

(** A four-digit token that begins with 19 or 20. *)
Definition year_token (y : pystr) : Prop :=
  exists d1 d2,
    is_digit U d1 = true /\ is_digit U d2 = true
    /\ (y = [49; 57; d1; d2]%N \/ y = [50; 48; d1; d2]%N).

Lemma year_no_start (c : N) :
  chr_match U false 49 c = false -> chr_match U false 50 c = false ->
  no_start false year_re c.
Proof.
  intros H1 H2 prev s. unfold year_re. cbn [RSeqs RAlts].
  change (py "19") with [49; 57]%N. change (py "20") with [50; 48]%N.
  rewrite ms_seq_eq, ms_wordb_eq.
  destruct (xorb _ _); [|reflexivity].
  cbn [flat_map]. rewrite app_nil_r, ms_seq_eq, ms_alt_eq.
  rewrite (ms_str_no false 49 _ c prev s H1).
  rewrite (ms_str_no false 50 _ c prev s H2).
  reflexivity.
Qed.

Lemma year_end (prev : option N) : ms U false year_re (prev, []) = [].
Proof.
  unfold year_re. cbn [RSeqs RAlts].
  change (py "19") with [49; 57]%N. change (py "20") with [50; 48]%N.
  rewrite ms_seq_eq, ms_wordb_eq.
  destruct (xorb _ _); [|reflexivity].
  cbn [flat_map]. rewrite app_nil_r, ms_seq_eq, ms_alt_eq, !ms_str_end.
  reflexivity.
Qed.

Lemma year_match_ms (prev : option N) (a b d1 d2 : N) (s : pystr) :
  (a = 49%N /\ b = 57%N) \/ (a = 50%N /\ b = 48%N) ->
  is_digit U d1 = true -> is_digit U d2 = true ->
  word_before U (prev, a :: b :: d1 :: d2 :: s) = false ->
  word_after U (Some d2, s) = false ->
  ms U false year_re (prev, a :: b :: d1 :: d2 :: s) = [(Some d2, s)].
Proof.
  intros Hab H1 H2 Hbefore Hafter. unfold year_re. cbn [RSeqs RAlts].
  change (py "19") with [49; 57]%N. change (py "20") with [50; 48]%N.
  rewrite ms_seq_eq, ms_wordb_eq, Hbefore.
  assert (word_after U (prev, a :: b :: d1 :: d2 :: s) = true) as ->
    by (destruct Hab as [[-> _]|[-> _]]; reflexivity).
  cbn [xorb flat_map]. rewrite app_nil_r, ms_seq_eq, ms_alt_eq.
  assert (ms U false (RStr [49; 57]%N) (prev, a :: b :: d1 :: d2 :: s)
          ++ ms U false (RStr [50; 48]%N) (prev, a :: b :: d1 :: d2 :: s)
          = [(Some b, d1 :: d2 :: s)]) as ->
    by (destruct Hab as [[-> ->]|[-> ->]]; reflexivity).
  cbn [flat_map]. rewrite app_nil_r, ms_seq_eq.
  rewrite (ms_digit_yes false d1 (Some b) (d2 :: s) H1).
  cbn [flat_map]. rewrite app_nil_r, ms_seq_eq.
  rewrite (ms_digit_yes false d2 (Some d1) s H2).
  cbn [flat_map]. rewrite app_nil_r, ms_wordb_eq, Hafter.
  cbn [word_before fst]. now rewrite (digit_word d2 H2).
Qed.

(** At a token with no word character before or after it the scan of
    [re.findall] takes the token and goes on behind it. *)
Lemma findall_go_token (prev : option N) (y s : pystr) :
  year_token y ->
  word_before U (prev, y ++ s) = false ->
  word_after U (prev_after prev y, s) = false ->
  findall_go U false year_re prev (y ++ s) 0
  = y :: findall_go U false year_re (prev_after prev y) s 0.
Proof.
  intros [d1 [d2 [H1 [H2 Hy]]]] Hbefore Hafter.
  assert (exists a b, y = [a; b; d1; d2]
                      /\ ((a = 49%N /\ b = 57%N) \/ (a = 50%N /\ b = 48%N)))
    as [a [b [-> Hab]]].
  { destruct Hy as [->| ->].
    - exists 49%N, 57%N. tauto.
    - exists 50%N, 48%N. tauto. }
  change (prev_after prev [a; b; d1; d2]) with (Some d2) in *.
  cbn [app] in *. cbn [findall_go].
  rewrite (match_len_first false year_re prev _ _ _ _
             (year_match_ms prev a b d1 d2 s Hab H1 H2 Hbefore Hafter)).
  replace (length (a :: b :: d1 :: d2 :: s) - length s) with 4
    by (cbn [length]; lia).
  reflexivity.
Qed.

(** *** A cleaned string is cleaned to itself *)

(** The characters of a cleaned string: digits and the hyphen. *)
Definition plain (c : N) : Prop := is_digit U c = true \/ c = 45%N.

Lemma token_plain (y : pystr) : year_token y -> Forall plain y.
Proof.
  intros [d1 [d2 [H1 [H2 [->| ->]]]]];
    repeat (apply Forall_cons; [left; (assumption || reflexivity)|]);
    apply Forall_nil.
Qed.

Lemma token_digits (y : pystr) :
  year_token y -> Forall (fun c => is_digit U c = true) y.
Proof.
  intros [d1 [d2 [H1 [H2 [->| ->]]]]];
    repeat (apply Forall_cons; [assumption || reflexivity|]);
    apply Forall_nil.
Qed.

Lemma plain_nonspace (c : N) : plain c -> is_space U c = false.
Proof. intros [H| ->]; [now apply digit_nonspace | reflexivity]. Qed.

Lemma plain_not_named (c0 c : N) :
  In c0 [i_diaeresis; zero_width_space; byte_order_mark] ->
  plain c -> (c0 =? c)%N = false.
Proof.
  intros Hin [H| ->].
  - apply digit_not_literal; [exact H|]. apply named_not_digit.
    simpl in *. tauto.
  - simpl in Hin.
    repeat (destruct Hin as [<-|Hin]; [reflexivity|]). contradiction.
Qed.

Lemma replace_no_first (old0 : N) (old new s : pystr) :
  Forall (fun c => (old0 =? c)%N = false) s ->
  replace s (old0 :: old) new = s.
Proof.
  unfold replace. induction 1 as [|c s Hc _ IH]; [reflexivity|].
  cbn [replace_go startswith]. rewrite Hc. cbn [andb]. now rewrite IH.
Qed.

Lemma lstrip_by_keep (f : N -> bool) (s : pystr) :
  Forall (fun c => f c = false) s -> lstrip_by f s = s.
Proof. destruct 1 as [|c s Hc _]; [reflexivity|]. simpl. now rewrite Hc. Qed.

Lemma strip_by_keep (f : N -> bool) (s : pystr) :
  Forall (fun c => f c = false) s -> strip_by f s = s.
Proof.
  intros H. unfold strip_by, rstrip_by.
  rewrite (lstrip_by_keep f s H).
  rewrite lstrip_by_keep by (now apply Forall_rev).
  apply rev_involutive.
Qed.

Lemma sub_go_all_no_start (ic : bool) (r : re) (repl a : pystr)
  (prev : option N) :
  Forall (no_start ic r) a ->
  (forall prev', ms U ic r (prev', []) = []) ->
  sub_go U ic r repl prev a 0 = a.
Proof.
  intros Ha Hend.
  pose proof (sub_go_no_start ic r repl a Ha prev []) as H.
  rewrite app_nil_r in H. rewrite H.
  rewrite (sub_go_end ic r repl _ (Hend _)). apply app_nil_r.
Qed.

Lemma re_sub_no_start (ic : bool) (r : re) (repl a : pystr) :
  Forall (no_start ic r) a ->
  (forall prev, ms U ic r (prev, []) = []) ->
  re_sub U ic r repl a = a.
Proof. apply sub_go_all_no_start. Qed.

Lemma spaces_no_start (c : N) :
  is_space U c = false -> no_start false (RPlus RSp) c.
Proof.
  intros H prev s. unfold RPlus.
  now rewrite ms_seq_eq, (ms_space_no false c prev s H).
Qed.

Lemma normalize_plain (o : pystr) :
  Forall plain o -> _normalize_text U o = o.
Proof.
  intros Ho. unfold _normalize_text. destruct o as [|c o']; [reflexivity|].
  set (o := c :: o') in *. cbn [truthy negb].
  assert (forall c0, In c0 [i_diaeresis; zero_width_space; byte_order_mark] ->
          Forall (fun x => (c0 =? x)%N = false) o) as Hnamed.
  { intros c0 Hin. eapply Forall_impl; [|exact Ho].
    intros x Hx. now apply plain_not_named. }
  rewrite (replace_no_first zero_width_space [] (py " ") o)
    by (apply Hnamed; simpl; tauto).
  rewrite (replace_no_first i_diaeresis [one_quarter] (py " ") o)
    by (apply Hnamed; simpl; tauto).
  rewrite (replace_no_first byte_order_mark [] (py " ") o)
    by (apply Hnamed; simpl; tauto).
  rewrite re_sub_no_start.
  - apply strip_by_keep. eapply Forall_impl; [|exact Ho].
    intros x Hx. now apply plain_nonspace.
  - eapply Forall_impl; [|exact Ho]. intros x Hx.
    apply spaces_no_start. now apply plain_nonspace.
  - reflexivity.
Qed.

Lemma strip_plain (o : pystr) : Forall plain o -> strip U o = o.
Proof.
  intros Ho. apply strip_by_keep. eapply Forall_impl; [|exact Ho].
  intros x Hx. now apply plain_nonspace.
Qed.

Lemma digit_connector_no_start (d : N) :
  is_digit U d = true -> no_start true connector_re d.
Proof.
  intros H. apply connector_no_start.
  - now apply digit_nonspace.
  - now apply digit_no_match.
  - apply digit_no_match; [exact H|]. apply named_not_digit. simpl. tauto.
  - apply digit_no_match; [exact H|]. apply named_not_digit. simpl. tauto.
  - now apply digit_no_match.
Qed.

Lemma plain_current_no_start (c : N) : plain c -> no_start true current_re c.
Proof.
  intros [H| ->]; apply current_no_start;
    try (now apply digit_no_match); reflexivity.
Qed.

Lemma connector_digits (y : pystr) :
  Forall (fun c => is_digit U c = true) y ->
  re_sub U true connector_re (py "-") y = y.
Proof.
  intros Hy. apply re_sub_no_start; [|apply connector_end].
  eapply Forall_impl; [|exact Hy]. apply digit_connector_no_start.
Qed.

(** The hyphen of a cleaned pair is the only match of the connector
    pattern, and is replaced by itself. *)
Lemma connector_pair (y1 y2 : pystr) :
  Forall (fun c => is_digit U c = true) y1 ->
  Forall (fun c => is_digit U c = true) y2 -> y2 <> [] ->
  re_sub U true connector_re (py "-") (y1 ++ 45%N :: y2) = y1 ++ 45%N :: y2.
Proof.
  intros H1 H2 Hne. unfold re_sub.
  rewrite sub_go_no_start
    by (eapply Forall_impl; [|exact H1]; apply digit_connector_no_start).
  f_equal. destruct y2 as [|c y2']; [contradiction|].
  rewrite (sub_go_match true connector_re (py "-") _ 45 (c :: y2') 0)
    by (apply connector_hyphen, digit_nonspace; now inversion H2).
  change (py "-") with [45%N]. cbn [app]. f_equal.
  apply sub_go_all_no_start; [|apply connector_end].
  eapply Forall_impl; [|exact H2]. apply digit_connector_no_start.
Qed.

Lemma current_plain (repl o : pystr) :
  Forall plain o -> re_sub U true current_re repl o = o.
Proof.
  intros Ho. apply re_sub_no_start; [|apply current_end].
  eapply Forall_impl; [|exact Ho]. apply plain_current_no_start.
Qed.

Lemma findall_token (y : pystr) :
  year_token y -> re_findall U false year_re y = [y].
Proof.
  intros Hy. unfold re_findall. rewrite <- (app_nil_r y) at 1.
  rewrite findall_go_token; try exact Hy; try reflexivity.
  cbn [findall_go].
  now rewrite (match_len_none false year_re _ [] (year_end _)).
Qed.

Lemma findall_pair (y1 y2 : pystr) :
  year_token y1 -> year_token y2 ->
  re_findall U false year_re (y1 ++ 45%N :: y2) = [y1; y2].
Proof.
  intros Hy1 Hy2. unfold re_findall.
  rewrite findall_go_token; try exact Hy1; try reflexivity.
  f_equal. cbn [findall_go].
  rewrite (match_len_none false year_re _ _
             (year_no_start 45 eq_refl eq_refl _ y2)).
  rewrite <- (app_nil_r y2) at 1.
  rewrite findall_go_token; try exact Hy2; try reflexivity.
  cbn [findall_go].
  now rewrite (match_len_none false year_re _ [] (year_end _)).
Qed.

(** *** What the scan finds *)

Lemma chr_match_exact (c x : N) : chr_match U false c x = (c =? x)%N.
Proof. unfold chr_match. simpl. apply orb_false_r. Qed.

Ltac ms_step H :=
  cbn [ms flat_map app step_if snd fst RStr RDig existsb atom_match xorb orb]
    in H.

(** A match of the year pattern is a token. *)
Lemma year_match_inv (prev : option N) (s : pystr) (q : option N * list N)
  (l : list (option N * list N)) :
  ms U false year_re (prev, s) = q :: l ->
  exists y rest, s = y ++ rest /\ year_token y /\ length y = 4
                 /\ snd q = rest.
Proof.
  unfold year_re. cbn [RSeqs RAlts].
  change (py "19") with [49; 57]%N. change (py "20") with [50; 48]%N.
  rewrite ms_seq_eq, ms_wordb_eq.
  destruct (xorb _ _); [|discriminate].
  cbn [flat_map]. rewrite app_nil_r.
  intros Hq.
  assert (exists a b d1 d2 rest, s = a :: b :: d1 :: d2 :: rest)
    as [a [b [d1 [d2 [rest ->]]]]].
  { destruct s as [|a [|b [|d1 [|d2 rest]]]];
      [| | | |now exists a, b, d1, d2, rest];
      ms_step Hq;
      repeat match type of Hq with
             | context [if ?b then _ else _] =>
                 destruct b;
                 ms_step Hq
             end;
      discriminate Hq. }
  exists [a; b; d1; d2], rest. split; [reflexivity|].
  ms_step Hq.
  rewrite !chr_match_exact in Hq.
  assert (is_digit U d1 = true /\ is_digit U d2 = true
          /\ ((a = 49%N /\ b = 57%N) \/ (a = 50%N /\ b = 48%N))
          /\ snd q = rest) as [H1 [H2 [Hab Hrest]]].
  { destruct (49 =? a)%N eqn:Ea1; destruct (50 =? a)%N eqn:Ea2;
      ms_step Hq;
      rewrite ?chr_match_exact in Hq;
      repeat match type of Hq with
             | context [if ?b then _ else _] =>
                 destruct b eqn:?;
                 ms_step Hq;
                 rewrite ?chr_match_exact in Hq
             end;
      rewrite ?orb_false_r in *;
      try discriminate Hq;
      repeat match goal with
             | H : (_ =? _)%N = true |- _ => apply N.eqb_eq in H
             end;
      try congruence;
      injection Hq as <- _; subst; auto 10. }
  split; [|split; [reflexivity | exact Hrest]].
  exists d1, d2. split; [exact H1|]. split; [exact H2|].
  destruct Hab as [[-> ->]|[-> ->]]; auto.
Qed.

Lemma match_len_le (ic : bool) (r : re) (prev : option N) (s : pystr)
  (n : nat) :
  match_len U ic r prev s = Some n -> n <= length s.
Proof.
  unfold match_len. destruct (ms U ic r (prev, s)) as [|[q rest] l];
    [discriminate|].
  intros H. injection H as <-. lia.
Qed.

Lemma match_len_year (prev : option N) (s : pystr) (n : nat) :
  match_len U false year_re prev s = Some n -> year_token (firstn n s).
Proof.
  unfold match_len.
  destruct (ms U false year_re (prev, s)) as [|q l] eqn:E; [discriminate|].
  destruct (year_match_inv prev s q l E) as [y [rest [-> [Hy [Hlen Hq]]]]].
  destruct q as [q0 rest']. simpl in Hq. subst rest'.
  intros H. injection H as <-.
  rewrite length_app, Nat.add_sub.
  now rewrite firstn_app, Nat.sub_diag, firstn_all, firstn_O, app_nil_r.
Qed.

(** Every string [re.findall] returns is a match at some position. *)
Lemma findall_go_forall (P : pystr -> Prop) (r : re) :
  (forall prev s n, match_len U false r prev s = Some n -> P (firstn n s)) ->
  forall s prev skip, Forall P (findall_go U false r prev s skip).
Proof.
  intros HP. induction s as [|c t IH]; intros prev skip.
  - destruct skip; cbn [findall_go]; [|constructor].
    destruct (match_len U false r prev []) as [[|n]|] eqn:E;
      [| |constructor];
      (constructor; [|constructor]);
      apply HP in E; now rewrite firstn_nil in E.
  - destruct skip; cbn [findall_go]; [|apply IH].
    destruct (match_len U false r prev (c :: t)) as [[|n]|] eqn:E.
    + constructor; [|apply IH]. now apply HP in E.
    + constructor; [|apply IH]. now apply HP in E.
    + apply IH.
Qed.

(** *** The two cleaners *)

(** The text in which [_clean_years] looks for years. *)
Definition years_text (year : N) (s : pystr) : pystr :=
  re_sub U true current_re (str_of_N year)
    (re_sub U true connector_re (py "-") (_normalize_text U s)).

(** The text in which [_clean_duration] looks for years. *)
Definition duration_text (s : pystr) : pystr :=
  re_sub U true current_re (py "2025")
    (re_sub U true connector_re (py "-") (strip U s)).

Lemma clean_years_format (year : N) (s : pystr) :
  _clean_years U year s
  = format_years (re_findall U false year_re (years_text year s)).
Proof. destruct s; reflexivity. Qed.

Lemma clean_duration_format (s : pystr) :
  _clean_duration U s
  = format_years (re_findall U false year_re (duration_text s)).
Proof. destruct s; reflexivity. Qed.

Lemma findall_years_tokens (t : pystr) :
  Forall year_token (re_findall U false year_re t).
Proof. apply findall_go_forall. exact match_len_year. Qed.

Lemma pair_plain (y1 y2 : pystr) :
  year_token y1 -> year_token y2 -> Forall plain (y1 ++ 45%N :: y2).
Proof.
  intros H1 H2. apply Forall_app. split; [now apply token_plain|].
  constructor; [now right | now apply token_plain].
Qed.

Lemma token_nonempty (y : pystr) : year_token y -> y <> [].
Proof. intros [d1 [d2 [_ [_ [->| ->]]]]]; discriminate. Qed.

(** The three shapes of a cleaned string. *)
Inductive cleaned : pystr -> Prop :=
| cleaned_none : cleaned []
| cleaned_one (y : pystr) : year_token y -> cleaned y
| cleaned_two (y1 y2 : pystr) :
    year_token y1 -> year_token y2 -> cleaned (y1 ++ py "-" ++ y2).

Lemma format_years_cleaned (ys : list pystr) :
  Forall year_token ys -> cleaned (format_years ys).
Proof.
  intros H. destruct H as [|y ys Hy Hys]; [constructor|].
  destruct Hys as [|z zs Hz Hzs]; [now constructor|].
  cbn [format_years]. constructor; [exact Hy|].
  assert (Forall year_token (y :: z :: zs)) as Hall by (repeat constructor; assumption).
  rewrite Forall_forall in Hall. apply Hall.
  generalize (z :: zs). intros l.
  assert (y :: l <> []) as Hne by discriminate.
  destruct (exists_last Hne) as [l' [a E]]. rewrite E.
  rewrite last_last. apply in_or_app. right. now left.
Qed.

Lemma clean_years_cleaned (year : N) (o : pystr) :
  cleaned o -> _clean_years U year o = o.
Proof.
  intros [|y Hy|y1 y2 H1 H2].
  - reflexivity.
  - rewrite clean_years_format. unfold years_text.
    rewrite (normalize_plain y (token_plain y Hy)).
    rewrite (connector_digits y (token_digits y Hy)).
    rewrite (current_plain _ y (token_plain y Hy)).
    now rewrite (findall_token y Hy).
  - change (py "-" ++ y2) with (45%N :: y2).
    rewrite clean_years_format. unfold years_text.
    rewrite (normalize_plain _ (pair_plain y1 y2 H1 H2)).
    rewrite (connector_pair y1 y2 (token_digits y1 H1) (token_digits y2 H2)
               (token_nonempty y2 H2)).
    rewrite (current_plain _ _ (pair_plain y1 y2 H1 H2)).
    rewrite (findall_pair y1 y2 H1 H2). reflexivity.
Qed.

Lemma clean_duration_cleaned (o : pystr) :
  cleaned o -> _clean_duration U o = o.
Proof.
  intros [|y Hy|y1 y2 H1 H2].
  - reflexivity.
  - rewrite clean_duration_format. unfold duration_text.
    rewrite (strip_plain y (token_plain y Hy)).
    rewrite (connector_digits y (token_digits y Hy)).
    rewrite (current_plain _ y (token_plain y Hy)).
    now rewrite (findall_token y Hy).
  - change (py "-" ++ y2) with (45%N :: y2).
    rewrite clean_duration_format. unfold duration_text.
    rewrite (strip_plain _ (pair_plain y1 y2 H1 H2)).
    rewrite (connector_pair y1 y2 (token_digits y1 H1) (token_digits y2 H2)
               (token_nonempty y2 H2)).
    rewrite (current_plain _ _ (pair_plain y1 y2 H1 H2)).
    rewrite (findall_pair y1 y2 H1 H2). reflexivity.
Qed.

(** C1: the claim read on "2020 - present" in the year 2026.  With the
    connector made a hyphen and "present" made the calendar year the
    text is "2020-2026"; it holds two years, 2020 and 2026, so the
    result the claim names is "2020-2026", and [_clean_years] returns
    it.  [_clean_duration] returns "2020-2025": the last year of its
    result is the constant 2025, not the last year of that text.  The
    other half of the claim holds of both functions: a result is
    cleaned to itself. *)
Theorem C1_clean_duration_ends_at_2025_not_at_the_last_year :
  years_text 2026 (py "2020 - present") = py "2020-2026"
  /\ re_findall U false year_re (py "2020-2026") = [py "2020"; py "2026"]
  /\ _clean_years U 2026 (py "2020 - present")
     = py "2020" ++ py "-" ++ py "2026"
  /\ _clean_duration U (py "2020 - present")
     = py "2020" ++ py "-" ++ py "2025"
  /\ _clean_duration U (py "2020 - present")
     <> py "2020" ++ py "-" ++ py "2026"
  /\ (forall (year : N) (s : pystr),
        _clean_years U year (_clean_years U year s) = _clean_years U year s)
  /\ (forall s : pystr,
        _clean_duration U (_clean_duration U s) = _clean_duration U s).
Proof.
  split; [vm_compute; reflexivity|].
  split; [vm_compute; reflexivity|].
  split; [vm_compute; reflexivity|].
  split; [vm_compute; reflexivity|].
  split; [vm_compute; discriminate|].
  split.
  - intros year s. rewrite (clean_years_format year s).
    apply clean_years_cleaned, format_years_cleaned, findall_years_tokens.
  - intros s. rewrite (clean_duration_format s).
    apply clean_duration_cleaned, format_years_cleaned, findall_years_tokens.
Qed.

End Cleaning.

(** ** The parsed record *)

Section ParsedRecord.

Context (U : PyUnicode)
        (os_path_stem : pystr -> pystr)
        (pdf_pages docx_texts : pystr -> option (list (option pystr))).

Definition string_fields : list pystr :=
  List.map py ["name"; "email"; "phone"; "address"; "linkedin"; "dob";
               "summary"; "raw_text"]%string.

Definition sequence_fields : list pystr :=
  List.map py ["experience"; "education"; "skills"; "projects";
               "certifications"; "awards"; "languages"]%string.

(** The dictionary [parse] builds, for any values of the right kinds. *)
Definition record_of (name email phone address linkedin dob summary : pystr)
  (experience education skills projects certifications awards
     languages : list pyval)
  (sections : pydict) (raw_text : pystr) : pydict :=
  [ (py "name", VStr name); (py "email", VStr email);
    (py "phone", VStr phone); (py "address", VStr address);
    (py "linkedin", VStr linkedin); (py "dob", VStr dob);
    (py "summary", VStr summary); (py "experience", VList experience);
    (py "education", VList education); (py "skills", VList skills);
    (py "projects", VList projects);
    (py "certifications", VList certifications);
    (py "awards", VList awards); (py "languages", VList languages);
    (py "sections", VDict sections); (py "raw_text", VStr raw_text) ].

Lemma record_of_shape (name email phone address linkedin dob summary : pystr)
  (experience education skills projects certifications awards
     languages : list pyval)
  (sections : pydict) (raw_text : pystr) :
  let d := record_of name email phone address linkedin dob summary
             experience education skills projects certifications awards
             languages sections raw_text in
  List.map fst d
  = List.map py ["name"; "email"; "phone"; "address"; "linkedin"; "dob";
                 "summary"; "experience"; "education"; "skills"; "projects";
                 "certifications"; "awards"; "languages"; "sections";
                 "raw_text"]%string
  /\ (forall k, In k string_fields -> exists s, dict_lookup d k = Some (VStr s))
  /\ (forall k, In k sequence_fields ->
        exists l, dict_lookup d k = Some (VList l))
  /\ (exists m, dict_lookup d (py "sections") = Some (VDict m))
  /\ (forall k v, dict_lookup d k = Some v -> v <> VNone).
Proof.
  intros d. split; [reflexivity|]. split; [|split; [|split]].
  - intros k Hk. unfold string_fields in Hk. simpl in Hk.
    repeat (destruct Hk as [<-|Hk]; [eexists; reflexivity|]). contradiction.
  - intros k Hk. unfold sequence_fields in Hk. simpl in Hk.
    repeat (destruct Hk as [<-|Hk]; [eexists; reflexivity|]). contradiction.
  - eexists. reflexivity.
  - intros k v Hv. apply dict_lookup_in in Hv. subst d.
    unfold record_of in Hv. simpl in Hv.
    repeat (destruct Hv as [Hv|Hv]; [injection Hv as _ <-; discriminate|]).
    contradiction.
Qed.

(** C8: for every document, [parse] returns a record that has the
    sixteen fields, in this order, none of them [None]: name, email,
    phone, address, linkedin, dob, summary and raw_text are strings,
    experience, education, skills, projects, certifications, awards and
    languages are sequences, and sections is a mapping. *)
Theorem C8_parsed_record_has_every_field
  (year : N) (file_path file_type : pystr) :
  exists d,
    parse U os_path_stem pdf_pages docx_texts year file_path file_type
    = Some d
    /\ List.map fst d
       = List.map py ["name"; "email"; "phone"; "address"; "linkedin"; "dob";
                      "summary"; "experience"; "education"; "skills";
                      "projects"; "certifications"; "awards"; "languages";
                      "sections"; "raw_text"]%string
    /\ (forall k, In k string_fields ->
          exists s, dict_lookup d k = Some (VStr s))
    /\ (forall k, In k sequence_fields ->
          exists l, dict_lookup d k = Some (VList l))
    /\ (exists m, dict_lookup d (py "sections") = Some (VDict m))
    /\ (forall k v, dict_lookup d k = Some v -> v <> VNone).
Proof.
  unfold parse.
  set (raw_text := if pystr_eqb file_type (py "pdf")
                   then _extract_pdf_text pdf_pages file_path
                   else _extract_docx_text U docx_texts file_path).
  set (lines := List.map (strip U) _).
  unfold _extract_experience.
  destruct (experience_of_section_total U year
              (_find_section U lines experience_keywords)) as [es ->].
  eexists. split; [reflexivity|].
  apply (record_of_shape
           (_extract_name U os_path_stem file_path lines)
           (_extract_email U raw_text) (_extract_phone U raw_text)
           (_extract_address U lines) (_extract_linkedin U raw_text)
           (_extract_dob U raw_text) (_extract_summary U lines)
           (List.map experience_value es)
           (List.map education_value (_extract_education U year lines))
           (List.map VStr (_extract_skills U lines))
           (_extract_projects U lines)
           (List.map VStr (_extract_certifications U lines))
           (List.map VStr (_extract_awards U lines))
           (List.map VStr (_extract_languages U lines))
           (_extract_sections U lines) raw_text).
Qed.

End ParsedRecord.

(** * Further properties of the extraction *)

(** ** Locating a section *)

Section SectionLocator.

Context (U : PyUnicode).

(** [l1] is [l2] with some elements left out. *)
Inductive subsequence {A : Type} : list A -> list A -> Prop :=
| subsequence_nil : subsequence [] []
| subsequence_skip (a : A) (l1 l2 : list A) :
    subsequence l1 l2 -> subsequence l1 (a :: l2)
| subsequence_keep (a : A) (l1 l2 : list A) :
    subsequence l1 l2 -> subsequence (a :: l1) (a :: l2).

Lemma subsequence_nil_l {A : Type} (l : list A) : subsequence [] l.
Proof. induction l; constructor; assumption. Qed.

Lemma subsequence_in {A : Type} (l1 l2 : list A) (a : A) :
  subsequence l1 l2 -> In a l1 -> In a l2.
Proof.
  induction 1 as [|b l1 l2 _ IH|b l1 l2 _ IH]; simpl; intros H.
  - exact H.
  - right. now apply IH.
  - destruct H as [H|H]; [now left | right; now apply IH].
Qed.

Lemma find_section_go_spec (keywords lines : list pystr) (in_section : bool) :
  let found := find_section_go U keywords lines in_section in
  subsequence found lines
  /\ Forall (fun line => _is_section_header U line = false
                         /\ any_in keywords (lower U line) = false) found.
Proof.
  revert in_section. induction lines as [|line rest IH]; intros in_section.
  - split; constructor.
  - cbn [find_section_go].
    destruct (any_in keywords (lower U line)) eqn:Hkw.
    + destruct (IH true) as [Hs Hf]. split; [now constructor | exact Hf].
    + destruct in_section.
      * destruct (_is_section_header U line) eqn:Hh.
        -- split; [apply subsequence_nil_l | constructor].
        -- destruct (IH true) as [Hs Hf].
           split; [now constructor | constructor; auto].
      * destruct (IH false) as [Hs Hf]. split; [now constructor | exact Hf].
Qed.

(** X1: the lines [_find_section] returns are lines of the document in
    their order, none of them is a section header and none has one of
    the keywords in it. *)
Theorem X1_find_section_returns_plain_lines_in_order
  (lines keywords : list pystr) :
  subsequence (_find_section U lines keywords) lines
  /\ Forall (fun line => _is_section_header U line = false
                         /\ any_in keywords (lower U line) = false)
       (_find_section U lines keywords).
Proof. apply find_section_go_spec. Qed.

(** Before the first line that has a keyword in it nothing is
    collected. *)
Lemma find_section_go_no_keyword (keywords lines : list pystr) :
  Forall (fun line => any_in keywords (lower U line) = false) lines ->
  find_section_go U keywords lines false = [].
Proof.
  induction 1 as [|line rest Hl _ IH]; [reflexivity|].
  cbn [find_section_go]. now rewrite Hl.
Qed.

(** X2: certifications, awards and languages are exactly the non-empty
    lines of the section located for them: the header test these
    extractors apply to each line never removes one, and a document in
    which no line has one of the section's keywords gives none. *)
Theorem X2_section_items_are_the_located_lines
  (lines keywords : list pystr) :
  section_items U lines keywords
  = filter truthy (_find_section U lines keywords)
  /\ (Forall (fun line => any_in keywords (lower U line) = false) lines ->
      section_items U lines keywords = []).
Proof.
  split.
  - unfold section_items.
    destruct (find_section_go_spec keywords lines false) as [_ Hplain].
    fold (_find_section U lines keywords) in Hplain.
    induction Hplain as [|line found [Hh _] _ IH]; [reflexivity|].
    cbn [filter]. rewrite Hh, IH. cbn [negb]. now rewrite andb_true_r.
  - intros H. unfold section_items, _find_section.
    now rewrite find_section_go_no_keyword.
Qed.

End SectionLocator.

(** ** Entries of the structured extraction *)

Section Entries.

Context (U : PyUnicode).

Lemma clean_years_shape (year : N) (s : pystr) :
  cleaned U (_clean_years U year s).
Proof.
  rewrite clean_years_format. apply format_years_cleaned, findall_years_tokens.
Qed.

Lemma clean_duration_shape (s : pystr) : cleaned U (_clean_duration U s).
Proof.
  rewrite clean_duration_format.
  apply format_years_cleaned, findall_years_tokens.
Qed.

(** *** Stripping twice *)

Lemma lstrip_by_head (f : N -> bool) (s : pystr) (c : N) (t : pystr) :
  lstrip_by f s = c :: t -> f c = false.
Proof.
  induction s as [|x s IH]; simpl; [discriminate|].
  destruct (f x) eqn:Hx; [exact IH|]. intros E. now inversion E; subst.
Qed.

Lemma lstrip_by_app (f : N -> bool) (l : pystr) (c : N) (r : pystr) :
  f c = false -> lstrip_by f (l ++ c :: r) = lstrip_by f l ++ c :: r.
Proof.
  intros Hc. induction l as [|x l IH]; simpl; [now rewrite Hc|].
  now destruct (f x).
Qed.

Lemma rstrip_by_cons (f : N -> bool) (c : N) (t : pystr) :
  f c = false -> rstrip_by f (c :: t) = c :: rstrip_by f t.
Proof.
  intros Hc. unfold rstrip_by. simpl.
  rewrite (lstrip_by_app f (rev t) c [] Hc), rev_app_distr. reflexivity.
Qed.

Lemma lstrip_by_idem (f : N -> bool) (s : pystr) :
  lstrip_by f (lstrip_by f s) = lstrip_by f s.
Proof.
  induction s as [|x s IH]; simpl; [reflexivity|].
  destruct (f x) eqn:Hx; [exact IH|]. simpl. now rewrite Hx.
Qed.

Lemma strip_by_idem (f : N -> bool) (s : pystr) :
  strip_by f (strip_by f s) = strip_by f s.
Proof.
  unfold strip_by.
  assert (lstrip_by f (rstrip_by f (lstrip_by f s))
          = rstrip_by f (lstrip_by f s)) as ->.
  { destruct (lstrip_by f s) as [|c t] eqn:E; [reflexivity|].
    pose proof (lstrip_by_head f s c t E) as Hc.
    rewrite (rstrip_by_cons f c t Hc). simpl. now rewrite Hc. }
  unfold rstrip_by at 1 2. rewrite rev_involutive, lstrip_by_idem.
  reflexivity.
Qed.

Lemma strip_idem (s : pystr) : strip U (strip U s) = strip U s.
Proof. apply strip_by_idem. Qed.

Lemma strip_location_stripped (s : pystr) :
  strip U (_strip_location U s) = _strip_location U s.
Proof.
  unfold _strip_location. destruct s as [|c s]; [reflexivity|].
  cbn [truthy negb]. apply strip_idem.
Qed.

(** *** Experience *)

Lemma incl_skipn {A : Type} (n : nat) (l : list A) : incl (skipn n l) l.
Proof.
  revert l. induction n as [|n IH]; intros l; [apply incl_refl|].
  destruct l as [|a l]; [apply incl_refl|]. simpl.
  apply incl_tl, IH.
Qed.

Lemma collect_details_spec (l : list pystr) (k : nat) :
  Forall (fun d => In d l /\ detail_stop U d = false)
    (fst (collect_details U l k)).
Proof.
  revert k. induction l as [|x l IH]; intros k; simpl; [constructor|].
  destruct (detail_stop U x) eqn:Hx; [constructor|].
  specialize (IH (S k)). destruct (collect_details U l (S k)) as [d k'].
  simpl in *. constructor; [now split; [left|]|].
  eapply Forall_impl; [|exact IH]. intros a [Ha Hs]. split; [now right|exact Hs].
Qed.

(** What every entry of [_extract_experience] satisfies, [lines] being
    the normalized lines of the section. *)
Definition experience_entry_ok (lines : list pystr) (e : ExperienceEntry)
  : Prop :=
  cleaned U (duration e)
  /\ strip U (company e) = company e
  /\ strip U (role e) = role e
  /\ Forall (fun d => In d lines /\ detail_stop U d = false) (details e).

Lemma collect_details_ok (lines : list pystr) (j : nat) :
  Forall (fun d => In d lines /\ detail_stop U d = false)
    (fst (collect_details U (skipn j lines) j)).
Proof.
  eapply Forall_impl; [|apply collect_details_spec].
  intros a [Ha Hs]. split; [|exact Hs]. exact (incl_skipn j lines a Ha).
Qed.

Lemma experience_loop_ok (year : N) (lines : list pystr) :
  forall fuel i es,
    experience_loop U fuel year lines i = Some es ->
    length es <= length lines - i
    /\ Forall (experience_entry_ok lines) es.
Proof.
  induction fuel as [|fuel IH]; intros i es; [discriminate|].
  simpl. destruct (Nat.ltb_spec i (length lines)) as [Hi|Hi].
  2:{ intros E. injection E as <-. split; [simpl; lia|constructor]. }
  destruct (_contains_date_range U (nth i lines [])).
  - destruct (_parse_company_role_line U _) as [c r].
    pose proof (skip_headers_ge U (skipn (i + 1) lines) (i + 1)) as Hj.
    set (j := skip_headers U (skipn (i + 1) lines) (i + 1)) in *.
    pose proof (collect_details_ge U (skipn (j + 1) lines) (j + 1)) as Hk.
    pose proof (collect_details_ok lines (j + 1)) as Hd.
    destruct (collect_details U (skipn (j + 1) lines) (j + 1)) as [d k].
    simpl in Hk, Hd.
    destruct (experience_loop U fuel year lines k) as [es'|] eqn:E';
      [|discriminate].
    simpl. intros E. inversion E; subst es. clear E.
    destruct (IH k es' E') as [Hlen Hok]. split; [simpl; lia|].
    constructor; [|exact Hok].
    repeat split; simpl.
    + apply clean_years_shape.
    + apply strip_location_stripped.
    + apply strip_location_stripped.
    + exact Hd.
  - destruct (_looks_like_company_or_role U (nth i lines [])).
    + destruct (_parse_company_role_line U _) as [c r].
      match goal with
      | |- context [collect_details U (skipn ?j0 lines) ?j0] =>
          remember j0 as j eqn:Ej
      end.
      assert (i + 1 <= j) as Hj.
      { subst j. match goal with
                 | |- _ <= (if ?b then _ else _) => destruct b
                 end; lia. }
      pose proof (collect_details_ge U (skipn j lines) j) as Hk.
      pose proof (collect_details_ok lines j) as Hd.
      destruct (collect_details U (skipn j lines) j) as [d k].
      simpl in Hk, Hd.
      destruct (experience_loop U fuel year lines k) as [es'|] eqn:E';
        [|discriminate].
      simpl. intros E. inversion E; subst es. clear E.
      destruct (IH k es' E') as [Hlen Hok]. split; [simpl; lia|].
      constructor; [|exact Hok].
      repeat split; simpl.
      * match goal with
        | |- cleaned U (if ?b then _ else _) => destruct b
        end; [apply clean_years_shape|constructor].
      * apply strip_location_stripped.
      * apply strip_location_stripped.
      * exact Hd.
    + intros E. destruct (IH (i + 1) es E) as [Hlen Hok]. split; [lia|exact Hok].
Qed.

(** X3: [_extract_experience] returns for every list of lines; it
    gives at most one entry per normalized line of the located
    section; in every entry the duration is empty, one year or two
    years joined by a hyphen, the company and the role have no
    whitespace around them, and every detail is a line of the section
    that has no date range, does not look like a company or role line,
    and is not a section header. *)
Theorem X3_experience_entries_are_well_formed (year : N)
  (lines : list pystr) :
  let located := section_lines U (_find_section U lines experience_keywords) in
  exists entries,
    _extract_experience U year lines = Some entries
    /\ length entries <= length located
    /\ Forall (fun e =>
         cleaned U (duration e)
         /\ strip U (company e) = company e
         /\ strip U (role e) = role e
         /\ Forall (fun d => In d located /\ detail_stop U d = false)
              (details e))
         entries.
Proof.
  intros located. subst located. unfold _extract_experience.
  destruct (experience_of_section_total U year
              (_find_section U lines experience_keywords)) as [es Hes].
  exists es. split; [exact Hes|].
  unfold experience_of_section in Hes.
  destruct (_find_section U lines experience_keywords) as [|l section] eqn:Es.
  - injection Hes as <-. split; [simpl; lia|constructor].
  - fold (section_lines U (l :: section)) in Hes.
    destruct (experience_loop_ok year _ _ _ _ Hes) as [Hlen Hok].
    split; [lia|exact Hok].
Qed.

(** *** Education *)

Lemma education_loop_ok (year : N) (lines : list pystr) :
  forall skip,
    length (education_loop U year lines skip) <= length lines
    /\ Forall (fun e =>
         cleaned U (edu_year e)
         /\ strip U (degree e) = degree e
         /\ strip U (institution e) = institution e
         /\ edu_details e = [])
         (education_loop U year lines skip).
Proof.
  induction lines as [|line rest IH]; intros skip;
    cbn [education_loop length]; [split; [lia|constructor]|].
  destruct skip.
  { destruct (IH false) as [Hlen Hok]. split; [lia|exact Hok]. }
  destruct (contains line (py ":") || any_in institution_words (lower U line)).
  2:{ destruct (IH false) as [Hlen Hok]. split; [lia|exact Hok]. }
  destruct (_parse_degree_institution_line U line) as [d i].
  match goal with
  | |- context [education_loop U year rest ?b] =>
      destruct (IH b) as [Hlen Hok]; set (dated := b) in *
  end.
  split; [simpl; lia|]. constructor; [|exact Hok].
  repeat split; simpl.
  - destruct dated; apply clean_years_shape.
  - apply strip_idem.
  - apply strip_location_stripped.
Qed.

(** X4: [_extract_education] gives at most one entry per normalized
    line of the located section; in every entry the year is empty, one
    year or two years joined by a hyphen, the degree and the
    institution have no whitespace around them, and the details are
    empty. *)
Theorem X4_education_entries_are_well_formed (year : N)
  (lines : list pystr) :
  let located :=
    section_lines U
      (_find_section U lines
         (List.map py ["education"; "academic"; "qualification"]%string)) in
  length (_extract_education U year lines) <= length located
  /\ Forall (fun e =>
       cleaned U (edu_year e)
       /\ strip U (degree e) = degree e
       /\ strip U (institution e) = institution e
       /\ edu_details e = [])
       (_extract_education U year lines).
Proof. intros located. apply education_loop_ok. Qed.

End Entries.

(** ** Skills, raw sections and bullets *)

Section Lists.

Context (U : PyUnicode).

(** *** Skills *)

(** The characters [_extract_skills] splits a line at. *)
Definition skill_separator (c : N) : bool :=
  (c =? 44)%N || (c =? 124)%N || (c =? bullet)%N.

Lemma lstrip_by_forall (P : N -> Prop) (f : N -> bool) (s : pystr) :
  Forall P s -> Forall P (lstrip_by f s).
Proof.
  induction 1 as [|c s Hc Hs IH]; simpl; [constructor|].
  destruct (f c); [exact IH|now constructor].
Qed.

Lemma strip_by_forall (P : N -> Prop) (f : N -> bool) (s : pystr) :
  Forall P s -> Forall P (strip_by f s).
Proof.
  intros H. unfold strip_by, rstrip_by.
  apply Forall_rev, lstrip_by_forall, Forall_rev, lstrip_by_forall, H.
Qed.

Lemma contains_char (s : pystr) (c : N) :
  contains s [c] = false -> Forall (fun x => (c =? x)%N = false) s.
Proof.
  induction s as [|b s IH]; simpl; [constructor|].
  rewrite andb_true_r. intros H. apply orb_false_iff in H as [Hb Hs].
  constructor; [exact Hb|exact (IH Hs)].
Qed.

Lemma match_len_set (ic : bool) (neg : bool) (l : list catom)
  (prev : option N) (c : N) (t : pystr) :
  match_len U ic (RSet neg l) prev (c :: t)
  = if xorb neg (existsb (fun a => atom_match U ic a c) l)
    then Some 1 else None.
Proof.
  unfold match_len. cbn [ms step_if snd].
  destruct (xorb neg (existsb (fun a => atom_match U ic a c) l));
    [|reflexivity].
  f_equal. cbn [length]. lia.
Qed.

Lemma skill_split_match (c : N) :
  xorb false (existsb (fun a => atom_match U false a c)
                [AChar 44; AChar 124; AChar bullet])
  = skill_separator c.
Proof.
  unfold skill_separator. cbn [xorb existsb atom_match].
  unfold chr_match. cbn [andb].
  rewrite (N.eqb_sym 44 c), (N.eqb_sym 124 c), (N.eqb_sym bullet c).
  now destruct (c =? 44)%N, (c =? 124)%N, (c =? bullet)%N.
Qed.

Lemma re_split_go_skill (s : pystr) :
  forall prev cur,
    Forall (fun c => skill_separator c = false) cur ->
    Forall (Forall (fun c => skill_separator c = false))
      (re_split_go U false skill_split_re prev s 0 cur).
Proof.
  induction s as [|c t IH]; intros prev cur Hcur.
  - cbn [re_split_go].
    destruct (match_len U false skill_split_re prev []) as [[|n]|];
      repeat constructor; now apply Forall_rev.
  - cbn [re_split_go]. unfold skill_split_re at 1.
    rewrite match_len_set, skill_split_match.
    destruct (skill_separator c) eqn:Hc.
    + constructor; [now apply Forall_rev|]. apply IH. constructor.
    + apply IH. now constructor.
Qed.

(** X5: no skill [_extract_skills] returns is empty, and none has a
    comma, a vertical bar or a bullet in it. *)
Theorem X5_skills_are_nonempty_and_separator_free (lines : list pystr) :
  Forall (fun skill =>
            skill <> [] /\ Forall (fun c => skill_separator c = false) skill)
    (_extract_skills U lines).
Proof.
  unfold _extract_skills.
  induction (_find_section U lines _) as [|line rest IH];
    cbn [flat_map]; [constructor|].
  apply Forall_app. split; [|exact IH]. clear IH.
  destruct (contains line (py ",") || contains line (py "|")
            || contains line [bullet]) eqn:Hsep.
  - apply Forall_forall. intros skill Hin.
    apply filter_In in Hin as [Hin Hne].
    split; [now destruct skill|].
    apply in_map_iff in Hin as [piece [<- Hpiece]].
    apply strip_by_forall.
    pose proof (re_split_go_skill line None [] (Forall_nil _)) as Hall.
    rewrite Forall_forall in Hall. exact (Hall piece Hpiece).
  - apply orb_false_iff in Hsep as [Hsep Hbullet].
    apply orb_false_iff in Hsep as [Hcomma Hbar].
    destruct (truthy line && negb (_is_section_header U line)) eqn:Hline;
      [|constructor].
    constructor; [|constructor].
    apply andb_true_iff in Hline as [Hne _].
    split; [now destruct line|].
    pose proof (contains_char line 44 Hcomma) as H1.
    pose proof (contains_char line 124 Hbar) as H2.
    pose proof (contains_char line bullet Hbullet) as H3.
    rewrite Forall_forall in *. intros c Hc. unfold skill_separator.
    rewrite (N.eqb_sym c 44), (N.eqb_sym c 124), (N.eqb_sym c bullet).
    now rewrite (H1 c Hc), (H2 c Hc), (H3 c Hc).
Qed.

(** *** Raw sections *)

Lemma dict_lookup_none (d : pydict) (k : pystr) :
  dict_lookup d k = None -> ~ In k (List.map fst d).
Proof.
  induction d as [|[k0 v0] d IH]; simpl; [tauto|].
  destruct (pystr_eqb k0 k) eqn:E; [discriminate|].
  intros H [H0|H0]; [|exact (IH H H0)].
  subst k0. now rewrite pystr_eqb_refl in E.
Qed.

Lemma dict_set_keys (d : pydict) (k : pystr) (v : pyval) :
  List.map fst (dict_set d k v)
  = match dict_lookup d k with
    | Some _ => List.map fst d
    | None => List.map fst d ++ [k]
    end.
Proof.
  induction d as [|[k0 v0] d IH]; simpl; [reflexivity|].
  destruct (pystr_eqb k0 k) eqn:E; simpl; [reflexivity|].
  rewrite IH. now destruct (dict_lookup d k).
Qed.

Lemma dict_set_nodup (d : pydict) (k : pystr) (v : pyval) :
  NoDup (List.map fst d) -> NoDup (List.map fst (dict_set d k v)).
Proof.
  intros H. rewrite dict_set_keys.
  destruct (dict_lookup d k) eqn:E; [exact H|].
  apply NoDup_rev in H. rewrite <- (rev_involutive (_ ++ _)).
  apply NoDup_rev. rewrite rev_app_distr. simpl. constructor; [|exact H].
  rewrite <- in_rev. now apply dict_lookup_none.
Qed.

(** What an entry of the raw sections satisfies: [headers] and [items]
    say which lines can be a key and an item. *)
Definition section_entry_ok (headers items : pystr -> Prop)
  (kv : pystr * pyval) : Prop :=
  headers (fst kv)
  /\ exists l, snd kv = VList (List.map VStr l) /\ l <> []
               /\ Forall items l.

Lemma append_to_section_ok (headers items : pystr -> Prop)
  (sections : pydict) (key line : pystr) :
  headers key -> items line ->
  Forall (section_entry_ok headers items) sections ->
  Forall (section_entry_ok headers items)
    (append_to_section sections key line).
Proof.
  intros Hkey Hline Hall. unfold append_to_section.
  assert (forall v, section_entry_ok headers items (key, v) ->
                    Forall (section_entry_ok headers items)
                      (dict_set sections key v)) as Hset.
  { intros v Hv. apply Forall_forall. intros [k0 v0] Hin.
    destruct (in_dict_set sections k0 key v0 v Hin) as [[-> ->]|Hold];
      [exact Hv|].
    rewrite Forall_forall in Hall. exact (Hall _ Hold). }
  destruct (dict_lookup sections key) as [v|] eqn:E.
  - apply dict_lookup_in in E. rewrite Forall_forall in Hall.
    destruct (Hall _ E) as [_ [l [Hv [Hne Hl]]]]. simpl in Hv. subst v.
    apply Hset. split; [exact Hkey|]. exists (l ++ [line]). simpl.
    split; [now rewrite map_app|]. split; [now destruct l|].
    apply Forall_app. split; [exact Hl|now constructor].
  - apply Hset. split; [exact Hkey|]. exists [line].
    repeat split; [discriminate|now constructor].
Qed.

Lemma append_to_section_nodup (sections : pydict) (key line : pystr) :
  NoDup (List.map fst sections) ->
  NoDup (List.map fst (append_to_section sections key line)).
Proof.
  intros H. unfold append_to_section.
  destruct (dict_lookup sections key) as [[| |l|]|]; now apply dict_set_nodup.
Qed.

Lemma sections_loop_ok (lines : list pystr) :
  forall rest current sections,
    incl rest lines ->
    let headers key :=
      key <> [] /\ exists h, In h lines /\ _is_section_header U h = true
                             /\ key = strip U (lower U h) in
    let items x :=
      x <> [] /\ In x lines /\ _is_section_header U x = false in
    match current with Some key => key = [] \/ headers key | None => True end ->
    NoDup (List.map fst sections) ->
    Forall (section_entry_ok headers items) sections ->
    NoDup (List.map fst (sections_loop U rest current sections))
    /\ Forall (section_entry_ok headers items)
         (sections_loop U rest current sections).
Proof.
  induction rest as [|line rest IH]; intros current sections Hincl headers
    items Hcur Hnd Hall; cbn [sections_loop]; [now split|].
  assert (incl rest lines) as Hrest by (intros x Hx; apply Hincl; now right).
  assert (In line lines) as Hline by (apply Hincl; now left).
  destruct (_is_section_header U line) eqn:Hh.
  - apply IH; try assumption.
    destruct (strip U (lower U line)) as [|c k] eqn:Ek; [now left|].
    right. split; [discriminate|]. exists line. now rewrite Ek.
  - destruct current as [key|]; [|now apply IH].
    destruct (truthy key && truthy line) eqn:Ht; [|now apply IH].
    apply andb_true_iff in Ht as [Hk Hl].
    destruct Hcur as [->|Hkey]; [discriminate|].
    apply IH; try assumption.
    + now right.
    + now apply append_to_section_nodup.
    + apply append_to_section_ok; try assumption.
      split; [now destruct line|]. now split.
Qed.

(** X6: in the raw sections [_extract_sections] returns, no key occurs
    twice; every key is not empty and is the stripped lower-case text
    of a line that is a section header; every value is a list of at
    least one line, each not empty and not a section header. *)
Theorem X6_raw_sections_are_keyed_by_headers (lines : list pystr) :
  NoDup (List.map fst (_extract_sections U lines))
  /\ forall key value,
       In (key, value) (_extract_sections U lines) ->
       key <> []
       /\ (exists h, In h lines /\ _is_section_header U h = true
                     /\ key = strip U (lower U h))
       /\ exists items,
            value = VList (List.map VStr items) /\ items <> []
            /\ Forall (fun x => x <> [] /\ In x lines
                                /\ _is_section_header U x = false) items.
Proof.
  destruct (sections_loop_ok lines lines None [] (incl_refl lines) I
              (NoDup_nil _) (Forall_nil _)) as [Hnd Hall].
  split; [exact Hnd|]. intros key value Hin.
  rewrite Forall_forall in Hall.
  destruct (Hall _ Hin) as [[Hne Hh] Hv]. simpl in *. now repeat split.
Qed.

(** *** Bullets *)

(** The characters [_strip_bullet] removes: whitespace, the bullet, the
    hyphen, the en and em dash, the asterisk and the black circle. *)
Definition bullet_char (c : N) : bool :=
  is_space U c || (c =? bullet)%N || (c =? 45)%N || (c =? en_dash)%N
  || (c =? em_dash)%N || (c =? 42)%N || (c =? black_circle)%N.

Definition bullet_set : re :=
  RSet false [ASpace; AChar bullet; AChar 45; AChar en_dash; AChar em_dash;
              AChar 42; AChar black_circle].

Lemma bullet_set_match (c : N) :
  xorb false (existsb (fun a => atom_match U false a c)
                [ASpace; AChar bullet; AChar 45; AChar en_dash; AChar em_dash;
                 AChar 42; AChar black_circle])
  = bullet_char c.
Proof.
  unfold bullet_char. cbn [xorb existsb atom_match].
  unfold chr_match. cbn [andb].
  rewrite (N.eqb_sym c bullet), (N.eqb_sym c 45), (N.eqb_sym c en_dash),
    (N.eqb_sym c em_dash), (N.eqb_sym c 42), (N.eqb_sym c black_circle).
  now destruct (is_space U c), (bullet =? c)%N, (45 =? c)%N, (en_dash =? c)%N,
    (em_dash =? c)%N, (42 =? c)%N, (black_circle =? c)%N.
Qed.

Lemma ms_bullet_set (prev : option N) (s : pystr) :
  ms U false bullet_set (prev, s)
  = match s with
    | c :: t => if bullet_char c then [(Some c, t)] else []
    | [] => []
    end.
Proof.
  unfold bullet_set. destruct s as [|c t]; [reflexivity|].
  cbn [ms step_if snd]. now rewrite bullet_set_match.
Qed.

(** The greedy star takes the longest run first. *)
Lemma star_bullets (n : nat) :
  forall prev s, length s <= n ->
  exists q l,
    (fix star (n : nat) (q : pos) {struct n} : list pos :=
       match n with
       | O => [q]
       | S n' =>
           flat_map
             (fun q' =>
                if length (snd q') <? length (snd q) then star n' q' else [])
             (ms U false bullet_set q)
           ++ [q]
       end) n (prev, s)
    = (q, lstrip_by bullet_char s) :: l.
Proof.
  induction n as [|n IH]; intros prev s Hlen.
  - destruct s; [|simpl in Hlen; lia]. now exists prev, [].
  - rewrite ms_bullet_set. destruct s as [|c t]; [now exists prev, []|].
    cbn [lstrip_by]. destruct (bullet_char c); [|now exists prev, []].
    cbn [flat_map snd length].
    destruct (Nat.ltb_spec (length t) (S (length t))) as [_|Hbad]; [|lia].
    destruct (IH (Some c) t) as [q [l E]]; [simpl in Hlen; lia|].
    rewrite E. cbn [app]. eauto.
Qed.

Lemma ms_star_bullets (prev : option N) (s : pystr) :
  exists q l,
    ms U false (RStar bullet_set) (prev, s)
    = (q, lstrip_by bullet_char s) :: l.
Proof. cbn [ms snd]. apply star_bullets. apply le_n. Qed.

Lemma ms_bullet_re (c : N) (t : pystr) :
  ms U false (RSeq RBol (RPlus bullet_set)) (None, c :: t)
  = if bullet_char c then ms U false (RStar bullet_set) (Some c, t) else [].
Proof.
  unfold RPlus. rewrite ms_seq_eq.
  change (ms U false RBol (None, c :: t)) with [(@None N, c :: t)].
  cbn [flat_map]. rewrite app_nil_r, ms_seq_eq, ms_bullet_set.
  destruct (bullet_char c); [|reflexivity].
  cbn [flat_map]. apply app_nil_r.
Qed.

Lemma lstrip_by_suffix (f : N -> bool) (s : pystr) :
  length (lstrip_by f s) <= length s
  /\ skipn (length s - length (lstrip_by f s)) s = lstrip_by f s.
Proof.
  induction s as [|c s [IH1 IH2]]; [now split|].
  cbn [lstrip_by]. destruct (f c).
  - split; [simpl; lia|]. cbn [length].
    replace (S (length s) - length (lstrip_by f s))
      with (S (length s - length (lstrip_by f s))) by lia.
    exact IH2.
  - split; [lia|]. now rewrite Nat.sub_diag.
Qed.

Lemma sub_go_bol (r : re) (s : pystr) :
  forall x, sub_go U false (RSeq RBol r) [] (Some x) s 0 = s.
Proof.
  induction s as [|c s IH]; intros x; cbn [sub_go];
    rewrite (match_len_none U false (RSeq RBol r) (Some x) _ eq_refl);
    [reflexivity|]. now rewrite IH.
Qed.

Lemma sub_go_skip_bol (r : re) (k : nat) :
  forall s x, k <= length s ->
  sub_go U false (RSeq RBol r) [] (Some x) s k = skipn k s.
Proof.
  induction k as [|k IH]; intros s x Hk; [apply sub_go_bol|].
  destruct s as [|c s]; [simpl in Hk; lia|].
  cbn [sub_go skipn]. apply IH. simpl in Hk. lia.
Qed.

(** X7: [_strip_bullet] removes the leading run of whitespace, bullets,
    hyphens, dashes, asterisks and black circles, and nothing else; so
    applying it twice is applying it once. *)
Theorem X7_strip_bullet_removes_the_leading_bullets (s : pystr) :
  _strip_bullet U s = lstrip_by bullet_char s
  /\ _strip_bullet U (_strip_bullet U s) = _strip_bullet U s.
Proof.
  assert (forall s, _strip_bullet U s = lstrip_by bullet_char s) as Heq.
  { clear s. intros s. unfold _strip_bullet.
    destruct s as [|c t]; [reflexivity|]. cbn [truthy negb].
    unfold re_sub, bullet_re. fold bullet_set.
    cbn [lstrip_by]. destruct (bullet_char c) eqn:Hc.
    - destruct (ms_star_bullets (Some c) t) as [q [l E]].
      destruct (lstrip_by_suffix bullet_char t) as [Hle Hskip].
      assert (match_len U false (RSeq RBol (RPlus bullet_set)) None (c :: t)
              = Some (S (length t - length (lstrip_by bullet_char t)))) as Hm.
      { unfold match_len. rewrite ms_bullet_re, Hc, E.
        cbn [length]. f_equal. lia. }
      rewrite (sub_go_match U false _ [] None c t _ Hm). cbn [app].
      rewrite sub_go_skip_bol by lia. exact Hskip.
    - assert (match_len U false (RSeq RBol (RPlus bullet_set)) None (c :: t)
              = None) as Hm.
      { unfold match_len. now rewrite ms_bullet_re, Hc. }
      cbn [sub_go]. rewrite Hm. now rewrite sub_go_bol. }
  split; [apply Heq|]. rewrite !Heq. apply lstrip_by_idem.
Qed.

End Lists.

(** * Further properties of the Word formatter *)

(** ** Entries rebuilt from bullets *)

Section BulletEntries.

Context (U : PyUnicode).

Lemma collect_undated_ge (l : list pystr) (j : nat) :
  j <= snd (collect_undated U l j).
Proof.
  revert j. induction l as [|x l IH]; intros j; simpl; [lia|].
  destruct (re_search U false yearish_re x); simpl; [lia|].
  specialize (IH (S j)). destruct (collect_undated U l (S j)). simpl in *. lia.
Qed.

Lemma collect_undated_spec (l : list pystr) (j : nat) :
  Forall (fun d => In d l /\ re_search U false yearish_re d = false)
    (fst (collect_undated U l j)).
Proof.
  revert j. induction l as [|x l IH]; intros j; simpl; [constructor|].
  destruct (re_search U false yearish_re x) eqn:Hx; [constructor|].
  specialize (IH (S j)). destruct (collect_undated U l (S j)) as [d j'].
  simpl in *. constructor; [now split; [left|]|].
  eapply Forall_impl; [|exact IH]. intros a [Ha Hs]. split; [now right|exact Hs].
Qed.

Lemma skipn_nth (l : list pystr) (i : nat) :
  i < length l -> skipn i l = nth i l [] :: skipn (S i) l.
Proof.
  revert i. induction l as [|x l IH]; intros i Hi; [simpl in Hi; lia|].
  destruct i as [|i]; [reflexivity|]. simpl in Hi.
  cbn [skipn nth]. apply IH. lia.
Qed.

(** What every entry of [_build_experience_from_bullets] satisfies. *)
Definition bullet_entry_ok (bullets : list pystr) (e : BulletExperience)
  : Prop :=
  cleaned U (b_duration e)
  /\ strip U (b_company e) = b_company e
  /\ strip_chars (py " ,;:-") (b_role e) = b_role e
  /\ Forall (fun d => In d bullets /\ re_search U false yearish_re d = false)
       (b_details e).

Lemma bullets_experience_loop_ok (bullets : list pystr) :
  forall fuel i, length bullets - i < fuel ->
  exists exps,
    bullets_experience_loop U fuel bullets i = Some exps
    /\ (exps = [] <->
        Forall (fun b => re_search U false yearish_re b = false)
          (skipn i bullets))
    /\ Forall (bullet_entry_ok bullets) exps.
Proof.
  induction fuel as [|fuel IH]; intros i Hfuel; [lia|].
  cbn [bullets_experience_loop].
  destruct (Nat.ltb_spec i (length bullets)) as [Hi|Hi].
  2:{ exists []. split; [reflexivity|]. split; [|constructor].
      rewrite skipn_all2 by lia. split; [constructor|reflexivity]. }
  rewrite (skipn_nth bullets i Hi).
  destruct (re_search U false yearish_re (nth i bullets [])) eqn:Hy.
  - pose proof (collect_undated_ge (skipn (i + 2) bullets) (i + 2)) as Hj.
    pose proof (collect_undated_spec (skipn (i + 2) bullets) (i + 2)) as Hd.
    destruct (collect_undated U (skipn (i + 2) bullets) (i + 2)) as [d j].
    simpl in Hj, Hd.
    destruct (IH j) as [exps [-> [_ Hok]]]; [lia|].
    eexists. split; [reflexivity|]. split.
    + split; [discriminate|]. intros H. inversion H as [|? ? Hb _]; subst.
      rewrite Hy in Hb. discriminate.
    + constructor; [|exact Hok]. repeat split; simpl.
      * apply clean_duration_shape.
      * destruct (i + 1 <? length bullets); [apply strip_idem|reflexivity].
      * apply strip_by_idem.
      * eapply Forall_impl; [|exact Hd]. intros a [Ha Hs].
        split; [exact (incl_skipn (i + 2) bullets a Ha)|exact Hs].
  - destruct (IH (i + 1)) as [exps [-> [Hnil Hok]]]; [lia|].
    exists exps. split; [reflexivity|]. split; [|exact Hok].
    replace (S i) with (i + 1) by lia. rewrite Hnil. split.
    + intros H. now constructor.
    + intros H. now inversion H.
Qed.

(** X8: [_build_experience_from_bullets] returns for every list of
    bullets; it returns no entry exactly when no bullet has a year in
    it (19 or 20 and two digits); in every entry the duration is empty,
    one year or two years joined by a hyphen, the company has no
    whitespace around it, the role has none of space, comma, semicolon,
    colon and hyphen around it, and every detail is a bullet without a
    year. *)
Theorem X8_bullet_experience_entries_are_well_formed (bullets : list pystr) :
  exists exps,
    _build_experience_from_bullets U bullets = Some exps
    /\ (exps = [] <->
        Forall (fun b => re_search U false yearish_re b = false) bullets)
    /\ Forall (fun e =>
         cleaned U (b_duration e)
         /\ strip U (b_company e) = b_company e
         /\ strip_chars (py " ,;:-") (b_role e) = b_role e
         /\ Forall (fun d => In d bullets
                             /\ re_search U false yearish_re d = false)
              (b_details e))
         exps.
Proof.
  destruct (bullets_experience_loop_ok bullets (S (length bullets)) 0)
    as [exps H]; [lia|].
  exists exps. exact H.
Qed.

Lemma bullets_education_loop_ok (bullets : list pystr) :
  forall skip,
    length (bullets_education_loop U bullets skip) <= length bullets
    /\ length bullets
       <= 2 * length (bullets_education_loop U bullets skip)
          + (if skip then 1 else 0)
    /\ Forall (fun e =>
         cleaned U (edu_year e)
         /\ strip U (degree e) = degree e
         /\ strip U (institution e) = institution e
         /\ edu_details e = [])
         (bullets_education_loop U bullets skip).
Proof.
  induction bullets as [|line rest IH]; intros skip;
    cbn [bullets_education_loop length];
    [repeat split; [lia|destruct skip; lia|constructor]|].
  destruct skip.
  { destruct (IH false) as [H1 [H2 H3]]. repeat split; [lia|lia|exact H3]. }
  destruct (search_start U true institution_re line) as [start|].
  - destruct (IH false) as [H1 [H2 H3]].
    repeat split; [simpl; lia|simpl; lia|].
    constructor; [|exact H3]. repeat split; simpl.
    + apply clean_duration_shape.
    + apply strip_idem.
    + apply strip_idem.
  - match goal with
    | |- context [bullets_education_loop U rest ?b] =>
        destruct (IH b) as [H1 [H2 H3]]; set (dated := b) in *
    end.
    repeat split; [simpl; lia|simpl; destruct dated; lia|].
    constructor; [|exact H3]. cbn [edu_year degree institution edu_details].
    split; [destruct dated; apply clean_duration_shape|].
    split; [apply strip_idem|]. split; [apply strip_idem|reflexivity].
Qed.

(** X9: [_build_education_from_bullets] turns every bullet into an
    entry, or takes it as the year of the entry before: there are at
    most as many entries as bullets and at least half as many.  In
    every entry the year is empty, one year or two years joined by a
    hyphen, the degree and the institution have no whitespace around
    them, and the details are empty. *)
Theorem X9_bullet_education_entries_are_well_formed (bullets : list pystr) :
  let edus := _build_education_from_bullets U bullets in
  length edus <= length bullets <= 2 * length edus
  /\ Forall (fun e =>
       cleaned U (edu_year e)
       /\ strip U (degree e) = degree e
       /\ strip U (institution e) = institution e
       /\ edu_details e = [])
       edus.
Proof.
  intros edus. subst edus. unfold _build_education_from_bullets.
  destruct (bullets_education_loop_ok bullets false) as [H1 [H2 H3]].
  repeat split; [exact H1|lia|exact H3].
Qed.

End BulletEntries.

(** ** Replacing in the runs of a paragraph *)

Section Runs.

Context (U : PyUnicode)
        (sub_escaped : bool -> re -> pystr -> pystr -> option pystr).

Lemma replace_in_runs_shape (search_term : pystr) (replacement : pyval)
  (runs : list pystr) :
  forall runs' n,
    replace_in_runs U sub_escaped runs search_term replacement
    = Ok (runs', n) ->
    length runs' = length runs /\ n <= length runs
    /\ (n = 0 -> runs' = runs).
Proof.
  induction runs as [|run rest IH]; intros runs' n; cbn [replace_in_runs].
  - intros E. injection E as <- <-. repeat split; lia.
  - destruct (_text_contains U run search_term).
    + destruct (pattern_sub U sub_escaped search_term replacement run)
        as [run'|e]; [|discriminate].
      cbn [bind].
      destruct (replace_in_runs U sub_escaped rest search_term replacement)
        as [[rs m]|e]; [|discriminate].
      cbn [bind]. intros E. injection E as <- <-.
      destruct (IH rs m eq_refl) as [H1 [H2 _]].
      repeat split; [simpl; lia|simpl; lia|discriminate].
    + destruct (replace_in_runs U sub_escaped rest search_term replacement)
        as [[rs m]|e]; [|discriminate].
      cbn [bind]. intros E. injection E as <- <-.
      destruct (IH rs m eq_refl) as [H1 [H2 H3]].
      repeat split; [simpl; lia|simpl; lia|].
      intros Hm. now rewrite (H3 Hm).
Qed.

(** X10: when [_replace_in_paragraph] returns, a paragraph that had
    runs has as many runs as before; the count it reports is at most
    the number of runs, or one for a paragraph without runs; and it
    reports zero only if it left the paragraph as it was. *)
Theorem X10_replace_in_paragraph_keeps_the_runs (p : paragraph)
  (search_term : pystr) (replacement : pyval) (p' : paragraph) (n : nat) :
  _replace_in_paragraph U sub_escaped p search_term replacement
  = Ok (p', n) ->
  (p <> [] -> length p' = length p)
  /\ n <= Nat.max 1 (length p)
  /\ (n = 0 -> p' = p).
Proof.
  unfold _replace_in_paragraph.
  destruct (replace_in_runs U sub_escaped p search_term replacement)
    as [[runs replaced]|e] eqn:E; [|discriminate].
  destruct (replace_in_runs_shape search_term replacement p runs replaced E)
    as [H1 [H2 H3]].
  cbn [bind].
  destruct ((replaced =? 0) && _text_contains U (para_text runs) search_term)
    eqn:Hc.
  2:{ intros E'. injection E' as <- <-. repeat split; [lia|lia|exact H3]. }
  apply andb_true_iff in Hc as [Hz _]. apply Nat.eqb_eq in Hz. subst replaced.
  rewrite (H3 eq_refl) in *.
  destruct (pattern_sub U sub_escaped search_term replacement (para_text p))
    as [new_text|e]; [|discriminate].
  cbn [bind]. destruct (negb (pystr_eqb new_text (para_text p))).
  - destruct p as [|r rest]; intros E'; injection E' as <- <-.
    + repeat split; [congruence|simpl; lia|discriminate].
    + repeat split; [simpl; now rewrite length_map|simpl; lia|discriminate].
  - intros E'. injection E' as <- <-. repeat split; lia.
Qed.

(** X26: a paragraph whose text contains no key of the map, in any
    case, comes out of the replacement loop as it went in, with a count
    of zero, whatever the values of the map are. *)
Theorem X26_paragraph_without_tokens_is_untouched (replacements : pydict)
  (p : paragraph) :
  Forall (fun kv => _text_contains U (para_text p) (fst kv) = false)
    replacements ->
  apply_replacements U sub_escaped replacements p = Ok (p, 0).
Proof.
  induction 1 as [|[key value] rest Hkey _ IH]; cbn [apply_replacements];
    [reflexivity|].
  cbn [fst] in Hkey. now rewrite Hkey.
Qed.

End Runs.

(** ** The section of the record for a heading *)

Section MatchingSection.

Context (U : PyUnicode).

Lemma first_section_with_in (patterns : list pystr) (resume_sections : pydict)
  (content : pyval) :
  first_section_with U patterns resume_sections = Some content ->
  exists key, In (key, content) resume_sections
              /\ any_in patterns (lower U key) = true.
Proof.
  induction resume_sections as [|[k v] d IH]; cbn [first_section_with];
    [discriminate|].
  destruct (any_in patterns (lower U k)) eqn:E.
  - intros H. injection H as <-. exists k. split; [now left|exact E].
  - intros H. destruct (IH H) as [key [Hin Hk]]. exists key.
    split; [now right|exact Hk].
Qed.

(** X12: [WordFormatter._find_matching_resume_section] returns the
    value stored under the key itself when there is one; what it
    returns is otherwise the value of a section whose lower-case name
    contains a synonym of the key, or the empty list. *)
Theorem X12_matching_section_is_a_section_of_the_record
  (section_key : pystr) (resume_sections : pydict) :
  let content := _find_matching_resume_section U section_key resume_sections in
  (forall v, dict_lookup resume_sections section_key = Some v -> content = v)
  /\ (content = VList []
      \/ exists key,
           In (key, content) resume_sections
           /\ (key = section_key
               \/ any_in (synonyms_of section_synonyms section_key)
                    (lower U key) = true)).
Proof.
  intros content. subst content. unfold _find_matching_resume_section.
  destruct (dict_lookup resume_sections section_key) as [v|] eqn:E.
  - split; [intros v' H; now injection H|].
    right. exists section_key. split; [now apply dict_lookup_in|now left].
  - split; [discriminate|].
    destruct (first_section_with U _ resume_sections) as [content|] eqn:F;
      [|now left].
    right. destruct (first_section_with_in _ _ _ F) as [key [Hin Hk]].
    exists key. split; [exact Hin|now right].
Qed.

End MatchingSection.

(** ** Skills tables *)

Section FillingTables.

Context (U : PyUnicode)
        (sub_escaped : bool -> re -> pystr -> pystr -> option pystr).

Lemma set_nth_length {A : Type} (l : list A) (i : nat) (a : A) :
  length (set_nth l i a) = length l.
Proof.
  revert i. induction l as [|x l IH]; intros i; [reflexivity|].
  destruct i; simpl; [reflexivity|]. now rewrite IH.
Qed.

Lemma set_col_length (col : option nat) (text : pystr) (row : list cell) :
  length (set_col col text row) = length row.
Proof. destruct col; [apply set_nth_length|reflexivity]. Qed.

(** X13: [_fill_skills_table] either returns zero and leaves the table
    as it was, or keeps the header row, drops every other row, and adds
    one row per skill for the first fifteen skills, each as wide as the
    header; the number it returns is the number of rows it added. *)
Theorem X13_filled_table_keeps_header_and_width
  (skills_data : list skill_info) (t : table) :
  let t' := fst (_fill_skills_table U skills_data t) in
  let filled := snd (_fill_skills_table U skills_data t) in
  (filled = 0 /\ t' = t)
  \/ (0 < filled
      /\ filled = Nat.min 15 (length skills_data)
      /\ exists rows,
           t' = hd [] t :: rows /\ length rows = filled
           /\ Forall (fun row => length row = length (hd [] t)) rows).
Proof.
  intros t' filled. subst t' filled. unfold _fill_skills_table.
  destruct (length t <? 2); [now left|].
  destruct (find_columns (header_texts U t) 0 (None, None, None))
    as [[skill_col years_col] last_used_col].
  destruct skill_col as [i|]; [|now left].
  destruct skills_data as [|s rest]; [now left|].
  right. cbn [fst snd]. rewrite length_firstn.
  split; [simpl; lia|]. split; [apply Nat.min_comm || reflexivity|].
  eexists. split; [reflexivity|]. split.
  - now rewrite length_map, length_firstn.
  - apply Forall_forall. intros row Hrow.
    apply in_map_iff in Hrow as [si [<- _]].
    now rewrite !set_col_length, length_map.
Qed.

Lemma find_columns_no_skill (headers : list pystr) :
  Forall (fun h => contains h (py "skill") = false
                   /\ contains h (py "technology") = false) headers ->
  forall idx years_col last_used_col,
    fst (fst (find_columns headers idx (None, years_col, last_used_col)))
    = None.
Proof.
  induction 1 as [|h headers [Hs Ht] _ IH]; intros idx y l; [reflexivity|].
  cbn [find_columns]. rewrite Hs, Ht. cbn [orb].
  destruct (contains h (py "years") || contains h (py "experience"));
    [apply IH|].
  destruct (contains h (py "last") || contains h (py "recent")); apply IH.
Qed.

(** X14: a table that [_is_skills_table] accepts while no cell of its
    header row has "skill" or "technology" in it, as when the header
    says "competency", comes out of the table step as it went in: it is
    not filled, and its literal tokens are not replaced. *)
Theorem X14_competency_table_is_left_untouched (replacements : pydict)
  (skills_data : list skill_info) (t : table) :
  _is_skills_table U t = true ->
  Forall (fun h => contains h (py "skill") = false
                   /\ contains h (py "technology") = false)
    (header_texts U t) ->
  format_table U sub_escaped replacements skills_data t = Ok t.
Proof.
  intros Hd Hh. unfold format_table. rewrite Hd. f_equal.
  unfold _fill_skills_table.
  destruct (length t <? 2); [reflexivity|].
  pose proof (find_columns_no_skill _ Hh 0 None None) as Hc.
  destruct (find_columns (header_texts U t) 0 (None, None, None))
    as [[skill_col years_col] last_used_col].
  simpl in Hc. now subst skill_col.
Qed.

End FillingTables.

(** The witness of X10: "[NAME]" in the one run "Hello [NAME]". *)
Lemma X10_replace_in_paragraph_witness :
  _replace_in_paragraph latin1 (fun _ _ _ _ => None) [py "Hello [NAME]"]
    (py "[NAME]") (VStr (py "Ann"))
  = Ok ([py "Hello Ann"], 1)
  /\ (([py "Hello [NAME]"] <> [] ->
       length [py "Hello Ann"] = length [py "Hello [NAME]"])
      /\ 1 <= Nat.max 1 (length [py "Hello [NAME]"])
      /\ (1 = 0 -> [py "Hello Ann"] = [py "Hello [NAME]"])).
Proof.
  split; [vm_compute; reflexivity|].
  apply (X10_replace_in_paragraph_keeps_the_runs latin1 (fun _ _ _ _ => None)
           [py "Hello [NAME]"] (py "[NAME]") (VStr (py "Ann"))).
  vm_compute. reflexivity.
Defined.

(** The witness of X26: the paragraph "Hello" and a map whose one value
    is not a string. *)
Lemma X26_paragraph_without_tokens_witness :
  Forall (fun kv => _text_contains latin1 (para_text [py "Hello"]) (fst kv)
                    = false)
    [(py "[NAME]", VNone)]
  /\ apply_replacements latin1 (fun _ _ _ _ => None) [(py "[NAME]", VNone)]
       [py "Hello"]
     = Ok ([py "Hello"], 0).
Proof.
  assert (Forall (fun kv => _text_contains latin1 (para_text [py "Hello"])
                              (fst kv) = false)
            [(py "[NAME]", VNone)]) as H.
  { constructor; [vm_compute; reflexivity|constructor]. }
  split; [exact H|].
  exact (X26_paragraph_without_tokens_is_untouched latin1
           (fun _ _ _ _ => None) [(py "[NAME]", VNone)] [py "Hello"] H).
Defined.

(** The witness of X14: a table headed "Competency" and "Years" whose
    data row holds the token "[NAME]". *)
Lemma X14_competency_table_witness :
  let t := [ [cell_of_text (py "Competency"); cell_of_text (py "Years")];
             [cell_of_text (py "[NAME]"); cell_of_text []] ] in
  _is_skills_table latin1 t = true
  /\ format_table latin1 (fun _ _ _ _ => None)
       [(py "[NAME]", VStr (py "Ann"))]
       [{| skill := py "Rocq"; years := py "1+ years";
           last_used := py "Recent" |}] t
     = Ok t.
Proof.
  split; [vm_compute; reflexivity|].
  apply (X14_competency_table_is_left_untouched latin1 (fun _ _ _ _ => None)).
  - vm_compute. reflexivity.
  - vm_compute. repeat constructor.
Defined.

(** * Further properties of the PDF formatter and the template analysis *)

(** ** Wrapping *)

Section Wrapping.

Context (U : PyUnicode) (fits : pystr -> bool).

(** A line of wrapped text: words that fit together, or one word. *)
Definition wrapped_group (g : list pystr) : Prop :=
  g <> [] /\ (fits (join (py " ") g) = true \/ exists w, g = [w]).

Lemma wrap_loop_spec (words : list pystr) :
  forall lines current_line,
    current_line = [] \/ wrapped_group current_line ->
    exists groups,
      wrap_loop fits words lines current_line
      = lines ++ List.map (join (py " ")) groups
      /\ concat groups = current_line ++ words
      /\ Forall wrapped_group groups.
Proof.
  induction words as [|word rest IH]; intros lines current_line Hcur;
    cbn [wrap_loop].
  - destruct current_line as [|w ws].
    + exists []. simpl. now rewrite app_nil_r.
    + destruct Hcur as [Hcur|Hcur]; [discriminate|].
      exists [w :: ws]. cbn [flush_line List.map concat].
      split; [reflexivity|]. split; [now rewrite !app_nil_r|now constructor].
  - destruct (fits (join (py " ") (current_line ++ [word]))) eqn:Hfit.
    + destruct (IH lines (current_line ++ [word])) as [groups [E [Hc Hg]]].
      { right. split; [now destruct current_line|now left]. }
      exists groups. rewrite <- app_assoc in Hc.
      split; [exact E|]. split; [exact Hc|exact Hg].
    + destruct (IH (flush_line lines current_line) [word])
        as [groups [E [Hc Hg]]].
      { right. split; [discriminate|right; now exists word]. }
      destruct current_line as [|w ws].
      * exists groups. split; [exact E|]. split; [exact Hc|exact Hg].
      * destruct Hcur as [Hcur|Hcur]; [discriminate|].
        exists ((w :: ws) :: groups). cbn [flush_line] in E |- *.
        rewrite E, <- app_assoc. cbn [List.map concat app].
        split; [reflexivity|]. split; [now rewrite Hc|now constructor].
Qed.

(** X15: [_wrap_text] never returns an empty list.  For a text without
    words it returns the first hundred characters as the one line;
    otherwise the lines are the words of the text, in order, none lost
    and none repeated, joined by single spaces, and every line either
    fits the width or is a single word. *)
Theorem X15_wrapped_lines_are_the_words_in_order (text : pystr) :
  (split_ws U text = [] /\ _wrap_text U fits text = [firstn 100 text])
  \/ exists groups,
       groups <> []
       /\ concat groups = split_ws U text
       /\ Forall (fun g =>
            g <> [] /\ (fits (join (py " ") g) = true \/ exists w, g = [w]))
            groups
       /\ _wrap_text U fits text = List.map (join (py " ")) groups.
Proof.
  unfold _wrap_text.
  destruct (wrap_loop_spec (split_ws U text) [] [] (or_introl eq_refl))
    as [groups [E [Hc Hg]]].
  rewrite E. cbn [app] in *.
  destruct groups as [|g groups].
  - left. simpl in Hc. now split.
  - right. exists (g :: groups). repeat split; try assumption; discriminate.
Qed.

End Wrapping.

(** ** Field mappings *)

Section FieldMappings.

Lemma field_mappings_loop_spec (resume_data template_fields : pydict)
  (k : pystr) :
  forall mappings,
    match dict_lookup (field_mappings_loop resume_data template_fields mappings)
            k with
    | Some v =>
        dict_lookup mappings k = Some v
        \/ exists field_info resume_value,
             In (k, field_info) template_fields
             /\ dict_lookup resume_data k = Some resume_value
             /\ v = VDict [(py "template_position", field_info);
                           (py "resume_value", resume_value)]
    | None =>
        dict_lookup mappings k = None
        /\ (~ In k (List.map fst template_fields)
            \/ dict_lookup resume_data k = None)
    end.
Proof.
  induction template_fields as [|[field_name field_info] rest IH];
    intros mappings; cbn [field_mappings_loop].
  - destruct (dict_lookup mappings k); [now left|]. split; [reflexivity|].
    left. intros [].
  - match goal with
    | |- context [field_mappings_loop resume_data rest ?m] =>
        specialize (IH m); set (m' := m) in *
    end.
    destruct (dict_lookup (field_mappings_loop resume_data rest m') k)
      as [v|].
    + destruct IH as [IH|[info [value [Hin [Hr Hv]]]]].
      2:{ right. exists info, value. split; [now right|now split]. }
      subst m'. destruct (dict_lookup resume_data field_name) as [rv|] eqn:Hf;
        [|now left].
      rewrite dict_lookup_set in IH.
      destruct (pystr_eqb field_name k) eqn:Ek; [|now left].
      apply pystr_eqb_eq in Ek. subst k. injection IH as <-.
      right. exists field_info, rv. split; [now left|now split].
    + destruct IH as [Hm Hk]. subst m'.
      destruct (dict_lookup resume_data field_name) as [rv|] eqn:Hf.
      * rewrite dict_lookup_set in Hm.
        destruct (pystr_eqb field_name k) eqn:Ek; [discriminate|].
        split; [exact Hm|]. destruct Hk as [Hk|Hk]; [|now right].
        left. simpl. intros [H|H]; [|exact (Hk H)].
        subst k. now rewrite pystr_eqb_refl in Ek.
      * split; [exact Hm|]. destruct Hk as [Hk|Hk]; [|now right].
        destruct (pystr_eqb field_name k) eqn:Ek.
        -- apply pystr_eqb_eq in Ek. subst k. now right.
        -- left. simpl. intros [H|H]; [|exact (Hk H)].
           subst k. now rewrite pystr_eqb_refl in Ek.
Qed.

(** X16: [_create_field_mappings] has an entry for a name exactly when
    the name is a field of the template and a key of the record; the
    entry pairs the position the template gives for the field with the
    value the record holds for it. *)
Theorem X16_field_mappings_are_the_shared_fields
  (resume_data template_fields : pydict) (k : pystr) :
  match dict_lookup (_create_field_mappings resume_data template_fields) k with
  | Some v =>
      exists field_info resume_value,
        In (k, field_info) template_fields
        /\ dict_lookup resume_data k = Some resume_value
        /\ v = VDict [(py "template_position", field_info);
                      (py "resume_value", resume_value)]
  | None =>
      ~ In k (List.map fst template_fields)
      \/ dict_lookup resume_data k = None
  end.
Proof.
  unfold _create_field_mappings.
  pose proof (field_mappings_loop_spec resume_data template_fields k []) as H.
  destruct (dict_lookup (field_mappings_loop resume_data template_fields []) k).
  - destruct H as [H|H]; [discriminate|exact H].
  - exact (proj2 H).
Qed.

End FieldMappings.

(** ** The section of the record for a template heading *)

Section HeadingMatch.

Context (U : PyUnicode).

Lemma first_section_named_in (patterns : list pystr) (resume_sections : pydict)
  (content : pyval) :
  first_section_named patterns resume_sections = Some content ->
  exists key, In (key, content) resume_sections
              /\ any_in patterns key = true.
Proof.
  induction resume_sections as [|[k v] d IH]; cbn [first_section_named];
    [discriminate|].
  destruct (any_in patterns k) eqn:E.
  - intros H. injection H as <-. exists k. split; [now left|exact E].
  - intros H. destruct (IH H) as [key [Hin Hk]]. exists key.
    split; [now right|exact Hk].
Qed.

Lemma keyword_match_in (keywords : list (pystr * list pystr))
  (heading_lower : pystr) (resume_sections : pydict) (content : pyval) :
  keyword_match keywords heading_lower resume_sections = Some content ->
  exists family patterns key,
    In (family, patterns) keywords
    /\ any_in patterns heading_lower = true
    /\ In (key, content) resume_sections
    /\ any_in patterns key = true.
Proof.
  induction keywords as [|[family patterns] rest IH]; cbn [keyword_match];
    [discriminate|].
  assert (keyword_match rest heading_lower resume_sections = Some content ->
          exists family0 patterns0 key,
            In (family0, patterns0) ((family, patterns) :: rest)
            /\ any_in patterns0 heading_lower = true
            /\ In (key, content) resume_sections
            /\ any_in patterns0 key = true) as Hrest.
  { intros H. destruct (IH H) as [f [p [key [Hin Hr]]]].
    exists f, p, key. split; [now right|exact Hr]. }
  destruct (any_in patterns heading_lower) eqn:Eh; [|exact Hrest].
  destruct (first_section_named patterns resume_sections) as [c|] eqn:Ef;
    [|exact Hrest].
  intros H. injection H as <-.
  destruct (first_section_named_in _ _ _ Ef) as [key [Hin Hk]].
  exists family, patterns, key. split; [now left|now repeat split].
Qed.

(** X17: [IntelligentFormatter._find_matching_resume_section] returns
    the value stored under the lower-case heading when there is one;
    what it returns is otherwise the empty list, or the value of a
    section whose name contains a keyword of a family one of whose
    keywords the lower-case heading contains. *)
Theorem X17_heading_match_is_a_section_of_the_record
  (template_heading : pystr) (resume_sections : pydict) :
  let content :=
    IntelligentFormatter_find_matching_resume_section U template_heading
      resume_sections in
  (forall v, dict_lookup resume_sections (lower U template_heading) = Some v ->
             content = v)
  /\ (content = VList []
      \/ In (lower U template_heading, content) resume_sections
      \/ exists family patterns key,
           In (family, patterns) heading_keywords
           /\ any_in patterns (lower U template_heading) = true
           /\ In (key, content) resume_sections
           /\ any_in patterns key = true).
Proof.
  intros content. subst content.
  unfold IntelligentFormatter_find_matching_resume_section.
  destruct (dict_lookup resume_sections (lower U template_heading))
    as [v|] eqn:E.
  - split; [intros v' H; now injection H|].
    right. left. now apply dict_lookup_in.
  - split; [discriminate|].
    destruct (keyword_match heading_keywords (lower U template_heading)
                resume_sections) as [content|] eqn:F; [|now left].
    right. right. exact (keyword_match_in _ _ _ _ F).
Qed.

End HeadingMatch.

(** ** Fonts *)

Section Fonts.

Context (U : PyUnicode).

(** The font names [normalize_font] can return. *)
Definition reportlab_fonts : list pystr :=
  List.map py ["Helvetica"; "Helvetica-Bold"; "Helvetica-Oblique";
               "Helvetica-BoldOblique"; "Times-Roman"; "Times-Bold";
               "Times-Italic"; "Times-BoldItalic"; "Courier";
               "Courier-Bold"]%string.

Lemma font_lookup_in (m : list (pystr * pystr)) (k v : pystr) :
  font_lookup m k = Some v -> In v (List.map snd m).
Proof.
  induction m as [|[k0 v0] m IH]; cbn [font_lookup]; [discriminate|].
  destruct (pystr_eqb k0 k).
  - intros H. injection H as <-. now left.
  - intros H. right. exact (IH H).
Qed.

Lemma font_map_fonts : incl (List.map snd FONT_MAP) reportlab_fonts.
Proof.
  intros v Hv. cbv [FONT_MAP List.map snd] in Hv. unfold reportlab_fonts.
  cbv [List.map]. simpl in Hv. simpl. tauto.
Qed.

(** X18: whatever the font name, [normalize_font] returns one of ten
    names: Helvetica, Times or Courier in one of their styles. *)
Theorem X18_normalize_font_returns_a_standard_font (font_name : pystr) :
  In (normalize_font U font_name) reportlab_fonts.
Proof.
  unfold normalize_font.
  destruct (negb (truthy font_name)); [now left|].
  set (font_clean := lower U (re_sub U false subset_prefix_re [] font_name)).
  destruct (font_lookup FONT_MAP font_clean) as [font|] eqn:E.
  { apply font_map_fonts. exact (font_lookup_in _ _ _ E). }
  destruct (contains font_clean (py "calibri") || contains font_clean (py "arial")),
    (contains font_clean (py "times")), (contains font_clean (py "courier")),
    (contains font_clean (py "bold")), (contains font_clean (py "italic"));
    cbn [andb]; unfold reportlab_fonts; cbn [List.map In]; tauto.
Qed.

End Fonts.

(** ** Template analysis *)

Section TemplateAnalysis.

Context (U : PyUnicode) (number : Type) (at_least_10 : number -> bool).

Lemma detect_sections_loop_ok (lines : list (TemplateLine number)) :
  forall seen,
    let found := detect_sections_loop U at_least_10 lines seen in
    NoDup (List.map (fun s => lower U (heading s)) found)
    /\ Forall (fun s =>
         ~ In (lower U (heading s)) seen
         /\ 3 <= length (heading s) <= 60
         /\ at_least_10 (heading_size s) = true
         /\ exists line,
              In line lines
              /\ heading s = strip U (line_text line)
              /\ heading_font s = normalize_font U (line_font line)
              /\ heading_size s = line_font_size line)
         found.
Proof.
  induction lines as [|line rest IH]; intros seen found; subst found;
    cbn [detect_sections_loop]; [split; constructor|].
  assert (forall seen',
            incl seen seen' ->
            NoDup (List.map (fun s => lower U (heading s))
                     (detect_sections_loop U at_least_10 rest seen'))
            /\ Forall (fun s =>
                 ~ In (lower U (heading s)) seen
                 /\ 3 <= length (heading s) <= 60
                 /\ at_least_10 (heading_size s) = true
                 /\ exists line0,
                      In line0 (line :: rest)
                      /\ heading s = strip U (line_text line0)
                      /\ heading_font s = normalize_font U (line_font line0)
                      /\ heading_size s = line_font_size line0)
                 (detect_sections_loop U at_least_10 rest seen')) as Hrest.
  { intros seen' Hincl. destruct (IH seen') as [Hnd Hall].
    split; [exact Hnd|]. eapply Forall_impl; [|exact Hall].
    intros s [Hs [Hlen [Hsize [line0 [Hin Hline]]]]].
    split; [intros H; exact (Hs (Hincl _ H))|].
    split; [exact Hlen|]. split; [exact Hsize|].
    exists line0. split; [now right|exact Hline]. }
  set (text := strip U (line_text line)).
  destruct (Nat.ltb_spec 60 (length text)) as [Hlong|Hlong];
    [apply Hrest, incl_refl|].
  destruct (Nat.ltb_spec (length text) 3) as [Hshort|Hshort];
    [apply Hrest, incl_refl|].
  cbn [orb].
  destruct (existsb (pystr_eqb (lower U text)) seen) eqn:Hseen;
    [apply Hrest, incl_refl|].
  destruct (at_least_10 (line_font_size line)) eqn:Hsize;
    [|apply Hrest, incl_refl].
  destruct (startswith text [226%N; 8364%N; 162%N]);
    [apply Hrest, incl_refl|].
  cbn [andb negb List.map heading].
  destruct (Hrest (lower U text :: seen)) as [Hnd Hall];
    [intros x Hx; now right|].
  destruct (IH (lower U text :: seen)) as [_ Hfresh].
  split.
  - constructor; [|exact Hnd]. intros Hin.
    apply in_map_iff in Hin as [s [Hs Hin]].
    rewrite Forall_forall in Hfresh.
    destruct (Hfresh s Hin) as [Hnot _]. apply Hnot. left. now rewrite Hs.
  - constructor; [|exact Hall]. cbn [heading heading_size heading_font].
    split.
    { intros Hin. assert (existsb (pystr_eqb (lower U text)) seen = true)
        as Hyes; [|congruence].
      apply existsb_exists. exists (lower U text).
      split; [exact Hin|apply pystr_eqb_refl]. }
    split; [lia|]. split; [exact Hsize|].
    exists line. split; [now left|now repeat split].
Qed.

Lemma NoDup_firstn {A : Type} (n : nat) (l : list A) :
  NoDup l -> NoDup (firstn n l).
Proof.
  revert l. induction n as [|n IH]; intros l H; [constructor|].
  destruct l as [|a l]; [constructor|]. inversion H as [|? ? Ha Hl]; subst.
  cbn [firstn]. constructor; [|now apply IH].
  intros Hin. apply Ha. revert Hin. clear. revert l.
  induction n as [|n IH]; intros l; [intros []|].
  destruct l as [|b l]; [intros []|]. cbn [firstn].
  intros [H|H]; [now left|right; now apply IH].
Qed.

Lemma Forall_firstn {A : Type} (P : A -> Prop) (n : nat) (l : list A) :
  Forall P l -> Forall P (firstn n l).
Proof.
  revert l. induction n as [|n IH]; intros l H; [constructor|].
  destruct H as [|a l Ha Hl]; [constructor|].
  cbn [firstn]. constructor; [exact Ha|now apply IH].
Qed.

(** X19: [detect_sections] returns at most ten headings; no two are the
    same when lower-cased; every heading is the stripped text of a line
    of the page, has three to sixty characters and a font size of at
    least ten, and carries the font of its line mapped by
    [normalize_font]. *)
Theorem X19_detected_sections_are_distinct_and_short
  (lines : list (TemplateLine number)) :
  let sections := detect_sections U at_least_10 lines in
  length sections <= 10
  /\ NoDup (List.map (fun s => lower U (heading s)) sections)
  /\ Forall (fun s =>
       3 <= length (heading s) <= 60
       /\ at_least_10 (heading_size s) = true
       /\ exists line,
            In line lines
            /\ heading s = strip U (line_text line)
            /\ heading_font s = normalize_font U (line_font line)
            /\ heading_size s = line_font_size line)
       sections.
Proof.
  intros sections. subst sections. unfold detect_sections.
  destruct (detect_sections_loop_ok lines []) as [Hnd Hall].
  split; [apply firstn_le_length|].
  split.
  - rewrite <- firstn_map. now apply NoDup_firstn.
  - apply Forall_firstn. eapply Forall_impl; [|exact Hall].
    intros s [_ H]. exact H.
Qed.

(** X20: the profile [analyze_pdf_template] and [analyze_word_template]
    return carries the path they were given and the type "pdf" or
    "docx", whatever reading the template gave; so the formatter
    accepts it exactly when the path is not empty.  The profile of
    [get_default_format] alone is rejected. *)
Theorem X20_analyzed_profile_passes_the_precondition
  (page name body : pyval) (file_path : pystr) (outcome : pdf_analysis)
  (sections : option pyval) (resume_data : pydict) (output_path : pystr) :
  let accepted (profile : pydict) (kind : pystr) :=
    IntelligentFormatter_init resume_data profile output_path
    = if truthy file_path
      then Ok {| resume_data := resume_data;
                 template_analysis := profile;
                 output_path := output_path;
                 template_path := VStr file_path;
                 template_type := VStr kind |}
      else Raise (ValueError (py "Template path not found in analysis. Please re-upload the template.")) in
  accepted (analyze_pdf_template page name body file_path outcome) (py "pdf")
  /\ accepted (analyze_word_template page name body file_path sections)
       (py "docx")
  /\ IntelligentFormatter_init resume_data (get_default_format page name body)
       output_path
     = Raise (ValueError (py "Template path not found in analysis. Please re-upload the template.")).
Proof.
  intros accepted. subst accepted. cbv beta.
  split; [|split; [|reflexivity]].
  - destruct outcome, file_path; reflexivity.
  - destruct sections, file_path; reflexivity.
Qed.

End TemplateAnalysis.

(** * Properties of the simple parser *)

Section SimpleParser.

Context (U : PyUnicode).

Lemma extract_sections_loop_ok (lines : list pystr) :
  forall rest current sections,
    incl rest lines ->
    let headers key :=
      key <> [] /\ exists h, In h lines /\ simple_heading U h = true
                             /\ key = strip U (lower U h) in
    let items x :=
      x <> [] /\ In x lines /\ simple_heading U x = false in
    match current with Some key => key = [] \/ headers key | None => True end ->
    NoDup (List.map fst sections) ->
    Forall (section_entry_ok headers items) sections ->
    NoDup (List.map fst (extract_sections_loop U rest current sections))
    /\ Forall (section_entry_ok headers items)
         (extract_sections_loop U rest current sections).
Proof.
  induction rest as [|line rest IH]; intros current sections Hincl headers
    items Hcur Hnd Hall; cbn [extract_sections_loop]; [now split|].
  assert (incl rest lines) as Hrest by (intros x Hx; apply Hincl; now right).
  assert (In line lines) as Hline by (apply Hincl; now left).
  destruct (simple_heading U line) eqn:Hh.
  - apply IH; try assumption.
    destruct (strip U (lower U line)) as [|c k] eqn:Ek; [now left|].
    right. split; [discriminate|]. exists line. now rewrite Ek.
  - destruct current as [key|]; [|now apply IH].
    destruct (truthy key && truthy line) eqn:Ht; [|now apply IH].
    apply andb_true_iff in Ht as [Hk Hl].
    destruct Hcur as [->|Hkey]; [discriminate|].
    apply IH; try assumption.
    + now right.
    + now apply append_to_section_nodup.
    + apply append_to_section_ok; try assumption.
      split; [now destruct line|]. now split.
Qed.

(** X21: in the sections [extract_sections] returns, no key occurs
    twice; every key is not empty and is the stripped lower-case text
    of a line that passed the heading test (under sixty characters, no
    leading bullet, no contact information); every value is a list of
    at least one line, each not empty and each failing the heading
    test. *)
Theorem X21_simple_sections_are_keyed_by_headings (lines : list pystr) :
  NoDup (List.map fst (extract_sections U lines))
  /\ forall key value,
       In (key, value) (extract_sections U lines) ->
       key <> []
       /\ (exists h, In h lines /\ simple_heading U h = true
                     /\ key = strip U (lower U h))
       /\ exists items,
            value = VList (List.map VStr items) /\ items <> []
            /\ Forall (fun x => x <> [] /\ In x lines
                                /\ simple_heading U x = false) items.
Proof.
  destruct (extract_sections_loop_ok lines lines None [] (incl_refl lines) I
              (NoDup_nil _) (Forall_nil _)) as [Hnd Hall].
  split; [exact Hnd|]. intros key value Hin.
  rewrite Forall_forall in Hall.
  destruct (Hall _ Hin) as [[Hne Hh] Hv]. simpl in *. now repeat split.
Qed.

End SimpleParser.

(** * Further properties of the contact fields *)

Section Matching.

Context (U : PyUnicode).

(** [g] is a piece of [s]. *)
Definition occurs_in (g s : pystr) : Prop := exists a b, s = a ++ g ++ b.

(** A match from [p] to [q] consumes [a]. *)
Definition consumes (p q : pos) (a : pystr) : Prop := snd p = a ++ snd q.

Lemma consumes_refl (p : pos) : consumes p p [].
Proof. reflexivity. Qed.

Lemma consumes_trans (p m q : pos) (a b : pystr) :
  consumes p m a -> consumes m q b -> consumes p q (a ++ b).
Proof. unfold consumes. intros -> ->. now rewrite app_assoc. Qed.

Lemma step_if_consumes (f : N -> bool) (p q : pos) :
  In q (step_if f p) -> exists x, f x = true /\ consumes p q [x].
Proof.
  unfold step_if, consumes. destruct p as [prev [|x t]]; cbn [snd]; [intros []|].
  destruct (f x) eqn:Hx; [|intros []]. intros [<-|[]]. now exists x.
Qed.

Lemma ms_consumes (ic : bool) (r : re) :
  forall p q, In q (ms U ic r p) -> exists a, consumes p q a.
Proof.
  induction r as [|c| |neg l|a IHa b IHb|a IHa b IHb|a IHa| | |];
    intros p q Hq.
  - destruct Hq as [<-|[]]. exists []. apply consumes_refl.
  - apply step_if_consumes in Hq as [x [_ H]]. now exists [x].
  - apply step_if_consumes in Hq as [x [_ H]]. now exists [x].
  - apply step_if_consumes in Hq as [x [_ H]]. now exists [x].
  - cbn [ms] in Hq. apply in_flat_map in Hq as [m [Hm Hq]].
    destruct (IHa p m Hm) as [x Hx]. destruct (IHb m q Hq) as [y Hy].
    exists (x ++ y). exact (consumes_trans p m q x y Hx Hy).
  - cbn [ms] in Hq. apply in_app_or in Hq as [Hq|Hq]; [exact (IHa p q Hq)|].
    exact (IHb p q Hq).
  - cbn [ms] in Hq. revert Hq. generalize (length (snd p)). intros n.
    revert p q. induction n as [|n IHn]; intros p q Hq.
    + destruct Hq as [<-|[]]. exists []. apply consumes_refl.
    + apply in_app_or in Hq as [Hq|Hq].
      * apply in_flat_map in Hq as [m [Hm Hq]].
        destruct (length (snd m) <? length (snd p)); [|destruct Hq].
        destruct (IHa p m Hm) as [x Hx]. destruct (IHn m q Hq) as [y Hy].
        exists (x ++ y). exact (consumes_trans p m q x y Hx Hy).
      * destruct Hq as [<-|[]]. exists []. apply consumes_refl.
  - cbn [ms] in Hq. destruct (xorb _ _); [|destruct Hq].
    destruct Hq as [<-|[]]. exists []. apply consumes_refl.
  - cbn [ms] in Hq. destruct (fst p); [destruct Hq|].
    destruct Hq as [<-|[]]. exists []. apply consumes_refl.
  - cbn [ms] in Hq.
    assert (In q [p]) as [<-|[]].
    { destruct (snd p) as [|c [|c' t]]; [exact Hq| |destruct Hq].
      destruct (c =? 10)%N; [exact Hq|destruct Hq]. }
    exists []. apply consumes_refl.
Qed.

Lemma consumes_firstn (p q : pos) (a : pystr) :
  consumes p q a -> firstn (length (snd p) - length (snd q)) (snd p) = a.
Proof.
  unfold consumes. intros ->. rewrite length_app.
  replace (length a + length (snd q) - length (snd q)) with (length a + 0)
    by lia.
  now rewrite firstn_app_2, firstn_O, app_nil_r.
Qed.

(** The text of the match the matcher settles on. *)
Lemma match_len_text (ic : bool) (r : re) (prev : option N) (s : pystr)
  (n : nat) :
  match_len U ic r prev s = Some n ->
  exists q l, ms U ic r (prev, s) = q :: l
              /\ consumes (prev, s) q (firstn n s).
Proof.
  unfold match_len. destruct (ms U ic r (prev, s)) as [|[q rest] l] eqn:E;
    [discriminate|].
  intros H. injection H as <-. exists (q, rest), l. split; [reflexivity|].
  destruct (ms_consumes ic r (prev, s) (q, rest)) as [a Ha];
    [rewrite E; now left|].
  pose proof (consumes_firstn _ _ _ Ha) as Hf. cbn [snd] in Hf.
  now rewrite Hf.
Qed.

Lemma search_text_from_occurs (ic : bool) (r : re) (s : pystr) :
  forall prev g,
    search_text_from U ic r prev s = Some g ->
    exists a b n prev',
      s = a ++ g ++ b /\ g = firstn n (g ++ b)
      /\ match_len U ic r prev' (g ++ b) = Some n.
Proof.
  induction s as [|c t IH]; intros prev g; cbn [search_text_from].
  - destruct (match_len U ic r prev []) as [n|] eqn:E; [|discriminate].
    intros H. injection H as <-. exists [], [], n, prev.
    rewrite !firstn_nil. cbn [app firstn]. rewrite ?firstn_nil. now repeat split.
  - destruct (match_len U ic r prev (c :: t)) as [n|] eqn:E.
    + intros H. injection H as <-.
      exists [], (skipn n (c :: t)), n, prev.
      rewrite (firstn_skipn n (c :: t)). now repeat split.
    + intros H. destruct (IH (Some c) g H) as [a [b [n [prev' [-> H']]]]].
      exists (c :: a), b, n, prev'. now split.
Qed.

Lemma search_text_occurs (ic : bool) (r : re) (s g : pystr) :
  search_text U ic r s = Some g -> occurs_in g s.
Proof.
  intros H. destruct (search_text_from_occurs ic r s None g H)
    as [a [b [_ [_ [E _]]]]].
  now exists a, b.
Qed.

Lemma occurs_in_empty (s : pystr) : occurs_in [] s.
Proof. now exists [], s. Qed.

Lemma first_group_occurs (ic : bool) (group : re) (s : pystr)
  (ends : list pos) (g : pystr) :
  (forall q, In q ends -> exists a, s = a ++ snd q) ->
  first_group U ic group ends = Some g -> occurs_in g s.
Proof.
  induction ends as [|q rest IH]; intros Hends; cbn [first_group];
    [discriminate|].
  destruct (match_len U ic group (fst q) (snd q)) as [n|].
  - intros H. injection H as <-.
    destruct (Hends q (or_introl eq_refl)) as [a Ha].
    exists a, (skipn n (snd q)). now rewrite firstn_skipn.
  - apply IH. intros q' Hq'. apply Hends. now right.
Qed.

Lemma search_group_from_occurs (ic : bool) (prefix group : re) (s : pystr) :
  forall prev g,
    search_group_from U ic prefix group prev s = Some g -> occurs_in g s.
Proof.
  induction s as [|c t IH]; intros prev g; cbn [search_group_from].
  - destruct (first_group U ic group (ms U ic prefix (prev, []))) as [g'|] eqn:E;
      [|discriminate].
    intros H. injection H as <-.
    apply (first_group_occurs ic group [] (ms U ic prefix (prev, [])) g');
      [|exact E].
    intros q Hq. destruct (ms_consumes ic prefix _ q Hq) as [a Ha].
    now exists a.
  - destruct (first_group U ic group (ms U ic prefix (prev, c :: t)))
      as [g'|] eqn:E.
    + intros H. injection H as <-.
      apply (first_group_occurs ic group (c :: t)
               (ms U ic prefix (prev, c :: t)) g'); [|exact E].
      intros q Hq. destruct (ms_consumes ic prefix _ q Hq) as [a Ha].
      now exists a.
    + intros H. destruct (IH (Some c) g H) as [a [b ->]].
      now exists (c :: a), b.
Qed.

Lemma ms_seq_consumes (ic : bool) (a b : re) (p q : pos) (x : pystr) :
  In q (ms U ic (RSeq a b) p) -> consumes p q x ->
  exists m y z, In m (ms U ic a p) /\ In q (ms U ic b m)
                /\ consumes p m y /\ consumes m q z /\ x = y ++ z.
Proof.
  intros Hq Hx. cbn [ms] in Hq. apply in_flat_map in Hq as [m [Hm Hq]].
  destruct (ms_consumes ic a p m Hm) as [y Hy].
  destruct (ms_consumes ic b m q Hq) as [z Hz].
  exists m, y, z. repeat split; try assumption.
  pose proof (consumes_trans p m q y z Hy Hz) as Hyz.
  unfold consumes in Hx, Hyz. rewrite Hx in Hyz.
  now apply app_inv_tail in Hyz.
Qed.

(** A match of an address pattern has the at sign in it. *)
Lemma email_match_has_at (tail : list catom) (p q : pos) (x : pystr) :
  In q (ms U false (email_re tail) p) -> consumes p q x -> In 64%N x.
Proof.
  unfold email_re. cbn [RSeqs]. intros Hq Hx.
  destruct (ms_seq_consumes _ _ _ _ _ _ Hq Hx)
    as [m1 [y1 [z1 [_ [Hq1 [_ [Hz1 ->]]]]]]].
  destruct (ms_seq_consumes _ _ _ _ _ _ Hq1 Hz1)
    as [m2 [y2 [z2 [_ [Hq2 [_ [Hz2 ->]]]]]]].
  destruct (ms_seq_consumes _ _ _ _ _ _ Hq2 Hz2)
    as [m3 [y3 [z3 [Hm3 [_ [Hy3 [_ ->]]]]]]].
  cbn [ms] in Hm3. apply step_if_consumes in Hm3 as [c [Hc Hc']].
  unfold consumes in Hy3, Hc'. rewrite Hc' in Hy3.
  apply app_inv_tail in Hy3. subst y3.
  unfold chr_match in Hc. cbn [andb orb] in Hc.
  rewrite orb_false_r in Hc. apply N.eqb_eq in Hc. subst c.
  apply in_or_app. right. apply in_or_app. right. now left.
Qed.

(** X22: the e-mail address, the phone number, the LinkedIn address and
    the date of birth the parser extracts are each a piece of the raw
    text, possibly empty; and an e-mail address that is not empty has
    an at sign in it. *)
Theorem X22_contact_fields_are_pieces_of_the_text (raw_text : pystr) :
  occurs_in (_extract_email U raw_text) raw_text
  /\ occurs_in (_extract_phone U raw_text) raw_text
  /\ occurs_in (_extract_linkedin U raw_text) raw_text
  /\ occurs_in (_extract_dob U raw_text) raw_text
  /\ (_extract_email U raw_text = [] \/ In 64%N (_extract_email U raw_text)).
Proof.
  split; [|split; [|split; [|split]]].
  - unfold _extract_email.
    destruct (search_text U false contact_email_re raw_text) as [g|] eqn:E;
      [now apply (search_text_occurs false contact_email_re)
      |apply occurs_in_empty].
  - unfold _extract_phone. induction (phone_patterns phone_sep) as [|r l IH];
      [apply occurs_in_empty|].
    destruct (search_text U false r raw_text) as [g|] eqn:E;
      [now apply (search_text_occurs false r)|exact IH].
  - unfold _extract_linkedin.
    destruct (search_text U true linkedin_re raw_text) as [g|] eqn:E;
      [now apply (search_text_occurs true linkedin_re)|apply occurs_in_empty].
  - unfold _extract_dob. induction dob_groups as [|r l IH];
      [apply occurs_in_empty|].
    destruct (search_group U true dob_prefix_re r raw_text) as [g|] eqn:E;
      [|exact IH].
    exact (search_group_from_occurs true dob_prefix_re r raw_text None g E).
  - unfold _extract_email.
    destruct (search_text U false contact_email_re raw_text) as [g|] eqn:E;
      [|now left].
    right.
    destruct (search_text_from_occurs false contact_email_re raw_text None g E)
      as [a [b [n [prev' [_ [Hg Hm]]]]]].
    destruct (match_len_text _ _ _ _ _ Hm) as [q [l [Hq Hc]]].
    rewrite <- Hg in Hc. unfold contact_email_re in Hq.
    apply (email_match_has_at [ARange 65 90; AChar 124; ARange 97 122]
             (prev', g ++ b) q g); [|exact Hc].
    rewrite Hq. now left.
Qed.

End Matching.

(** * Further properties of the parsed record *)

(** ** Projects *)

Section Projects.

Context (U : PyUnicode).

(** A project as [_extract_projects] builds it: its name, if it has
    one, and its details. *)
Definition project_of (name : option pystr) (ds : list pystr) : pydict :=
  match name with
  | Some n => [(py "name", VStr n); (py "details", VList (List.map VStr ds))]
  | None => [(py "details", VList (List.map VStr ds))]
  end.

Definition project_value (shape : option pystr * list pystr) : pyval :=
  VDict (project_of (fst shape) (snd shape)).

(** The lines a project was built from, in order. *)
Definition project_lines (shape : option pystr * list pystr) : list pystr :=
  match fst shape with Some n => n :: snd shape | None => snd shape end.

Definition named (shape : option pystr * list pystr) : Prop :=
  fst shape <> None.

Definition project_ok (shape : option pystr * list pystr) : Prop :=
  (forall n, fst shape = Some n -> startswith n [bullet] = false)
  /\ Forall (fun d => startswith d [bullet] = true) (snd shape)
  /\ (fst shape = None -> snd shape <> []).

Lemma append_detail_project (name : option pystr) (ds : list pystr)
  (line : pystr) :
  append_detail (project_of name ds) line = project_of name (ds ++ [line]).
Proof.
  unfold append_detail. destruct name as [n|]; cbn [project_of dict_lookup].
  - change (pystr_eqb (py "name") (py "details")) with false.
    change (pystr_eqb (py "details") (py "details")) with true.
    cbn [dict_set].
    change (pystr_eqb (py "name") (py "details")) with false.
    change (pystr_eqb (py "details") (py "details")) with true.
    cbn iota. now rewrite map_app.
  - change (pystr_eqb (py "details") (py "details")) with true.
    cbn [dict_set].
    change (pystr_eqb (py "details") (py "details")) with true.
    cbn iota. now rewrite map_app.
Qed.

Lemma append_detail_empty (line : pystr) :
  append_detail [] line = project_of None [line].
Proof. reflexivity. Qed.

(** The project being built: none yet, or its shape. *)
Definition current_dict (cur : option (option pystr * list pystr)) : pydict :=
  match cur with
  | Some shape => project_of (fst shape) (snd shape)
  | None => []
  end.

Definition current_lines (cur : option (option pystr * list pystr))
  : list pystr :=
  match cur with Some shape => project_lines shape | None => [] end.

Lemma flush_current (cur : option (option pystr * list pystr)) :
  match current_dict cur with [] => [] | _ :: _ => [VDict (current_dict cur)] end
  = List.map project_value
      (match cur with Some shape => [shape] | None => [] end).
Proof. destruct cur as [[[n|] ds]|]; reflexivity. Qed.

Lemma projects_loop_spec (rest : list pystr) :
  Forall (fun line => _is_section_header U line = false) rest ->
  forall cur,
    match cur with Some shape => project_ok shape | None => True end ->
    exists shapes,
      projects_loop U rest (current_dict cur) = List.map project_value shapes
      /\ flat_map project_lines shapes
         = current_lines cur ++ filter truthy rest
      /\ Forall project_ok shapes
      /\ Forall named (tl shapes)
      /\ (match cur with Some shape => named shape | None => False end ->
          Forall named shapes).
Proof.
  induction 1 as [|line rest Hline _ IH]; intros cur Hcur.
  - cbn [projects_loop]. rewrite flush_current.
    destruct cur as [shape|].
    + exists [shape]. cbn [flat_map tl filter current_lines].
      rewrite !app_nil_r.
      split; [reflexivity|]. split; [reflexivity|].
      split; [now constructor|]. split; [constructor|].
      intros Hn. now constructor.
    + exists []. split; [reflexivity|]. split; [reflexivity|].
      split; [constructor|]. split; [constructor|intros []].
  - cbn [projects_loop]. rewrite Hline. cbn [negb]. rewrite andb_true_r.
    destruct (truthy line) eqn:Ht; cbn [andb filter]; rewrite ?Ht.
    + destruct (startswith line [bullet]) eqn:Hb; cbn [negb].
      * (* a detail of the project being built *)
        destruct cur as [[name ds]|].
        -- cbn [current_dict fst snd]. rewrite append_detail_project.
           destruct (IH (Some (name, ds ++ [line])))
             as [shapes [E [Hl [Hok [Htl Hnamed]]]]].
           { destruct Hcur as [H1 [H2 H3]]. cbn [fst snd] in *.
             split; [exact H1|]. split.
             - apply Forall_app. split; [exact H2|now constructor].
             - intros _. now destruct ds. }
           exists shapes. split; [exact E|]. split.
           { rewrite Hl. unfold current_lines, project_lines. cbn [fst snd].
             destruct name; cbn [app]; now rewrite <- app_assoc. }
           split; [exact Hok|]. split; [exact Htl|exact Hnamed].
        -- cbn [current_dict]. rewrite append_detail_empty.
           destruct (IH (Some (None, [line])))
             as [shapes [E [Hl [Hok [Htl _]]]]].
           { split; [discriminate|]. split; [now constructor|discriminate]. }
           exists shapes. split; [exact E|]. split; [exact Hl|].
           split; [exact Hok|]. split; [exact Htl|intros []].
      * (* the name of a new project *)
        rewrite flush_current.
        destruct (IH (Some (Some line, [])))
          as [shapes [E [Hl [Hok [_ Hnamed]]]]].
        { split; [intros n Hn; now injection Hn as <-|].
          split; [constructor|discriminate]. }
        cbn [current_dict project_of fst snd List.map] in E.
        rewrite E. rewrite <- map_app.
        eexists. split; [reflexivity|].
        assert (Forall named shapes) as Hall by (apply Hnamed; discriminate).
        rewrite flat_map_app, Hl.
        destruct cur as [shape|]; cbn [flat_map current_lines app].
        -- rewrite app_nil_r.
           split; [reflexivity|]. split; [now constructor|].
           split; [exact Hall|]. intros Hn. now constructor.
        -- split; [reflexivity|]. split; [exact Hok|].
           split; [now destruct Hall|intros []].
    + (* an empty line *)
      exact (IH cur Hcur).
Qed.

(** X23: the projects [_extract_projects] returns are built from the
    lines of the located section that are not empty, each line used
    once and in order: a line that does not start with a bullet is the
    name of a new project, a line that does is a detail of the project
    being built.  Every project has its details; every project but the
    first has a name, and a project without a name has at least one
    detail. *)
Theorem X23_projects_partition_the_section (lines : list pystr) :
  let located :=
    _find_section U lines
      (List.map py ["projects"; "key projects"; "project work"]%string) in
  exists shapes,
    _extract_projects U lines = List.map project_value shapes
    /\ flat_map project_lines shapes = filter truthy located
    /\ Forall (fun shape =>
         (forall n, fst shape = Some n -> startswith n [bullet] = false)
         /\ Forall (fun d => startswith d [bullet] = true) (snd shape)
         /\ (fst shape = None -> snd shape <> []))
         shapes
    /\ Forall (fun shape => fst shape <> None) (tl shapes).
Proof.
  intros located. subst located. unfold _extract_projects.
  set (keywords := List.map py _).
  destruct (find_section_go_spec U keywords lines false) as [_ Hplain].
  fold (_find_section U lines keywords) in Hplain.
  destruct (projects_loop_spec (_find_section U lines keywords)) with (cur := @None (option pystr * list pystr))
    as [shapes [E [Hl [Hok [Htl _]]]]].
  - eapply Forall_impl; [|exact Hplain]. now intros a [Ha _].
  - exact I.
  - exists shapes. cbn [current_dict current_lines app] in E, Hl.
    split; [exact E|]. split; [exact Hl|]. split; [exact Hok|exact Htl].
Qed.

End Projects.

(** ** The name *)

Section Names.

Context (U : PyUnicode) (os_path_stem : pystr -> pystr).

Lemma word_nonspace (c : N) : is_word U c = true -> is_space U c = false.
Proof.
  unfold is_word, is_space. destruct (is_ascii c) eqn:Ha;
    [|apply (uword_nonspace U)].
  intros H. assert (48 <= c)%N as Hc.
  { unfold ascii_word, ascii_letter, ascii_upper_letter, ascii_lower_letter,
      ascii_digit in H.
    repeat (apply orb_true_iff in H as [H|H]);
      try (apply andb_true_iff in H as [H _]; apply N.leb_le in H; lia).
    apply N.eqb_eq in H. lia. }
  unfold ascii_space.
  destruct (N.leb_spec c 13); [lia|]. destruct (N.leb_spec c 32); [lia|].
  now rewrite !andb_false_r.
Qed.

Lemma split_ws_go_words (s : pystr) :
  forall cur, Forall (fun w => w <> []) (split_ws_go U s cur).
Proof.
  assert (forall cur : pystr, truthy cur = true -> rev cur <> []) as Hrev.
  { intros [|c cur] H; [discriminate|]. simpl. now destruct (rev cur). }
  induction s as [|c t IH]; intros cur; cbn [split_ws_go].
  - destruct (truthy cur) eqn:E; [|constructor].
    constructor; [now apply Hrev|constructor].
  - destruct (is_space U c); [|apply IH].
    destruct (truthy cur) eqn:E; [|apply IH].
    constructor; [now apply Hrev|apply IH].
Qed.

Lemma split_ws_go_nonempty (s : pystr) :
  forall cur, truthy cur = true -> split_ws_go U s cur <> [].
Proof.
  induction s as [|c t IH]; intros cur Hcur; cbn [split_ws_go];
    rewrite ?Hcur; [discriminate|].
  destruct (is_space U c); [discriminate|]. now apply IH.
Qed.

Lemma split_ws_nonempty (c : N) (s : pystr) :
  is_space U c = false -> split_ws U (c :: s) <> [].
Proof.
  intros Hc. unfold split_ws. cbn [split_ws_go]. rewrite Hc.
  now apply split_ws_go_nonempty.
Qed.

Lemma join_nonempty (sep a : pystr) (rest : list pystr) :
  a <> [] -> join sep (a :: rest) <> [].
Proof.
  intros Ha. cbn [join]. destruct rest; [exact Ha|].
  destruct a; [contradiction|discriminate].
Qed.

Lemma join_head (sep : pystr) (c : N) (a : pystr) (rest : list pystr) :
  exists s, join sep ((c :: a) :: rest) = c :: s.
Proof. cbn [join]. destruct rest; cbn [app]; eauto. Qed.

(** The characters a token of the file name is made of. *)
Definition stem_separator (c : N) : bool :=
  negb (is_word U c) || (c =? 95)%N.

Lemma stem_set_match (c : N) :
  xorb false (existsb (fun a => atom_match U false a c) [ANotWord; AChar 95])
  = stem_separator c.
Proof.
  unfold stem_separator. cbn [xorb existsb atom_match].
  unfold chr_match. cbn [andb]. rewrite (N.eqb_sym 95 c).
  now destruct (negb (is_word U c)), (c =? 95)%N.
Qed.

Lemma ms_star_nonempty (ic : bool) (a : re) (p : pos) :
  ms U ic (RStar a) p <> [].
Proof.
  cbn [ms]. destruct (length (snd p)); [discriminate|].
  intros H. apply app_eq_nil in H as [_ H]. discriminate.
Qed.

Lemma ms_set_cons (ic neg : bool) (l : list catom) (prev : option N) (c : N)
  (t : pystr) :
  ms U ic (RSet neg l) (prev, c :: t)
  = if xorb neg (existsb (fun a => atom_match U ic a c) l)
    then [(Some c, t)] else [].
Proof. reflexivity. Qed.

Lemma match_len_stem (prev : option N) (c : N) (t : pystr) :
  match match_len U false stem_split_re prev (c :: t) with
  | Some (S _) => stem_separator c = true
  | Some O => False
  | None => stem_separator c = false
  end.
Proof.
  unfold match_len, stem_split_re, RPlus.
  rewrite ms_seq_eq, ms_set_cons, stem_set_match.
  destruct (stem_separator c); [|reflexivity].
  cbn [flat_map]. rewrite app_nil_r.
  pose proof (ms_star_nonempty false (RSet false [ANotWord; AChar 95])
                (Some c, t)) as Hne.
  destruct (ms U false (RStar (RSet false [ANotWord; AChar 95])) (Some c, t))
    as [|[q rest] l] eqn:E; [contradiction|].
  destruct (ms_consumes U false (RStar (RSet false [ANotWord; AChar 95]))
              (Some c, t) (q, rest)) as [a Ha]; [rewrite E; now left|].
  unfold consumes in Ha. cbn [snd] in Ha. subst t.
  cbn [length]. rewrite length_app.
  replace (S (length a + length rest) - length rest)
    with (S (length a)) by lia.
  reflexivity.
Qed.

Lemma re_split_go_stem (s : pystr) :
  forall prev skip cur,
    Forall (fun c => stem_separator c = false) cur ->
    Forall (Forall (fun c => stem_separator c = false))
      (re_split_go U false stem_split_re prev s skip cur).
Proof.
  induction s as [|c t IH]; intros prev skip cur Hcur.
  - destruct skip; cbn [re_split_go].
    + destruct (match_len U false stem_split_re prev []) as [[|n]|];
        repeat constructor; now apply Forall_rev.
    + repeat constructor. now apply Forall_rev.
  - destruct skip; cbn [re_split_go]; [|now apply IH].
    pose proof (match_len_stem prev c t) as Hm.
    destruct (match_len U false stem_split_re prev (c :: t)) as [[|n]|].
    + contradiction.
    + constructor; [now apply Forall_rev|]. apply IH. constructor.
    + apply IH. now constructor.
Qed.

Lemma upper_char_nonempty (c : N) :
  (forall x, uupper U x <> []) -> upper_char U c <> [].
Proof.
  intros H. unfold upper_char. destruct (is_ascii c); [discriminate|apply H].
Qed.

(** X24: provided upper-casing a character never gives the empty
    string, which holds of every character in Unicode, the name
    [_extract_name] returns is never empty: it is a line of the text,
    a name made from the file name, or "Unknown Candidate". *)
Theorem X24_extracted_name_is_never_empty (file_path : pystr)
  (lines : list pystr) :
  (forall c, uupper U c <> []) ->
  truthy (_extract_name U os_path_stem file_path lines) = true.
Proof.
  intros Hupper. unfold _extract_name.
  match goal with
  | |- truthy (match ?above with Some line => line | None => ?other end)
       = true =>
      destruct above as [line|] eqn:Eabove
  end.
  { (* a line above the earliest contact line *)
    assert (looks_like_name U line = true) as Hname.
    { destruct (min_index _ _) as [pivot|]; [|discriminate].
      now apply find_some in Eabove as [_ H]. }
    unfold looks_like_name in Hname.
    destruct line as [|c line]; [discriminate Hname|reflexivity]. }
  clear Eabove.
  match goal with
  | |- truthy (match ?strict with Some line => strip U line | None => ?other end)
       = true =>
      destruct strict as [line|] eqn:Estrict
  end.
  { (* a line that has the shape of a name *)
    apply find_some in Estrict as [_ H].
    apply andb_true_iff in H as [_ H].
    destruct (strip U line) as [|c s]; [discriminate H|reflexivity]. }
  clear Estrict.
  (* the file name *)
  set (pieces := re_split U false stem_split_re (os_path_stem file_path)).
  set (keep := fun t : pystr =>
                 truthy t && negb (existsb (pystr_eqb (lower U t))
                                     name_blacklist)).
  destruct ((1 <=? length (filter keep pieces))
            && (length (filter keep pieces) <=? 4)) eqn:Hlen; [|reflexivity].
  apply andb_true_iff in Hlen as [Hlen _]. apply Nat.leb_le in Hlen.
  destruct (filter keep pieces) as [|token tokens] eqn:Etokens;
    [simpl in Hlen; lia|].
  assert (In token (filter keep pieces)) as Hin by (rewrite Etokens; now left).
  apply filter_In in Hin as [Hpiece Hkeep].
  apply andb_true_iff in Hkeep as [Hne _].
  destruct token as [|c token]; [discriminate Hne|].
  assert (is_space U c = false) as Hc.
  { pose proof (re_split_go_stem (os_path_stem file_path) None 0 []
                  (Forall_nil _)) as Hall.
    rewrite Forall_forall in Hall. specialize (Hall _ Hpiece).
    inversion Hall as [|? ? Hsep _]; subst.
    apply word_nonspace. unfold stem_separator in Hsep.
    apply orb_false_iff in Hsep as [Hw _]. now apply negb_false_iff in Hw. }
  destruct (join_head (py " ") c token tokens) as [s ->].
  pose proof (split_ws_nonempty c s Hc) as Hwords.
  pose proof (split_ws_go_words (c :: s) []) as Hall.
  fold (split_ws U (c :: s)) in Hall.
  destruct (split_ws U (c :: s)) as [|w ws]; [contradiction|].
  inversion Hall as [|? ? Hw _]; subst.
  cbn [List.map].
  assert (capitalize_first U w <> []) as Hcap.
  { destruct w as [|x w]; [contradiction|]. cbn [capitalize_first].
    pose proof (upper_char_nonempty x Hupper) as Hx.
    destruct (upper_char U x); [contradiction|discriminate]. }
  pose proof (join_nonempty (py " ") (capitalize_first U w)
                (List.map (capitalize_first U) ws) Hcap) as Hjoin.
  now destruct (join (py " ") _).
Qed.

End Names.

(** The witness of X24: no lines, and the file name "john_doe_resume". *)
Lemma X24_extracted_name_witness :
  (forall c, uupper latin1 c <> [])
  /\ truthy (_extract_name latin1 (fun path => path) (py "john_doe_resume") [])
     = true.
Proof.
  assert (forall c, uupper latin1 c <> []) as Hupper.
  { intros c. cbn [uupper latin1]. unfold latin1_upper_char.
    destruct ((224 <=? c) && (c <=? 254) && negb (c =? 247))%N;
      [discriminate|].
    destruct (c =? 223)%N; [discriminate|].
    destruct (c =? 181)%N; [discriminate|].
    destruct (c =? 255)%N; discriminate. }
  split; [exact Hupper|].
  exact (X24_extracted_name_is_never_empty latin1 (fun path => path)
           (py "john_doe_resume") [] Hupper).
Defined.

(** * Further properties of the simple parser *)

Section SimpleContent.

Context (U : PyUnicode).

(** X25: in the record [extract_resume_content] returns, the name is
    empty or one of the first five lines that are not blank, stripped,
    and then has more than three characters and no contact
    information; the e-mail address, the phone number and the LinkedIn
    address are each a piece, possibly empty, of the first fifteen
    such lines joined by spaces. *)
Theorem X25_simple_record_reads_the_head_of_the_text (text : pystr) :
  let lines :=
    List.map (strip U)
      (filter (fun l => truthy (strip U l)) (split_char 10 text)) in
  let record := extract_resume_content U text in
  exists name email phone linkedin,
    dict_lookup record (py "name") = Some (VStr name)
    /\ dict_lookup record (py "email") = Some (VStr email)
    /\ dict_lookup record (py "phone") = Some (VStr phone)
    /\ dict_lookup record (py "linkedin") = Some (VStr linkedin)
    /\ (name = []
        \/ In name (firstn 5 lines) /\ has_contact_info U name = false
           /\ 3 < length name)
    /\ occurs_in email (join (py " ") (firstn 15 lines))
    /\ occurs_in phone (join (py " ") (firstn 15 lines))
    /\ occurs_in linkedin (join (py " ") (firstn 15 lines)).
Proof.
  intros lines record. subst record. unfold extract_resume_content.
  fold lines. set (contact_text := join (py " ") (firstn 15 lines)).
  set (first_match := fun (ic : bool) (r : re) =>
         match search_text U ic r contact_text with
         | Some g => g
         | None => []
         end).
  assert (forall ic r, occurs_in (first_match ic r) contact_text) as Hoccurs.
  { intros ic r. unfold first_match.
    destruct (search_text U ic r contact_text) as [g|] eqn:E;
      [exact (search_text_occurs U ic r contact_text g E)
      |apply occurs_in_empty]. }
  exists (simple_name U lines), (first_match false simple_email_re),
    (first_match false simple_phone_re), (first_match true simple_linkedin_re).
  split; [reflexivity|].
  split; [unfold first_match; now destruct (search_text U false simple_email_re _)|].
  split; [unfold first_match; now destruct (search_text U false simple_phone_re _)|].
  split; [unfold first_match;
          now destruct (search_text U true simple_linkedin_re _)|].
  split; [|split; [|split]]; try apply Hoccurs.
  unfold simple_name.
  destruct (find _ (firstn 5 lines)) as [line|] eqn:E; [|now left].
  right. apply find_some in E as [Hin H].
  apply andb_true_iff in H as [Hc Hl].
  split; [exact Hin|]. split; [now apply negb_true_iff in Hc|].
  now apply Nat.ltb_lt in Hl.
Qed.

End SimpleContent.
